(** * ODBC connector: the interactive connection manager of [db/connector2.py]

    A shallow embedding of [DatabaseConnector] ([__init__], [_select_dsn],
    [_prompt_credentials], [connect], [query_dataframe], [close]) and the
    properties of its retry loop, data-source selection and clean-up.

    The collaborators the Python code only consumes are kept opaque:
    - the ODBC driver ([pyodbc]) and [pandas.read_sql] form a deterministic
      state machine over an abstract driver state (class [Driver]);
    - the terminal ([input], [getpass.getpass]) is a script: for every prompt
      text the lines the user will type, in order; reading past the end of a
      script raises the [EOFError] of the call that reads ([input] and
      [getpass.getpass] word it differently);
    - [print] and the shared [logger] only append to the trace of events;
    - the interpreter: [int()] is modelled on ASCII lines, with the limit on
      the number of digits ([sys.get_int_max_str_digits()]) as a parameter;
      what [int()] makes of a line holding non-ASCII characters (the
      Unicode digits and blanks of the interpreter's character database) is
      a parameter too, which the scripted machine of [Bench] sets to what
      CPython 3.11 does.

    Python strings are modelled by [string] (byte strings); for [str.strip]
    and [str.lower] whitespace and letter case are the ASCII ones.  Only
    exceptions deriving from [Exception] are modelled ([KeyboardInterrupt]
    and [SystemExit] are not). *)

From Stdlib Require Import ZArith List Bool String Ascii Lia DecimalString.
From Stdlib Require DecimalPos DecimalFacts.
Import ListNotations.
Local Open Scope string_scope.
Local Open Scope Z_scope.
Local Open Scope list_scope.

(** String concatenation, Python's [+] on [str] and f-string splicing. *)
Infix "+s" := String.append (at level 60, right associativity).

(** ** Python string helpers *)

Module PyStr.

(** [str.isspace] on ASCII: TAB..CR, FS..US and SPACE. *)
Definition is_space (c : ascii) : bool :=
  let n := nat_of_ascii c in
  ((9 <=? n)%nat && (n <=? 13)%nat) || ((28 <=? n)%nat && (n <=? 32)%nat).

Fixpoint lstrip (s : string) : string :=
  match s with
  | EmptyString => EmptyString
  | String c rest => if is_space c then lstrip rest else s
  end.

Fixpoint rev_onto (s acc : string) : string :=
  match s with
  | EmptyString => acc
  | String c rest => rev_onto rest (String c acc)
  end.

Definition rev (s : string) : string := rev_onto s EmptyString.

Definition rstrip (s : string) : string := rev (lstrip (rev s)).

(** [s.strip()] *)
Definition strip (s : string) : string := rstrip (lstrip s).

Definition lower_char (c : ascii) : ascii :=
  let n := nat_of_ascii c in
  if ((65 <=? n)%nat && (n <=? 90)%nat) then ascii_of_nat (n + 32) else c.

(** [s.lower()] *)
Fixpoint lower (s : string) : string :=
  match s with
  | EmptyString => EmptyString
  | String c rest => String (lower_char c) (lower rest)
  end.

(** [str(n)] and [f"{n}"] for an [int]. *)
Definition of_Z (n : Z) : string := NilZero.string_of_int (Z.to_int n).

Definition digit_of (c : ascii) : option Z :=
  let n := nat_of_ascii c in
  if ((48 <=? n)%nat && (n <=? 57)%nat) then Some (Z.of_nat (n - 48)) else None.

(** Decimal digits, single underscores allowed between two digits. *)
Fixpoint parse_digits (s : string) (acc : Z) (after_digit : bool) : option Z :=
  match s with
  | EmptyString => if after_digit then Some acc else None
  | String c rest =>
      match digit_of c with
      | Some d => parse_digits rest (10 * acc + d) true
      | None =>
          if (Ascii.eqb c "_" && after_digit)%bool
          then parse_digits rest acc false
          else None
      end
  end.

(** The blanks [int()] skips around an ASCII literal: TAB..CR and SPACE.
    FS..US, which [str.strip] removes, are not among them. *)
Definition is_int_space (c : ascii) : bool :=
  let n := nat_of_ascii c in
  ((9 <=? n)%nat && (n <=? 13)%nat) || (n =? 32)%nat.

Fixpoint skip_blanks (s : string) : string :=
  match s with
  | EmptyString => EmptyString
  | String c rest => if is_int_space c then skip_blanks rest else s
  end.

(** The literal between the leading and the trailing blanks. *)
Definition between_blanks (s : string) : string :=
  rev (skip_blanks (rev (skip_blanks s))).

Definition is_ascii_char (c : ascii) : bool := (nat_of_ascii c <? 128)%nat.

(** [s.isascii()] *)
Fixpoint isascii (s : string) : bool :=
  match s with
  | EmptyString => true
  | String c rest => is_ascii_char c && isascii rest
  end.

(** The digits of a literal, underscores not counted. *)
Fixpoint count_digits (s : string) : nat :=
  match s with
  | EmptyString => O
  | String c rest =>
      match digit_of c with
      | Some _ => S (count_digits rest)
      | None => count_digits rest
      end
  end.

(** Literals of up to 640 digits are never refused for their length;
    longer ones are when a limit is set (0 means none) and they exceed it. *)
Definition MAX_STR_DIGITS_THRESHOLD : nat := 640.

Definition exceeds_limit (max_str_digits digits : nat) : bool :=
  (MAX_STR_DIGITS_THRESHOLD <? digits)%nat
  && (0 <? max_str_digits)%nat && (max_str_digits <? digits)%nat.

Definition literal (max_str_digits : nat) (digits : string) : option Z :=
  if exceeds_limit max_str_digits (count_digits digits) then None
  else parse_digits digits 0 false.

(** [int(s)] on an ASCII string: blanks, an optional sign, the literal,
    blanks; [None] where Python raises [ValueError].  [max_str_digits] is
    [sys.get_int_max_str_digits()]. *)
Definition int_ascii (max_str_digits : nat) (s : string) : option Z :=
  match between_blanks s with
  | String "+" digits => literal max_str_digits digits
  | String "-" digits => option_map Z.opp (literal max_str_digits digits)
  | digits => literal max_str_digits digits
  end.

(** [int(s)].  On a string that is not ASCII only, Python first maps the
    Unicode blanks and decimal digits of its character database to ASCII:
    [non_ascii] stands for the outcome there. *)
Definition int (max_str_digits : nat) (non_ascii : string -> option Z) (s : string)
  : option Z :=
  if isascii s then int_ascii max_str_digits s else non_ascii s.

(** [bool(s)] for [Optional[str]]: [None] and the empty string are falsy. *)
Definition truthy (s : option string) : option string :=
  match s with
  | Some EmptyString | None => None
  | Some v => Some v
  end.

End PyStr.

(** ** Exceptions, events and the effect monad *)

Inductive ExnClass : Type :=
| RuntimeError
| ValueError
| EOFError
| ModuleNotFoundError
| pyodbc_Error            (* [pyodbc.Error] and its subclasses *)
| OtherException.         (* any other subclass of [Exception] *)

Record Exn : Type := mkExn { exn_class : ExnClass; exn_str : string }.

Inductive Connection : Type := ConnectionHandle (id : nat).
Inductive Cursor : Type := CursorHandle (id : nat).
Inductive DataFrame : Type := DataFrameOf (rows : list (list string)).

Inductive Level : Type := DEBUG | INFO | ERROR.

Inductive Event : Type :=
| EvPrint (text : string)                    (* print(text) *)
| EvLog (lvl : Level) (msg : string)         (* logger.debug / info / error *)
| EvInput (prompt : string)                  (* input(prompt) *)
| EvGetpass (prompt : string)                (* getpass.getpass(prompt) *)
| EvDataSources                              (* pyodbc.dataSources() *)
| EvConnect (conn_str : string)              (* pyodbc.connect(conn_str) *)
| EvCursor (c : Connection)                  (* c.cursor() *)
| EvCursorClose (cur : Cursor)               (* cur.close() *)
| EvConnClose (c : Connection)               (* c.close() *)
| EvReadSql (sql : string) (c : Connection). (* pd.read_sql(sql, c) *)

Inductive Result (A : Type) : Type :=
| Ok (a : A)
| Raise (e : Exn).
Arguments Ok {A} a.
Arguments Raise {A} e.

(** A computation runs from a state, ends normally or by an exception, and
    in both cases leaves a state and the events it produced: what was
    assigned before an exception stays assigned. *)
Definition M (S A : Type) : Type := S -> Result A * S * list Event.

Definition ret {S A} (a : A) : M S A := fun s => (Ok a, s, []).

Definition bind {S A B} (c : M S A) (k : A -> M S B) : M S B :=
  fun s =>
    match c s with
    | (Ok a, s1, ev1) =>
        match k a s1 with
        | (r, s2, ev2) => (r, s2, ev1 ++ ev2)
        end
    | (Raise e, s1, ev1) => (Raise e, s1, ev1)
    end.

Definition raise {S A} (e : Exn) : M S A := fun s => (Raise e, s, []).

Definition emit {S} (ev : Event) : M S unit := fun s => (Ok tt, s, [ev]).

(** [try: body / except ...]: [handler e] is [Some h] when a clause matches
    [e] (the first matching clause), [None] when none does. *)
Definition try_except {S A} (body : M S A) (handler : Exn -> option (M S A)) : M S A :=
  fun s =>
    match body s with
    | (Ok a, s1, ev1) => (Ok a, s1, ev1)
    | (Raise e, s1, ev1) =>
        match handler e with
        | Some h =>
            match h s1 with
            | (r, s2, ev2) => (r, s2, ev1 ++ ev2)
            end
        | None => (Raise e, s1, ev1)
        end
    end.

Declare Scope py_scope.
Delimit Scope py_scope with py.
Notation "x <- c ;; k" := (bind c (fun x => k))
  (at level 61, c at next level, right associativity) : py_scope.
Notation "c ;; k" := (bind c (fun _ => k))
  (at level 61, right associativity) : py_scope.
Local Open Scope py_scope.

Definition print {S} (text : string) : M S unit := emit (EvPrint text).
Definition logger_debug {S} (msg : string) : M S unit := emit (EvLog DEBUG msg).
Definition logger_info {S} (msg : string) : M S unit := emit (EvLog INFO msg).
Definition logger_error {S} (msg : string) : M S unit := emit (EvLog ERROR msg).

(** ** The environment: driver, pandas and the scripted terminal *)

(** [sys.maxsize], the largest number of items of a Python container. *)
Definition PY_SSIZE_T_MAX : Z := 2 ^ 63 - 1.

(** The capabilities taken from [pyodbc] and [pandas], over an abstract
    driver state [D], and the two points left open about the interpreter.
    [pyodbc_dataSources] gives the items of the dict returned by
    [pyodbc.dataSources()], in its iteration order; like every Python
    container it holds at most [sys.maxsize] items. *)
Class Driver (D : Type) : Type := {
  pyodbc_dataSources : D -> list (string * string);
  pyodbc_dataSources_size :
    forall d, Z.of_nat (List.length (pyodbc_dataSources d)) <= PY_SSIZE_T_MAX;
  pyodbc_connect : string -> D -> Result Connection * D;
  Connection_cursor : Connection -> D -> Result Cursor * D;
  Cursor_close : Cursor -> D -> Result unit * D;
  Connection_close : Connection -> D -> Result unit * D;
  pandas_importable : D -> bool;
  pd_read_sql : string -> Connection -> D -> Result DataFrame * D;
  sys_int_max_str_digits : nat;
  int_non_ascii : string -> option Z
}.

(** [answers prompt]: the lines still to be typed at [prompt]. *)
Record World (D : Type) : Type := mkWorld {
  answers : string -> list string;
  driver : D
}.
Arguments mkWorld {D} answers driver.
Arguments answers {D} w prompt.
Arguments driver {D} w.

(** The attributes of a [DatabaseConnector] instance. *)
Record DatabaseConnector : Type := mkDatabaseConnector {
  dsn : string;
  username : string;
  password : string;
  conn : option Connection;
  cursor : option Cursor
}.

(** A method runs on the instance and the world around it. *)
Record State (D : Type) : Type := mkState {
  self : DatabaseConnector;
  world : World D
}.
Arguments mkState {D} self world.
Arguments self {D} s.
Arguments world {D} s.

Definition set_answers {D} (prompt : string) (lines : list string) (w : World D) : World D :=
  mkWorld (fun p => if String.eqb p prompt then lines else answers w p) (driver w).

Definition set_driver {D} (d : D) (w : World D) : World D :=
  mkWorld (answers w) d.

Definition select_prompt : string := "Select a DSN by number: ".
Definition username_prompt : string := "Enter your database username: ".
Definition password_prompt : string := "Enter your database password: ".
Definition retry_prompt : string := "Retry? [Y/n]: ".
Definition change_dsn_prompt : string := "Change DSN as well? [y/N]: ".

(** At end of input [input()] raises [EOFError("EOF when reading a line")],
    [getpass.getpass()] a bare [EOFError]. *)
Definition EOF_when_reading : Exn := mkExn EOFError "EOF when reading a line".
Definition EOF_in_getpass : Exn := mkExn EOFError EmptyString.

Section Connector.

Context {D : Type} `{Driver D}.

(** Reads the next scripted line for [prompt]; [ev] records which of
    [input] and [getpass] asked, [eof] is what it raises at end of input. *)
Definition read_line (ev : Event) (eof : Exn) (prompt : string) : M (World D) string :=
  fun w =>
    match answers w prompt with
    | [] => (Raise eof, w, [ev])
    | line :: rest => (Ok line, set_answers prompt rest w, [ev])
    end.

Definition input (prompt : string) : M (World D) string :=
  read_line (EvInput prompt) EOF_when_reading prompt.

Definition getpass (prompt : string) : M (World D) string :=
  read_line (EvGetpass prompt) EOF_in_getpass prompt.

(** [int(line)] on this interpreter. *)
Definition py_int (line : string) : option Z :=
  PyStr.int sys_int_max_str_digits int_non_ascii line.

(** A call into the driver (or pandas): recorded, then run on the driver state. *)
Definition call {A} (ev : Event) (op : D -> Result A * D) : M (World D) A :=
  fun w =>
    match op (driver w) with
    | (r, d) => (r, set_driver d w, [ev])
    end.

(** Runs a computation on the world from inside a method. *)
Definition lift {A} (c : M (World D) A) : M (State D) A :=
  fun st =>
    match c (world st) with
    | (r, w, ev) => (r, mkState (self st) w, ev)
    end.

Definition get_self : M (State D) DatabaseConnector :=
  fun st => (Ok (self st), st, []).

Definition set_self (f : DatabaseConnector -> DatabaseConnector) : M (State D) unit :=
  fun st => (Ok tt, mkState (f (self st)) (world st), []).

Definition with_dsn (v : string) (o : DatabaseConnector) : DatabaseConnector :=
  mkDatabaseConnector v (username o) (password o) (conn o) (cursor o).
Definition with_username (v : string) (o : DatabaseConnector) : DatabaseConnector :=
  mkDatabaseConnector (dsn o) v (password o) (conn o) (cursor o).
Definition with_password (v : string) (o : DatabaseConnector) : DatabaseConnector :=
  mkDatabaseConnector (dsn o) (username o) v (conn o) (cursor o).
Definition with_conn (v : option Connection) (o : DatabaseConnector) : DatabaseConnector :=
  mkDatabaseConnector (dsn o) (username o) (password o) v (cursor o).
Definition with_cursor (v : option Cursor) (o : DatabaseConnector) : DatabaseConnector :=
  mkDatabaseConnector (dsn o) (username o) (password o) (conn o) v.

(** *** [_select_dsn] *)

(** [for i, (name, driver) in enumerate(dsn_list): print(f"[{i}] {name}  ({driver})")] *)
Fixpoint listing (i : Z) (dsn_list : list (string * string)) : list Event :=
  match dsn_list with
  | [] => []
  | (name, drv) :: rest =>
      EvPrint ("[" +s PyStr.of_Z i +s "] " +s name +s "  (" +s drv +s ")")
        :: listing (i + 1) rest
  end.

(** The [while True] loop of [_select_dsn], by recursion on the lines
    still scripted for its prompt: every iteration reads one line, and
    the loop ends by [return], or by the [EOFError] of [input] when no
    line is left ([EOFError] is not a [ValueError], so it leaves the
    loop).  Gives the outcome, the lines left and the events. *)
Fixpoint select_loop (dsn_list : list (string * string)) (lines : list string)
  : Result string * list string * list Event :=
  match lines with
  | [] => (Raise EOF_when_reading, [], [EvInput select_prompt])
  | line :: rest =>
      match py_int line with
      | Some selection =>
          if (0 <=? selection) && (selection <? Z.of_nat (List.length dsn_list)) then
            let selected := fst (List.nth (Z.to_nat selection) dsn_list (EmptyString, EmptyString)) in
            (Ok selected, rest,
             [EvInput select_prompt; EvLog INFO ("User selected DSN: " +s selected)])
          else
            match select_loop dsn_list rest with
            | (r, rest', ev) =>
                (r, rest',
                 EvInput select_prompt :: EvPrint "Invalid selection. Try again." :: ev)
            end
      | None =>                                   (* except ValueError *)
          match select_loop dsn_list rest with
          | (r, rest', ev) =>
              (r, rest',
               EvInput select_prompt :: EvPrint "Please enter a valid number." :: ev)
          end
      end
  end.

Definition _select_dsn : M (World D) string :=
  sources <- call EvDataSources (fun d => (Ok (pyodbc_dataSources d), d)) ;;
  let dsn_list := sources in
  match dsn_list with
  | [] => raise (mkExn RuntimeError "No DSNs found on this system.")
  | _ :: _ =>
      print "Available DSNs:" ;;
      (fun w => (Ok tt, w, listing 0 dsn_list)) ;;
      (fun w =>
         match select_loop dsn_list (answers w select_prompt) with
         | (r, rest, ev) => (r, set_answers select_prompt rest w, ev)
         end)
  end.

(** *** [__init__] *)

Definition __init__ (dsn0 username0 password0 : option string)
  : M (World D) DatabaseConnector :=
  the_dsn <- match PyStr.truthy dsn0 with
             | Some v => ret v
             | None => _select_dsn
             end ;;
  the_username <- match PyStr.truthy username0 with
                  | Some v => ret v
                  | None => line <- input username_prompt ;; ret (PyStr.strip line)
                  end ;;
  the_password <- match PyStr.truthy password0 with
                  | Some v => ret v
                  | None => getpass password_prompt
                  end ;;
  ret (mkDatabaseConnector the_dsn the_username the_password None None).

(** *** [_prompt_credentials] *)

Definition _prompt_credentials (prompt_username : bool) : M (State D) unit :=
  (if prompt_username then
     line <- lift (input username_prompt) ;;
     set_self (with_username (PyStr.strip line))
   else ret tt) ;;
  secret <- lift (getpass password_prompt) ;;
  set_self (with_password secret).

(** *** [connect] *)

Definition conn_str_of (o : DatabaseConnector) : string :=
  "DSN=" +s dsn o +s ";UID=" +s username o +s ";PWD=" +s password o.

Definition attempt_message (attempts : Z) (o : DatabaseConnector) : string :=
  "Attempting connection (attempt " +s PyStr.of_Z attempts +s ") to DSN='"
    +s dsn o +s "' as user='" +s username o +s "'".

Definition connected_message (attempts : Z) (o : DatabaseConnector) : string :=
  "Connected to DSN '" +s dsn o +s "' successfully on attempt "
    +s PyStr.of_Z attempts +s ".".

Definition NL : string := String (ascii_of_nat 10) EmptyString.

(** The [try] statement of one attempt (lines 87-100): [Some returned] when
    its [return] is reached, [None] when a handler ran and control falls
    through to the retry dialogue. *)
Definition attempt_connection (attempts : Z)
  : M (State D) (option (option Connection * option Cursor)) :=
  try_except
    (o <- get_self ;;
     let conn_str := conn_str_of o in
     logger_debug (attempt_message attempts o) ;;
     c <- lift (call (EvConnect conn_str) (pyodbc_connect conn_str)) ;;
     set_self (with_conn (Some c)) ;;
     cur <- lift (call (EvCursor c) (Connection_cursor c)) ;;
     set_self (with_cursor (Some cur)) ;;
     o <- get_self ;;
     logger_info (connected_message attempts o) ;;
     o <- get_self ;;
     ret (Some (conn o, cursor o)))
    (fun e =>
       match exn_class e with
       | pyodbc_Error =>
           Some (logger_error ("ODBC error on attempt " +s PyStr.of_Z attempts
                                 +s ": " +s exn_str e) ;;
                 ret None)
       | _ =>
           Some (logger_error ("Unexpected error on attempt " +s PyStr.of_Z attempts
                                 +s ": " +s exn_str e) ;;
                 ret None)
       end).

(** Lines 108-115: the offer to change the DSN. *)
Definition offer_change_dsn (allow_change_dsn : bool) : M (State D) unit :=
  if allow_change_dsn then
    line <- lift (input change_dsn_prompt) ;;
    let change_dsn := PyStr.lower (PyStr.strip line) in
    if String.eqb change_dsn "y" then
      try_except
        (selected <- lift _select_dsn ;;
         set_self (with_dsn selected))
        (fun e =>
           Some (print ("Unable to change DSN: " +s exn_str e) ;;
                 logger_error ("Unable to change DSN after failure: " +s exn_str e)))
    else ret tt
  else ret tt.

(** Lines 120-122, reached when the loop ends without a [return]. *)
Definition connect_failed : M (State D) (option Connection * option Cursor) :=
  print "Unable to connect after multiple attempts." ;;
  logger_error "Exhausted connection attempts without success." ;;
  ret (None, None).

(** The [while attempts < max_attempts] loop.  [remaining] is
    [max_attempts - attempts] (0 when that is negative): the test of the
    loop holds exactly when it is not 0, and every iteration adds 1 to
    [attempts]. *)
Fixpoint connect_loop (remaining : nat) (attempts : Z)
    (allow_change_dsn reprompt_username : bool)
  : M (State D) (option Connection * option Cursor) :=
  match remaining with
  | O => connect_failed
  | S remaining' =>
      let attempts := attempts + 1 in
      r <- attempt_connection attempts ;;
      match r with
      | Some returned => ret returned                      (* return self.conn, self.cursor *)
      | None =>
          print (NL +s "Connection failed.") ;;
          line <- lift (input retry_prompt) ;;
          let retry := PyStr.lower (PyStr.strip line) in
          if String.eqb retry "n" then connect_failed      (* break *)
          else
            offer_change_dsn allow_change_dsn ;;
            _prompt_credentials reprompt_username ;;
            connect_loop remaining' attempts allow_change_dsn reprompt_username
      end
  end.

Definition connect (max_attempts : Z) (allow_change_dsn reprompt_username : bool)
  : M (State D) (option Connection * option Cursor) :=
  connect_loop (Z.to_nat (max_attempts - 0)) 0 allow_change_dsn reprompt_username.

(** *** [query_dataframe] *)

(** [import pandas as pd], first statement of [query_dataframe]. *)
Definition import_pandas : M (State D) unit :=
  fun st =>
    if pandas_importable (driver (world st)) then (Ok tt, st, [])
    else (Raise (mkExn ModuleNotFoundError "No module named 'pandas'"), st, []).

Definition query_dataframe (sql : string) : M (State D) DataFrame :=
  import_pandas ;;
  o <- get_self ;;
  match conn o with
  | None =>
      raise (mkExn RuntimeError "No active database connection. Call connect() first.")
  | Some c => lift (call (EvReadSql sql c) (pd_read_sql sql c))
  end.

(** *** [close] *)

Definition close : M (State D) unit :=
  try_except
    (o <- get_self ;;
     match cursor o with
     | Some cur =>
         lift (call (EvCursorClose cur) (Cursor_close cur)) ;;
         logger_info "Cursor closed."
     | None => ret tt
     end ;;
     o <- get_self ;;
     match conn o with
     | Some c =>
         lift (call (EvConnClose c) (Connection_close c)) ;;
         logger_info "Connection closed."
     | None => ret tt
     end)
    (fun e => Some (logger_error ("Error closing resources: " +s exn_str e))).

End Connector.

(** ** A scripted driver, for running the connector on concrete inputs *)

Module Bench.

Record T : Type := mk {
  sources : list (string * string);      (* data sources; the first 64 are listed *)
  opens : list (Result Connection);      (* outcomes of the coming pyodbc.connect calls *)
  new_cursor : Connection -> Result Cursor;
  cursor_close : Cursor -> Result unit;
  conn_close : Connection -> Result unit;
  pandas : option (string -> Connection -> Result DataFrame)
}.

Definition login_failed : Exn := mkExn pyodbc_Error "[28000] Login failed".

Definition registered (d : T) : list (string * string) := firstn 64 (sources d).

Definition open_next (d : T) : Result Connection * T :=
  match opens d with
  | [] => (Raise login_failed, d)
  | r :: rest =>
      (r, mk (sources d) rest (new_cursor d) (cursor_close d) (conn_close d) (pandas d))
  end.

(** *** [int()] of CPython 3.11 on lines that are not ASCII only *)

(** The code points of a UTF-8 string; [pending] continuation bytes are
    still due for the code point that starts with [acc]. *)
Fixpoint utf8_decode (s : string) (pending : nat) (acc : N) : option (list N) :=
  match s with
  | EmptyString => match pending with O => Some [] | S _ => None end
  | String c rest =>
      let b := N_of_ascii c in
      match pending with
      | O =>
          if (b <? 128)%N then option_map (cons b) (utf8_decode rest 0 0%N)
          else if ((194 <=? b) && (b <=? 223))%N then utf8_decode rest 1 (b - 192)%N
          else if ((224 <=? b) && (b <=? 239))%N then utf8_decode rest 2 (b - 224)%N
          else if ((240 <=? b) && (b <=? 244))%N then utf8_decode rest 3 (b - 240)%N
          else None
      | S pending' =>
          if ((128 <=? b) && (b <=? 191))%N then
            let acc' := (64 * acc + (b - 128))%N in
            match pending' with
            | O => option_map (cons acc') (utf8_decode rest 0 0%N)
            | S _ => utf8_decode rest pending' acc'
            end
          else None
      end
  end.

(** The code points above ASCII with decimal value 0 (Unicode 14.0): each
    is followed by the digits 1 to 9 of its script. *)
Definition unicode_zeros : list N :=
  [1632; 1776; 1984; 2406; 2534; 2662; 2790; 2918; 3046; 3174; 3302; 3430;
   3558; 3664; 3792; 3872; 4160; 4240; 6112; 6160; 6470; 6608; 6784; 6800;
   6992; 7088; 7232; 7248; 42528; 43216; 43264; 43472; 43504; 43600; 44016;
   65296; 66720; 68912; 69734; 69872; 69942; 70096; 70384; 70736; 70864;
   71248; 71360; 71472; 71904; 72016; 72784; 73040; 73120; 92768; 92864;
   93008; 120782; 120792; 120802; 120812; 120822; 123200; 123632; 125264;
   130032]%N.

(** The code points above ASCII for which [str.isspace] holds. *)
Definition unicode_spaces : list N :=
  [133; 160; 5760; 8192; 8193; 8194; 8195; 8196; 8197; 8198; 8199; 8200;
   8201; 8202; 8232; 8233; 8239; 8287; 12288]%N.

Definition unicode_decimal (cp : N) : option N :=
  option_map (fun zero => (cp - zero)%N)
    (find (fun zero => ((zero <=? cp) && (cp <? zero + 10))%N) unicode_zeros).

(** What [int()] reads instead of the code point [cp]: itself below 127, a
    space for a blank, the ASCII digit of a decimal digit; nothing else. *)
Definition ascii_of_code_point (cp : N) : option ascii :=
  if (cp <? 127)%N then Some (ascii_of_N cp)
  else if existsb (N.eqb cp) unicode_spaces then Some " "%char
  else option_map (fun d => ascii_of_N (48 + d)) (unicode_decimal cp).

Fixpoint ascii_of_code_points (cps : list N) : option string :=
  match cps with
  | [] => Some EmptyString
  | cp :: rest =>
      match ascii_of_code_point cp, ascii_of_code_points rest with
      | Some c, Some s => Some (String c s)
      | _, _ => None
      end
  end.

Definition cpython_int_non_ascii (max_str_digits : nat) (s : string) : option Z :=
  match utf8_decode s 0 0%N with
  | Some cps =>
      match ascii_of_code_points cps with
      | Some a => PyStr.int_ascii max_str_digits a
      | None => None
      end
  | None => None
  end.

(** The string of the given bytes. *)
Fixpoint of_bytes (l : list N) : string :=
  match l with
  | [] => EmptyString
  | b :: rest => String (ascii_of_N b) (of_bytes rest)
  end.

Definition registered_size (d : T)
  : Z.of_nat (List.length (registered d)) <= PY_SSIZE_T_MAX :=
  Z.le_trans _ _ _
    (proj1 (Nat2Z.inj_le _ _) (firstn_le_length 64 (sources d)))
    (proj1 (Z.leb_le (Z.of_nat 64) PY_SSIZE_T_MAX) eq_refl).

(** The interpreter is CPython 3.11 with its default limit of 4300 digits. *)
#[export] Instance scripted_driver : Driver T := {
  pyodbc_dataSources := registered;
  pyodbc_dataSources_size := registered_size;
  pyodbc_connect _ d := open_next d;
  Connection_cursor c d := (new_cursor d c, d);
  Cursor_close cur d := (cursor_close d cur, d);
  Connection_close c d := (conn_close d c, d);
  pandas_importable d := match pandas d with Some _ => true | None => false end;
  pd_read_sql sql c d :=
    match pandas d with
    | Some read => (read sql c, d)
    | None => (Raise (mkExn OtherException "pandas is not installed"), d)
    end;
  sys_int_max_str_digits := 4300%nat;
  int_non_ascii := cpython_int_non_ascii 4300
}.

Definition cursor_of (c : Connection) : Result Cursor :=
  match c with ConnectionHandle n => Ok (CursorHandle n) end.

Definition no_rows (_ : string) (_ : Connection) : Result DataFrame := Ok (DataFrameOf []).

(** Two registered data sources; every [pyodbc.connect] fails unless
    [opens] says otherwise. *)
Definition machine (opens : list (Result Connection)) : T :=
  mk [("Sales", "SQL Server"); ("HR", "PostgreSQL")] opens
     cursor_of (fun _ => Ok tt) (fun _ => Ok tt) (Some no_rows).

(** [script l]: the terminal that will type, at each prompt of [l], the
    lines paired with it. *)
Fixpoint script (l : list (string * list string)) (prompt : string) : list string :=
  match l with
  | [] => []
  | (p, lines) :: rest => if String.eqb prompt p then lines else script rest prompt
  end.

(** [n] zeros followed by "1": a literal of [n + 1] digits. *)
Fixpoint padded_one (n : nat) : string :=
  match n with
  | O => "1"
  | S n' => String "0" (padded_one n')
  end.

Definition fresh : DatabaseConnector :=
  mkDatabaseConnector "Sales" "ann" "pw0" None None.

End Bench.

(** ** Reading the trace *)

Definition is_attempt (ev : Event) : bool :=
  match ev with EvConnect _ => true | _ => false end.

Definition is_prompt (ev : Event) : bool :=
  match ev with EvInput _ | EvGetpass _ => true | _ => false end.

Definition is_close_call (ev : Event) : bool :=
  match ev with EvCursorClose _ | EvConnClose _ => true | _ => false end.

(** Number of calls of [pyodbc.connect] in a trace. *)
Definition attempts_in (evs : list Event) : nat := List.length (filter is_attempt evs).

(** The events that follow the last call of [pyodbc.connect] (the whole
    trace when there is none). *)
Fixpoint after_last_attempt (evs : list Event) : list Event :=
  match evs with
  | [] => []
  | ev :: rest =>
      if existsb is_attempt rest then after_last_attempt rest
      else if is_attempt ev then rest else ev :: rest
  end.

(** Connection and cursor are both present or both absent. *)
Definition paired (o : DatabaseConnector) : bool :=
  match conn o, cursor o with
  | Some _, Some _ | None, None => true
  | _, _ => false
  end.

Definition unconnected (o : DatabaseConnector) : Prop :=
  conn o = None /\ cursor o = None.

(** What an answer to a yes/no prompt is compared with. *)
Definition normalised (line : string) : string := PyStr.lower (PyStr.strip line).


(** The log line of the handler that catches [e] in [connect]. *)
Definition attempt_error_message (attempts : Z) (e : Exn) : string :=
  match exn_class e with
  | pyodbc_Error => "ODBC error on attempt " +s PyStr.of_Z attempts +s ": " +s exn_str e
  | _ => "Unexpected error on attempt " +s PyStr.of_Z attempts +s ": " +s exn_str e
  end.

(** The two closing events of a [connect] that gives up. *)
Definition giving_up : list Event :=
  [EvPrint "Unable to connect after multiple attempts.";
   EvLog ERROR "Exhausted connection attempts without success."].

(** The exception of [query_dataframe] on a manager without connection
    (the spec's [NotConnectedError]). *)
Definition not_connected : Exn :=
  mkExn RuntimeError "No active database connection. Call connect() first.".

(** The exception of [_select_dsn] when no data source is registered
    (the spec's [NoSourcesFoundError]). *)
Definition no_sources_found : Exn :=
  mkExn RuntimeError "No DSNs found on this system.".

(** The log line that follows a call of [close] on a cursor or a
    connection: its own on success, the handler's when it raised. *)
Definition close_log (what : string) (r : Result unit) : Event :=
  match r with
  | Ok _ => EvLog INFO (what +s " closed.")
  | Raise e => EvLog ERROR ("Error closing resources: " +s exn_str e)
  end.

(** The two lines that report a failed change of DSN. *)
Definition change_dsn_report (e : Exn) : list Event :=
  [EvPrint ("Unable to change DSN: " +s exn_str e);
   EvLog ERROR ("Unable to change DSN after failure: " +s exn_str e)].

Section Scenarios.

Context {D : Type} `{Driver D}.

(** [_select_dsn] turns the line down: [int()] refuses it ([ValueError]),
    or reads it as a number that is not an index of the [n] data sources. *)
Definition rejected (n : nat) (line : string) : Prop :=
  match py_int line with
  | None => True
  | Some i => ~ (0 <= i < Z.of_nat n)
  end.

(** What [_select_dsn] does with a line it turns down. *)
Definition rejection (line : string) : list Event :=
  [EvInput select_prompt;
   EvPrint (match py_int line with
            | None => "Please enter a valid number."
            | Some _ => "Invalid selection. Try again."
            end)].

(** The next [n] calls of [pyodbc.connect] raise, whatever the connection string. *)
Fixpoint opens_fail (n : nat) (d : D) : Prop :=
  match n with
  | O => True
  | S n' =>
      forall conn_str, exists e d',
        pyodbc_connect conn_str d = (Raise e, d') /\ opens_fail n' d'
  end.

(** An attempt fails: [pyodbc.connect] raises, or the cursor of the
    connection it opened cannot be derived. *)
Inductive attempt_fails (conn_str : string) (d d' : D) : Prop :=
| open_raises (e : Exn) :
    pyodbc_connect conn_str d = (Raise e, d') -> attempt_fails conn_str d d'
| cursor_raises (c : Connection) (d1 : D) (e : Exn) :
    pyodbc_connect conn_str d = (Ok c, d1) ->
    Connection_cursor c d1 = (Raise e, d') -> attempt_fails conn_str d d'.

(** The next [n] attempts fail. *)
Fixpoint attempts_fail (n : nat) (d : D) : Prop :=
  match n with
  | O => True
  | S n' => forall conn_str, exists d', attempt_fails conn_str d d' /\ attempts_fail n' d'
  end.

(** After [n] failed attempts, the next one opens [c] and derives [cur]. *)
Fixpoint succeeds_after (n : nat) (d : D) (c : Connection) (cur : Cursor) : Prop :=
  match n with
  | O =>
      forall conn_str, exists d1 d2,
        pyodbc_connect conn_str d = (Ok c, d1) /\ Connection_cursor c d1 = (Ok cur, d2)
  | S n' =>
      forall conn_str, exists d', attempt_fails conn_str d d' /\ succeeds_after n' d' c cur
  end.

(** The user goes through [n] retry dialogues: each of the next [n] retry
    prompts is answered, by something other than "n", and the prompts that
    follow it are answered too. *)
Definition ready (n : nat) (allow_change_dsn reprompt_username : bool) (w : World D) : Prop :=
  (n <= List.length (answers w retry_prompt))%nat
  /\ Forall (fun line => normalised line <> "n") (firstn n (answers w retry_prompt))
  /\ (allow_change_dsn = true -> (n <= List.length (answers w change_dsn_prompt))%nat)
  /\ (reprompt_username = true -> (n <= List.length (answers w username_prompt))%nat)
  /\ (n <= List.length (answers w password_prompt))%nat.

(** What a retry dialogue leaves of the state it started from. *)
Definition dialogue_frame (allow_change_dsn reprompt_username : bool) (st st' : State D) : Prop :=
  driver (world st') = driver (world st)
  /\ conn (self st') = conn (self st)
  /\ cursor (self st') = cursor (self st)
  /\ answers (world st') retry_prompt = tl (answers (world st) retry_prompt)
  /\ answers (world st') change_dsn_prompt
     = (if allow_change_dsn then tl (answers (world st) change_dsn_prompt)
        else answers (world st) change_dsn_prompt)
  /\ answers (world st') username_prompt
     = (if reprompt_username then tl (answers (world st) username_prompt)
        else answers (world st) username_prompt)
  /\ answers (world st') password_prompt = tl (answers (world st) password_prompt).

(** The prompts of a full retry dialogue all occur in [evs]. *)
Definition dialogue_prompts_in (allow_change_dsn reprompt_username : bool)
    (evs : list Event) : Prop :=
  In (EvInput retry_prompt) evs
  /\ (allow_change_dsn = true -> In (EvInput change_dsn_prompt) evs)
  /\ (reprompt_username = true -> In (EvInput username_prompt) evs)
  /\ In (EvGetpass password_prompt) evs.

(** The steps of a [close()] on the manager [o] that finds the driver in
    state [d]: the calls it makes and the lines it logs. *)
Definition close_steps (o : DatabaseConnector) (d : D) (ev : list Event) : Prop :=
  (forall c, cursor o = None -> conn o = Some c ->
             ev = [EvConnClose c; close_log "Connection" (fst (Connection_close c d))])
  /\ (forall cur e d1,
        cursor o = Some cur -> Cursor_close cur d = (Raise e, d1) ->
        ev = [EvCursorClose cur; close_log "Cursor" (Raise e)])
  /\ (forall cur d1,
        cursor o = Some cur -> conn o = None -> Cursor_close cur d = (Ok tt, d1) ->
        ev = [EvCursorClose cur; close_log "Cursor" (Ok tt)])
  /\ (forall cur c d1,
        cursor o = Some cur -> conn o = Some c -> Cursor_close cur d = (Ok tt, d1) ->
        ev = [EvCursorClose cur; close_log "Cursor" (Ok tt);
              EvConnClose c; close_log "Connection" (fst (Connection_close c d1))]).

(** A normal return gives [(None, None)] or the stored pair, both present. *)
Definition returns_stored (res : Result (option Connection * option Cursor) * State D * list Event)
  : Prop :=
  match res with
  | (Ok r, st', _) =>
      r = (None, None)
      \/ exists c cur, r = (Some c, Some cur)
                       /\ conn (self st') = Some c /\ cursor (self st') = Some cur
  | (Raise _, _, _) => True
  end.

End Scenarios.


(** ** Concrete managers and worlds *)

Module Cases.

Import Bench.

(** Every [pyodbc.connect] fails; the user presses Enter, then "y", at the
    retry prompt, declines to change the DSN and retypes the password. *)
Definition stubborn : State T :=
  mkState fresh
    (mkWorld (script [(retry_prompt, [EmptyString; "y"]);
                      (change_dsn_prompt, [EmptyString; "N"]);
                      (password_prompt, ["pw1"; "pw2"])])
             (machine [])).

(** The login fails once, then succeeds. *)
Definition second_time_lucky : State T :=
  mkState fresh
    (mkWorld (script [(retry_prompt, ["y"]); (password_prompt, ["pw1"])])
             (machine [Raise login_failed; Ok (ConnectionHandle 5)])).

(** The login succeeds at once. *)
Definition first_time_lucky : State T :=
  mkState fresh (mkWorld (script []) (machine [Ok (ConnectionHandle 5)])).

(** The driver opens connection 7 but cannot derive its cursor; the user
    then answers "n" to the retry prompt. *)
Definition cursorless : State T :=
  mkState fresh
    (mkWorld (script [(retry_prompt, ["n"])])
             (mk [("Sales", "SQL Server")] [Ok (ConnectionHandle 7)]
                 (fun _ => Raise (mkExn pyodbc_Error "[08S01] Communication link failure"))
                 (fun _ => Ok tt) (fun _ => Ok tt) (Some no_rows))).

(** A manager that is connected. *)
Definition connected : State T :=
  mkState (mkDatabaseConnector "Sales" "ann" "pw0"
             (Some (ConnectionHandle 1)) (Some (CursorHandle 1)))
          (mkWorld (script []) (machine [])).

(** No data source is registered; after the failed login the user asks
    for another DSN. *)
Definition nothing_to_select : State T :=
  mkState fresh
    (mkWorld (script [(retry_prompt, ["y"]); (change_dsn_prompt, ["y"]);
                      (password_prompt, ["pw1"])])
             (mk [] [] cursor_of (fun _ => Ok tt) (fun _ => Ok tt) (Some no_rows))).

(** Connection 7, then connection 8, is opened, and neither yields a
    cursor; the user retries after the first failure and goes through the
    dialogue after the second. *)
Definition no_cursor_twice : State T :=
  mkState fresh
    (mkWorld (script [(retry_prompt, ["y"; "y"]);
                      (change_dsn_prompt, [EmptyString; EmptyString]);
                      (password_prompt, ["pw1"; "pw2"])])
             (mk [("Sales", "SQL Server")] [Ok (ConnectionHandle 7); Ok (ConnectionHandle 8)]
                 (fun _ => Raise (mkExn pyodbc_Error "[08S01] Communication link failure"))
                 (fun _ => Ok tt) (fun _ => Ok tt) (Some no_rows))).

(** A manager that never connected, on a machine without pandas. *)
Definition bare : State T :=
  mkState fresh
    (mkWorld (script [])
             (mk [("Sales", "SQL Server")] [] cursor_of (fun _ => Ok tt) (fun _ => Ok tt)
                 None)).

(** One data source; the user types "abc", then "0". *)
Definition one_source : World T :=
  mkWorld (script [(select_prompt, ["abc"; "0"])])
          (mk [("Sales", "SQL Server")] [] cursor_of (fun _ => Ok tt) (fun _ => Ok tt)
              (Some no_rows)).

End Cases.

(** ** The first version of the connector, [db/connector.py] *)

Module Legacy.

Section Connector1.

Context {D : Type} `{Driver D}.

(** [__init__] takes no argument.  Its [_select_dsn] (lines 15-39) is,
    line for line, the one of [connector2.py]; the username typed is kept
    as it is. *)
Definition __init__ : M (World D) DatabaseConnector :=
  the_dsn <- _select_dsn ;;
  the_username <- input username_prompt ;;
  the_password <- getpass password_prompt ;;
  ret (mkDatabaseConnector the_dsn the_username the_password None None).

Definition connected_message (o : DatabaseConnector) : string :=
  "Connected to DSN '" +s dsn o +s "' successfully.".

(** [connect]: a single attempt, no dialogue. *)
Definition connect : M (State D) (option Connection * option Cursor) :=
  r <- try_except
         (o <- get_self ;;
          let conn_str := conn_str_of o in
          c <- lift (call (EvConnect conn_str) (pyodbc_connect conn_str)) ;;
          set_self (with_conn (Some c)) ;;
          cur <- lift (call (EvCursor c) (Connection_cursor c)) ;;
          set_self (with_cursor (Some cur)) ;;
          o <- get_self ;;
          logger_info (connected_message o) ;;
          o <- get_self ;;
          ret (Some (conn o, cursor o)))
         (fun e =>
            match exn_class e with
            | pyodbc_Error =>
                Some (logger_error ("ODBC error: " +s exn_str e) ;; ret None)
            | _ =>
                Some (logger_error ("Unexpected error: " +s exn_str e) ;; ret None)
            end) ;;
  match r with
  | Some returned => ret returned
  | None => ret (None, None)
  end.

(** [close] (lines 57-69). *)
Definition close : M (State D) unit :=
  try_except
    (o <- get_self ;;
     match cursor o with
     | Some cur =>
         lift (call (EvCursorClose cur) (Cursor_close cur)) ;;
         logger_info "Cursor closed."
     | None => ret tt
     end ;;
     o <- get_self ;;
     match conn o with
     | Some c =>
         lift (call (EvConnClose c) (Connection_close c)) ;;
         logger_info "Connection closed."
     | None => ret tt
     end)
    (fun e => Some (logger_error ("Error closing resources: " +s exn_str e))).

End Connector1.

End Legacy.

(** ** The script [Scripts/main2.py] *)

Section Script.

Context {D : Type} `{Driver D}.

(** [str(df.head())], the text that [print(df.head())] writes. *)
Variable show_head : DataFrame -> string.

Definition main2_sql : string := "SELECT TOP 100 * FROM some_table".

(** Lines 4-10, on the manager built at line 3. *)
Definition main2_body : M (State D) unit :=
  returned <- connect 5 true false ;;
  (match fst returned with                                  (* if conn: *)
   | Some _ =>
       df <- query_dataframe main2_sql ;;
       print (show_head df)
   | None => ret tt
   end) ;;
  close.

Definition main2 : M (World D) unit :=
  fun w =>
    match __init__ None None None w with
    | (Ok db, w1, ev1) =>
        match main2_body (mkState db w1) with
        | (r, st, ev2) => (r, world st, ev1 ++ ev2)
        end
    | (Raise e, w1, ev1) => (Raise e, w1, ev1)
    end.

End Script.

(** ** More ways to read a run *)

Definition is_query (ev : Event) : bool :=
  match ev with EvReadSql _ _ => true | _ => false end.

(** The events [connect] can produce: it prints, logs, asks, enumerates the
    data sources, opens connections and derives cursors. *)
Definition is_connect_event (ev : Event) : bool :=
  match ev with
  | EvCursorClose _ | EvConnClose _ | EvReadSql _ _ => false
  | _ => true
  end.

(** The only exception that leaves the computation is the [EOFError] of a prompt. *)
Definition raises_only_eof {S A : Type} (res : Result A * S * list Event) : Prop :=
  match res with
  | (Raise e, _, _) => e = EOF_when_reading \/ e = EOF_in_getpass
  | (Ok _, _, _) => True
  end.

(** The prompts [connect] issues itself through [input]. *)
Definition connect_inputs : list string :=
  [retry_prompt; change_dsn_prompt; username_prompt].

(** [e] was raised by one of the prompts of [connect] itself, reading at
    the end of its input as the last event of [evs]: by [input] at the
    retry, change-DSN or username prompt, or by [getpass] at the password
    prompt. *)
Definition raised_at_own_prompt {D : Type} (e : Exn) (st : State D) (evs : list Event) : Prop :=
  (exists before p,
      In p connect_inputs /\ evs = before ++ [EvInput p]
      /\ answers (world st) p = [] /\ e = EOF_when_reading)
  \/ (exists before,
        evs = before ++ [EvGetpass password_prompt]
        /\ answers (world st) password_prompt = [] /\ e = EOF_in_getpass).

(** A run that ends by an exception was stopped at one of the prompts of
    [connect] itself. *)
Definition stops_at_own_prompt {D A : Type} (res : Result A * State D * list Event) : Prop :=
  match res with
  | (Raise e, st, evs) => raised_at_own_prompt e st evs
  | (Ok _, _, _) => True
  end.

Fixpoint no_space (s : string) : bool :=
  match s with
  | EmptyString => true
  | String c rest => negb (PyStr.is_space c) && no_space rest
  end.

(** The line [_select_dsn] prints for entry [i]. *)
Definition listing_line (i : Z) (entry : string * string) : Event :=
  EvPrint ("[" +s PyStr.of_Z i +s "] " +s fst entry +s "  (" +s snd entry +s ")").

(** The manager as [__init__] leaves it, from the three values obtained. *)
Definition new_connector (the_dsn the_username the_password : string) : DatabaseConnector :=
  mkDatabaseConnector the_dsn the_username the_password None None.

(** A run that lets only the [EOFError] of a prompt escape, makes at most
    [n] connection attempts, and neither closes anything nor queries. *)
Definition bounded_run {S A : Type} (n : nat) (res : Result A * S * list Event) : Prop :=
  raises_only_eof res
  /\ (attempts_in (snd res) <= n)%nat
  /\ forallb is_connect_event (snd res) = true.

(** The events of a change of DSN: the offer, the enumeration of the data
    sources and the selection prompt. *)
Definition is_selection_event (ev : Event) : bool :=
  match ev with
  | EvDataSources => true
  | EvInput p => String.eqb p select_prompt || String.eqb p change_dsn_prompt
  | _ => false
  end.

(** A run that ends in a state with DSN [d] and shows no event of a change
    of DSN. *)
Definition keeps_dsn {D A : Type} (d : string) (res : Result A * State D * list Event) : Prop :=
  dsn (self (snd (fst res))) = d
  /\ forallb (fun ev => negb (is_selection_event ev)) (snd res) = true.

(** ** More concrete managers and worlds *)

Module MoreCases.

Import Bench.

(** Every login fails and nothing is typed. *)
Definition silent : State T :=
  mkState fresh (mkWorld (script []) (machine [])).

(** Every login fails and the user declines to retry. *)
Definition declining : State T :=
  mkState fresh (mkWorld (script [(retry_prompt, [" N "])]) (machine [])).

(** Every login fails; the user retries once, with a new username and password. *)
Definition retyping : State T :=
  mkState fresh
    (mkWorld (script [(retry_prompt, ["y"]); (username_prompt, [" bob "]);
                      (password_prompt, [" s3cret "])])
             (machine [])).

(** A username is typed, no password. *)
Definition half_typed : State T :=
  mkState fresh (mkWorld (script [(username_prompt, [" bob "])]) (machine [])).

(** Every login fails; the user retries once and picks the second data source. *)
Definition reselecting : State T :=
  mkState fresh
    (mkWorld (script [(retry_prompt, ["y"]); (change_dsn_prompt, ["Y"]);
                      (select_prompt, ["1"]); (password_prompt, ["pw1"])])
             (machine [])).

(** Every login fails; the user retries once, picks the second data
    source and types a new username and password. *)
Definition reselecting_as_bob : State T :=
  mkState fresh
    (mkWorld (script [(retry_prompt, ["y"]); (change_dsn_prompt, ["Y"]);
                      (select_prompt, ["1"]); (username_prompt, [" bob "]);
                      (password_prompt, ["pw1"])])
             (machine [])).

(** Every login fails; the user asks to retry and types no password. *)
Definition no_password : State T :=
  mkState fresh (mkWorld (script [(retry_prompt, ["y"])]) (machine [])).

(** Two data sources; the user types "abc", then "7". *)
Definition never_valid : World T :=
  mkWorld (script [(select_prompt, ["abc"; "7"])]) (machine []).

(** Two data sources; the user types "1". *)
Definition picks_second : World T :=
  mkWorld (script [(select_prompt, ["1"])]) (machine []).

(** Nothing is given to the constructor: the user types "x", then picks
    the second data source, then types a username and a password. *)
Definition unattended : World T :=
  mkWorld (script [(select_prompt, ["x"; "1"]); (username_prompt, [" ann "]);
                   (password_prompt, [" pw "])])
          (machine []).

(** A connected manager on a machine without pandas. *)
Definition no_pandas : State T :=
  mkState (mkDatabaseConnector "Sales" "ann" "pw0"
             (Some (ConnectionHandle 1)) (Some (CursorHandle 1)))
          (mkWorld (script [])
             (mk [("Sales", "SQL Server")] [] cursor_of (fun _ => Ok tt) (fun _ => Ok tt)
                 None)).

Definition bad_query : Exn := mkExn OtherException "Invalid object name 'some_table'".

(** The world of a run of [main2.py] in which the login succeeds and the
    query fails. *)
Definition query_fails : World T :=
  mkWorld (script [(select_prompt, ["0"]); (username_prompt, ["ann"]);
                   (password_prompt, ["pw"])])
          (mk [("Sales", "SQL Server")] [Ok (ConnectionHandle 5)] cursor_of
              (fun _ => Ok tt) (fun _ => Ok tt)
              (Some (fun _ _ => Raise bad_query))).

(** The world of a run of [main2.py] in which the login fails and the user
    declines to retry. *)
Definition login_refused : World T :=
  mkWorld (script [(select_prompt, ["0"]); (username_prompt, ["ann"]);
                   (password_prompt, ["pw"]); (retry_prompt, ["n"])])
          (machine []).

Definition show_rows (df : DataFrame) : string :=
  match df with
  | DataFrameOf [] => "Empty DataFrame"
  | DataFrameOf (_ :: _) => "rows"
  end.

End MoreCases.

Arguments conn_str_of : simpl never.
Arguments attempt_message : simpl never.
Arguments connected_message : simpl never.
Arguments normalised : simpl never.
Arguments PyStr.of_Z : simpl never.
Arguments PyStr.strip : simpl never.
Arguments PyStr.lower : simpl never.
Arguments PyStr.int : simpl never.
Arguments py_int : simpl never.
#[local] Arguments String.append : simpl never.
#[local] Arguments String.eqb : simpl never.

(** ** Running the monad *)

Section Running.

Context {S A B : Type}.

Lemma bind_ok (c : M S A) (k : A -> M S B) (s s1 : S) (a : A) (ev1 : list Event) :
  c s = (Ok a, s1, ev1) ->
  bind c k s = (let '(r, s2, ev2) := k a s1 in (r, s2, ev1 ++ ev2)).
Proof. intros Hc. unfold bind. rewrite Hc. destruct (k a s1) as [[r s2] ev2]. reflexivity. Qed.

Lemma bind_raise (c : M S A) (k : A -> M S B) (s s1 : S) (e : Exn) (ev1 : list Event) :
  c s = (Raise e, s1, ev1) ->
  bind c k s = (Raise e, s1, ev1).
Proof. intros Hc. unfold bind. rewrite Hc. reflexivity. Qed.

Lemma bind_inv (c : M S A) (k : A -> M S B) (s s2 : S) (r : Result B) (ev : list Event) :
  bind c k s = (r, s2, ev) ->
  (exists a s1 ev1 ev2,
      c s = (Ok a, s1, ev1) /\ k a s1 = (r, s2, ev2) /\ ev = ev1 ++ ev2)
  \/ (exists e, c s = (Raise e, s2, ev) /\ r = Raise e).
Proof.
  unfold bind. destruct (c s) as [[[a | e] s1] ev1].
  - destruct (k a s1) as [[r' s2'] ev2] eqn:Hk. intros Heq. inversion Heq; subst.
    left. exists a, s1, ev1, ev2. auto.
  - intros Heq. inversion Heq; subst. right. exists e. auto.
Qed.

End Running.

Lemma bind_events_head {S A B : Type} (c : M S A) (k : A -> M S B) (s s1 : S) (x : A)
    (ev1 : list Event) :
  c s = (Ok x, s1, ev1) -> exists tail, snd (bind c k s) = ev1 ++ tail.
Proof.
  intros Hc. unfold bind. rewrite Hc. destruct (k x s1) as [[r s2] ev2].
  exists ev2. reflexivity.
Qed.

Lemma attempts_in_app (l1 l2 : list Event) :
  attempts_in (l1 ++ l2) = (attempts_in l1 + attempts_in l2)%nat.
Proof. unfold attempts_in. rewrite filter_app, length_app. reflexivity. Qed.

Lemma attempts_in_none (l : list Event) :
  existsb is_attempt l = false <-> attempts_in l = 0%nat.
Proof.
  unfold attempts_in. induction l as [| ev l IH]; cbn; [tauto |].
  destruct (is_attempt ev); cbn; [split; discriminate | exact IH].
Qed.

Lemma after_last_attempt_none (l : list Event) :
  existsb is_attempt l = false -> after_last_attempt l = l.
Proof.
  destruct l as [| ev l]; cbn; [reflexivity |].
  intros Hno. apply orb_false_iff in Hno as [Hev Hl]. rewrite Hl, Hev. reflexivity.
Qed.

Lemma after_last_attempt_app (l1 l2 : list Event) :
  existsb is_attempt l2 = true ->
  after_last_attempt (l1 ++ l2) = after_last_attempt l2.
Proof.
  intros Hl2. induction l1 as [| ev l1 IH]; cbn; [reflexivity |].
  rewrite existsb_app, Hl2, orb_true_r. exact IH.
Qed.

Lemma after_last_attempt_last (l1 l2 : list Event) (s : string) :
  existsb is_attempt l2 = false ->
  after_last_attempt (l1 ++ EvConnect s :: l2) = l2.
Proof.
  intros Hl2. rewrite after_last_attempt_app by reflexivity.
  cbn. rewrite Hl2. reflexivity.
Qed.

Section Properties.

Context {D : Type} `{Driver D}.

(** Decides the comparisons between the literal prompts. *)
Ltac eval_eqb :=
  repeat match goal with
    | |- context [String.eqb ?a ?b] =>
        let v := eval vm_compute in (String.eqb a b) in
        change (String.eqb a b) with v
    end.

Ltac run_attempt :=
  unfold attempt_connection, try_except, bind, get_self, set_self, ret,
    logger_debug, logger_info, logger_error, emit, lift, call; cbn.

Lemma attempt_open_raises (attempts : Z) (st : State D) (e : Exn) (d' : D) :
  pyodbc_connect (conn_str_of (self st)) (driver (world st)) = (Raise e, d') ->
  attempt_connection attempts st =
    (Ok None, mkState (self st) (set_driver d' (world st)),
     [EvLog DEBUG (attempt_message attempts (self st));
      EvConnect (conn_str_of (self st));
      EvLog ERROR (attempt_error_message attempts e)]).
Proof.
  intros Hopen. run_attempt. rewrite Hopen. unfold attempt_error_message.
  destruct (exn_class e); reflexivity.
Qed.

Lemma attempt_cursor_raises (attempts : Z) (st : State D)
    (c : Connection) (e : Exn) (d1 d2 : D) :
  pyodbc_connect (conn_str_of (self st)) (driver (world st)) = (Ok c, d1) ->
  Connection_cursor c d1 = (Raise e, d2) ->
  attempt_connection attempts st =
    (Ok None, mkState (with_conn (Some c) (self st)) (set_driver d2 (world st)),
     [EvLog DEBUG (attempt_message attempts (self st));
      EvConnect (conn_str_of (self st));
      EvCursor c;
      EvLog ERROR (attempt_error_message attempts e)]).
Proof.
  intros Hopen Hcur. run_attempt. rewrite Hopen. cbn. rewrite Hcur.
  unfold attempt_error_message. destruct (exn_class e); reflexivity.
Qed.

Lemma attempt_succeeds (attempts : Z) (st : State D)
    (c : Connection) (cur : Cursor) (d1 d2 : D) :
  pyodbc_connect (conn_str_of (self st)) (driver (world st)) = (Ok c, d1) ->
  Connection_cursor c d1 = (Ok cur, d2) ->
  attempt_connection attempts st =
    (Ok (Some (Some c, Some cur)),
     mkState (with_cursor (Some cur) (with_conn (Some c) (self st)))
             (set_driver d2 (world st)),
     [EvLog DEBUG (attempt_message attempts (self st));
      EvConnect (conn_str_of (self st));
      EvCursor c;
      EvLog INFO (connected_message attempts (self st))]).
Proof.
  intros Hopen Hcur. run_attempt. rewrite Hopen. cbn. rewrite Hcur. reflexivity.
Qed.

(** *** The terminal *)

Lemma answers_set_answers (p q : string) (lines : list string) (w : World D) :
  answers (set_answers p lines w) q = if String.eqb q p then lines else answers w q.
Proof. reflexivity. Qed.

Lemma lift_input_ok (st : State D) (p line : string) (rest : list string) :
  answers (world st) p = line :: rest ->
  lift (input p) st
  = (Ok line, mkState (self st) (set_answers p rest (world st)), [EvInput p]).
Proof. intros Hp. unfold lift, input, read_line. rewrite Hp. reflexivity. Qed.

Lemma lift_getpass_ok (st : State D) (p line : string) (rest : list string) :
  answers (world st) p = line :: rest ->
  lift (getpass p) st
  = (Ok line, mkState (self st) (set_answers p rest (world st)), [EvGetpass p]).
Proof. intros Hp. unfold lift, getpass, read_line. rewrite Hp. reflexivity. Qed.

(** *** [_select_dsn] touches the selection script only *)

Lemma listing_no_attempt (i : Z) (l : list (string * string)) :
  attempts_in (listing i l) = 0%nat.
Proof.
  revert i. induction l as [| [name drv] l IH]; intros i; [reflexivity |].
  cbn [listing]. unfold attempts_in. cbn. apply IH.
Qed.

Lemma select_loop_no_attempt (l : list (string * string)) (lines : list string) :
  attempts_in (snd (select_loop l lines)) = 0%nat.
Proof.
  induction lines as [| line rest IH]; [reflexivity |].
  cbn [select_loop].
  destruct (py_int line) as [selection |].
  - destruct ((0 <=? selection) && (selection <? Z.of_nat (List.length l))).
    + reflexivity.
    + destruct (select_loop l rest) as [[r rest'] ev]. exact IH.
  - destruct (select_loop l rest) as [[r rest'] ev]. exact IH.
Qed.

(** [_select_dsn], whatever its outcome, leaves the driver state and the
    scripts of the other prompts alone, and makes no connection attempt. *)
Lemma select_dsn_frame (w w' : World D) (r : Result string) (ev : list Event) :
  _select_dsn w = (r, w', ev) ->
  driver w' = driver w
  /\ (forall p, String.eqb p select_prompt = false -> answers w' p = answers w p)
  /\ attempts_in ev = 0%nat.
Proof.
  unfold _select_dsn, bind, call, raise, print, emit. cbn.
  destruct (pyodbc_dataSources (driver w)) as [| src srcs] eqn:Hsrc.
  - intros Heq. inversion Heq; subst. cbn. auto.
  - cbn. destruct (select_loop (src :: srcs) (answers w select_prompt))
      as [[r' rest] ev'] eqn:Hloop.
    intros Heq. inversion Heq; subst. cbn. split; [reflexivity | split].
    + intros p Hp. rewrite Hp. reflexivity.
    + change (attempts_in (listing 0 (src :: srcs) ++ ev') = 0%nat).
      rewrite attempts_in_app, listing_no_attempt.
      pose proof (select_loop_no_attempt (src :: srcs) (answers w select_prompt)) as Hno.
      rewrite Hloop in Hno. exact Hno.
Qed.

(** *** The dialogue after a failed attempt *)

Lemma offer_change_dsn_run (allow : bool) (st : State D) :
  (allow = true -> answers (world st) change_dsn_prompt <> []) ->
  exists st' ev,
    offer_change_dsn allow st = (Ok tt, st', ev)
    /\ driver (world st') = driver (world st)
    /\ username (self st') = username (self st)
    /\ password (self st') = password (self st)
    /\ conn (self st') = conn (self st)
    /\ cursor (self st') = cursor (self st)
    /\ (forall p, String.eqb p select_prompt = false ->
                  answers (world st') p
                  = if allow && String.eqb p change_dsn_prompt
                    then tl (answers (world st) p) else answers (world st) p)
    /\ attempts_in ev = 0%nat
    /\ (allow = true -> In (EvInput change_dsn_prompt) ev).
Proof.
  intros Hready. destruct allow.
  2:{ exists st, []. cbn. repeat split; try reflexivity. discriminate. }
  destruct (answers (world st) change_dsn_prompt) as [| line rest] eqn:Hline;
    [exfalso; now apply Hready |].
  unfold offer_change_dsn.
  rewrite (bind_ok _ _ _ _ _ _ (lift_input_ok st _ _ _ Hline)).
  set (st1 := mkState (self st) (set_answers change_dsn_prompt rest (world st))).
  assert (Hpop : forall p, String.eqb p select_prompt = false ->
                   answers (world st1) p
                   = if true && String.eqb p change_dsn_prompt
                     then tl (answers (world st) p) else answers (world st) p).
  { intros p _. cbn. destruct (String.eqb p change_dsn_prompt) eqn:Hp; [| reflexivity].
    apply String.eqb_eq in Hp. subst p. rewrite Hline. reflexivity. }
  destruct (String.eqb (PyStr.lower (PyStr.strip line)) "y").
  2:{ exists st1, [EvInput change_dsn_prompt]. cbn.
      repeat split; try reflexivity; auto. }
  unfold try_except, bind, lift, set_self, print, logger_error, emit.
  destruct (_select_dsn (world st1)) as [[r w'] ev] eqn:Hsel.
  destruct (select_dsn_frame _ _ _ _ Hsel) as (Hdrv & Hans & Hno).
  assert (Hans' : forall p, String.eqb p select_prompt = false ->
                    answers w' p
                    = if true && String.eqb p change_dsn_prompt
                      then tl (answers (world st) p) else answers (world st) p).
  { intros p Hp. rewrite (Hans p Hp). apply Hpop, Hp. }
  destruct r as [selected | e]; cbn.
  - exists (mkState (with_dsn selected (self st)) w'), (EvInput change_dsn_prompt :: ev ++ []).
    cbn. repeat split; auto. rewrite app_nil_r. exact Hno.
  - do 2 eexists. split; [reflexivity |]. cbn.
    repeat split; auto.
    unfold attempts_in in *. cbn. rewrite filter_app, length_app, Hno. reflexivity.
Qed.

Lemma prompt_credentials_run (rp : bool) (st : State D) :
  (rp = true -> answers (world st) username_prompt <> []) ->
  answers (world st) password_prompt <> [] ->
  exists st',
    _prompt_credentials rp st
    = (Ok tt, st',
       (if rp then [EvInput username_prompt] else []) ++ [EvGetpass password_prompt])
    /\ driver (world st') = driver (world st)
    /\ dsn (self st') = dsn (self st)
    /\ conn (self st') = conn (self st)
    /\ cursor (self st') = cursor (self st)
    /\ (forall p,
          answers (world st') p
          = if (rp && String.eqb p username_prompt) || String.eqb p password_prompt
            then tl (answers (world st) p) else answers (world st) p).
Proof.
  intros Huser Hpass.
  destruct (answers (world st) password_prompt) as [| secret rest] eqn:Hsecret;
    [now exfalso |].
  unfold _prompt_credentials. destruct rp.
  - destruct (answers (world st) username_prompt) as [| line rest'] eqn:Hline;
      [exfalso; now apply Huser |].
    unfold bind, set_self, lift, input, getpass, read_line. cbn.
    rewrite Hline. cbn.
    replace (String.eqb password_prompt username_prompt) with false by reflexivity.
    rewrite Hsecret.
    eexists. split; [reflexivity |]. cbn. repeat split.
    intros p. destruct (String.eqb p password_prompt) eqn:Hp.
    + apply String.eqb_eq in Hp. subst p. rewrite Hsecret, orb_true_r. reflexivity.
    + rewrite orb_false_r. destruct (String.eqb p username_prompt) eqn:Hq; [| reflexivity].
      apply String.eqb_eq in Hq. subst p. rewrite Hline. reflexivity.
  - unfold bind, set_self, lift, input, getpass, read_line, ret. cbn.
    rewrite Hsecret.
    eexists. split; [reflexivity |]. cbn. repeat split.
    intros p. destruct (String.eqb p password_prompt) eqn:Hp; [| reflexivity].
    apply String.eqb_eq in Hp. subst p. rewrite Hsecret. reflexivity.
Qed.

(** One failed attempt followed by a full retry dialogue: the loop goes
    on from a state that differs from the one after the attempt only by
    the answers read, the credentials and possibly the DSN. *)
Lemma failed_round (n : nat) (attempts : Z) (allow rp : bool)
    (st st1 : State D) (ev1 : list Event) :
  attempt_connection (attempts + 1) st = (Ok None, st1, ev1) ->
  ready 1 allow rp (world st1) ->
  exists st2 dialogue,
    connect_loop (S n) attempts allow rp st
    = (let '(r, st', evs) := connect_loop n (attempts + 1) allow rp st2 in
       (r, st', ev1 ++ dialogue ++ evs))
    /\ dialogue_frame allow rp st1 st2
    /\ attempts_in dialogue = 0%nat
    /\ In (EvInput retry_prompt) dialogue
    /\ (allow = true -> In (EvInput change_dsn_prompt) dialogue)
    /\ (rp = true -> In (EvInput username_prompt) dialogue)
    /\ In (EvGetpass password_prompt) dialogue
    /\ exists stb evb,
        offer_change_dsn allow
          (mkState (self st1)
             (set_answers retry_prompt (tl (answers (world st1) retry_prompt)) (world st1)))
        = (Ok tt, stb, evb)
        /\ dsn (self st2) = dsn (self stb)
        /\ (forall ev, In ev evb -> In ev dialogue).
Proof.
  intros Hattempt (Hretry & Hyes & Hchange & Huser & Hpass).
  destruct (answers (world st1) retry_prompt) as [| line rest] eqn:Hline;
    [cbn in Hretry; lia |].
  cbn in Hyes. apply Forall_inv in Hyes.
  cbn [connect_loop].
  rewrite (bind_ok _ _ _ _ _ _ Hattempt).
  rewrite (bind_ok _ _ st1 st1 tt [EvPrint (NL +s "Connection failed.")]) by reflexivity.
  rewrite (bind_ok _ _ _ _ _ _ (lift_input_ok st1 _ _ _ Hline)).
  fold (normalised line). apply String.eqb_neq in Hyes. rewrite Hyes.
  set (sta := mkState (self st1) (set_answers retry_prompt rest (world st1))).
  destruct (offer_change_dsn_run allow sta) as (stb & evb & Hb & Hb_drv & Hb_user
                                                  & Hb_pass & Hb_conn & Hb_cur & Hb_ans
                                                  & Hb_no & Hb_in).
  { intros Hallow. specialize (Hchange Hallow). cbn.
    replace (String.eqb change_dsn_prompt retry_prompt) with false by reflexivity.
    destruct (answers (world st1) change_dsn_prompt); [cbn in Hchange; lia | discriminate]. }
  destruct (prompt_credentials_run rp stb) as (stc & Hc & Hc_drv & Hc_dsn & Hc_conn
                                                 & Hc_cur & Hc_ans).
  { intros Hrp. specialize (Huser Hrp). rewrite Hb_ans by reflexivity.
    replace (String.eqb username_prompt change_dsn_prompt) with false by reflexivity.
    rewrite andb_false_r. cbn.
    replace (String.eqb username_prompt retry_prompt) with false by reflexivity.
    destruct (answers (world st1) username_prompt); [cbn in Huser; lia | discriminate]. }
  { rewrite Hb_ans by reflexivity.
    replace (String.eqb password_prompt change_dsn_prompt) with false by reflexivity.
    rewrite andb_false_r. cbn.
    replace (String.eqb password_prompt retry_prompt) with false by reflexivity.
    destruct (answers (world st1) password_prompt); [cbn in Hpass; lia | discriminate]. }
  rewrite (bind_ok _ _ _ _ _ _ Hb), (bind_ok _ _ _ _ _ _ Hc).
  exists stc.
  exists ([EvPrint (NL +s "Connection failed."); EvInput retry_prompt] ++ evb
          ++ (if rp then [EvInput username_prompt] else []) ++ [EvGetpass password_prompt]).
  split.
  { destruct (connect_loop n (attempts + 1) allow rp stc) as [[r st'] evs].
    f_equal. rewrite <- !app_assoc. reflexivity. }
  split.
  { unfold dialogue_frame.
    rewrite Hc_drv, Hb_drv, Hc_conn, Hb_conn, Hc_cur, Hb_cur, !Hc_ans.
    rewrite !Hb_ans by reflexivity. subst sta. cbn. eval_eqb. rewrite Hline.
    destruct allow, rp; cbn; repeat split; reflexivity. }
  split.
  { rewrite !attempts_in_app, Hb_no. destruct rp; reflexivity. }
  rewrite !in_app_iff. cbn [In].
  split; [auto |].
  split; [intros Hallow; auto |].
  split; [intros Hrp; subst rp; cbn; auto |].
  split; [auto 6 |].
  exists stb, evb. cbn [tl].
  split; [exact Hb |]. split; [exact Hc_dsn |].
  intros ev Hin. rewrite !in_app_iff. auto.
Qed.

(** *** Runs in which every attempt fails *)

Lemma ready_first (n : nat) (allow rp : bool) (w : World D) :
  ready (S n) allow rp w -> ready 1 allow rp w.
Proof.
  intros (Hretry & Hyes & Hchange & Huser & Hpass).
  unfold ready. repeat split; try lia.
  - destruct (answers w retry_prompt) as [| line rest]; [constructor |].
    cbn in Hyes |- *. constructor; [exact (Forall_inv Hyes) | constructor].
  - intros Hallow. specialize (Hchange Hallow). lia.
  - intros Hrp. specialize (Huser Hrp). lia.
Qed.

Lemma length_tl {X : Type} (n : nat) (l : list X) :
  (S n <= List.length l)%nat -> (n <= List.length (tl l))%nat.
Proof. destruct l; cbn; lia. Qed.

Lemma ready_next (n : nat) (allow rp : bool) (st1 st2 : State D) :
  ready (S n) allow rp (world st1) ->
  dialogue_frame allow rp st1 st2 ->
  ready n allow rp (world st2).
Proof.
  intros (Hretry & Hyes & Hchange & Huser & Hpass)
         (_ & _ & _ & Fretry & Fchange & Fuser & Fpass).
  unfold ready. rewrite Fretry, Fchange, Fuser, Fpass.
  split; [now apply length_tl |].
  split.
  { destruct (answers (world st1) retry_prompt) as [| line rest]; [cbn in Hretry; lia |].
    cbn in Hyes |- *. exact (Forall_inv_tail Hyes). }
  split; [intros Hallow; rewrite Hallow; apply length_tl, Hchange, Hallow |].
  split; [intros Hrp; rewrite Hrp; apply length_tl, Huser, Hrp |].
  now apply length_tl.
Qed.

Lemma attempt_fails_run (attempts : Z) (st : State D) (d' : D) :
  attempt_fails (conn_str_of (self st)) (driver (world st)) d' ->
  exists o1 post,
    attempt_connection attempts st
    = (Ok None, mkState o1 (set_driver d' (world st)),
       [EvLog DEBUG (attempt_message attempts (self st));
        EvConnect (conn_str_of (self st))] ++ post)
    /\ attempts_in post = 0%nat
    /\ cursor o1 = cursor (self st)
    /\ (forall e d1, pyodbc_connect (conn_str_of (self st)) (driver (world st))
                     = (Raise e, d1) -> conn o1 = conn (self st))
    /\ dsn o1 = dsn (self st).
Proof.
  intros [e Hopen | c d1 e Hopen Hcur].
  - exists (self st), [EvLog ERROR (attempt_error_message attempts e)].
    rewrite (attempt_open_raises _ _ _ _ Hopen). auto 6.
  - exists (with_conn (Some c) (self st)),
           [EvCursor c; EvLog ERROR (attempt_error_message attempts e)].
    rewrite (attempt_cursor_raises _ _ _ _ _ _ Hopen Hcur).
    repeat split; try reflexivity.
    intros e' d1' Hraise. rewrite Hopen in Hraise. discriminate.
Qed.

Lemma failing_run (n : nat) (attempts : Z) (allow rp : bool) (st : State D) :
  attempts_fail n (driver (world st)) ->
  ready n allow rp (world st) ->
  exists st' evs,
    connect_loop n attempts allow rp st = (Ok (None, None), st', evs ++ giving_up)
    /\ attempts_in evs = n
    /\ (opens_fail n (driver (world st)) ->
        conn (self st') = conn (self st) /\ cursor (self st') = cursor (self st))
    /\ ((1 <= n)%nat ->
        dialogue_prompts_in allow rp (after_last_attempt (evs ++ giving_up))).
Proof.
  revert attempts st. induction n as [| n IH]; intros attempts st Hfail Hready.
  { exists st, []. cbn. repeat split; lia. }
  destruct (Hfail (conn_str_of (self st))) as (d' & Hthis & Hlater).
  destruct (attempt_fails_run (attempts + 1) st d' Hthis)
    as (o1 & post & Hattempt & Hpost & Hcur1 & Hconn1 & _).
  set (st1 := mkState o1 (set_driver d' (world st))) in *.
  destruct (failed_round n attempts allow rp st st1 _ Hattempt)
    as (st2 & dialogue & Hloop & Hframe & Hno & P1 & P2 & P3 & P4 & _).
  { apply ready_first with n. exact Hready. }
  assert (Hready2 : ready n allow rp (world st2)).
  { apply ready_next with st1; [exact Hready | exact Hframe]. }
  destruct Hframe as (Fdrv & Fconn & Fcur & _).
  destruct (IH (attempts + 1) st2) as (st' & evs & Hrest & Hcount & Hlink & Htail);
    [rewrite Fdrv; exact Hlater | exact Hready2 |].
  rewrite Hloop, Hrest.
  exists st'.
  exists (([EvLog DEBUG (attempt_message (attempts + 1) (self st));
            EvConnect (conn_str_of (self st))] ++ post) ++ dialogue ++ evs).
  split; [rewrite <- !app_assoc; reflexivity |].
  split; [rewrite !attempts_in_app, Hpost, Hno, Hcount; reflexivity |].
  split.
  { intros Hopens. destruct (Hopens (conn_str_of (self st))) as (e & d1 & Hraise & Hopens').
    assert (d1 = d') as ->.
    { destruct Hthis as [e' Hopen | c d0 e' Hopen _]; rewrite Hopen in Hraise;
        [now inversion Hraise | discriminate]. }
    rewrite Fdrv in Hlink. destruct (Hlink Hopens') as [Hc1 Hc2].
    rewrite Hc1, Hc2, Fconn, Fcur. split; [exact (Hconn1 _ _ Hraise) | exact Hcur1]. }
  intros _.
  destruct n as [| n].
  - cbn in Hrest. injection Hrest as _ Hevs.
    assert (evs = []) as ->.
    { apply (f_equal (@List.length Event)) in Hevs. rewrite length_app in Hevs.
      destruct evs; [reflexivity | cbn in Hevs; lia]. }
    rewrite app_nil_r. cbn [app].
    change (EvLog DEBUG (attempt_message (attempts + 1) (self st))
              :: EvConnect (conn_str_of (self st)) :: (post ++ dialogue) ++ giving_up)
      with ([EvLog DEBUG (attempt_message (attempts + 1) (self st))]
              ++ EvConnect (conn_str_of (self st)) :: (post ++ dialogue) ++ giving_up).
    rewrite after_last_attempt_last.
    + unfold dialogue_prompts_in. rewrite !in_app_iff. auto 8.
    + apply attempts_in_none. rewrite !attempts_in_app, Hpost, Hno. reflexivity.
  - replace ((([EvLog DEBUG (attempt_message (attempts + 1) (self st));
                  EvConnect (conn_str_of (self st))] ++ post) ++ dialogue ++ evs)
               ++ giving_up)
      with ((([EvLog DEBUG (attempt_message (attempts + 1) (self st));
                EvConnect (conn_str_of (self st))] ++ post) ++ dialogue)
              ++ (evs ++ giving_up))
      by (rewrite <- !app_assoc; reflexivity).
    rewrite after_last_attempt_app; [apply Htail; lia |].
    destruct (existsb is_attempt (evs ++ giving_up)) eqn:Hex; [reflexivity |].
    apply attempts_in_none in Hex. rewrite attempts_in_app, Hcount in Hex. discriminate.
Qed.

Lemma opens_fail_attempts_fail (n : nat) (d : D) :
  opens_fail n d -> attempts_fail n d.
Proof.
  revert d. induction n as [| n IH]; intros d Hopens; [exact I |].
  intros conn_str. destruct (Hopens conn_str) as (e & d' & Hraise & Hlater).
  exists d'. split; [exact (open_raises _ _ _ e Hraise) | apply IH, Hlater].
Qed.

(** *** Runs in which an attempt succeeds *)

Lemma succeeding_run (m : nat) (c : Connection) (cur : Cursor) (allow rp : bool) :
  forall (n : nat) (attempts : Z) (st : State D),
    (m < n)%nat ->
    succeeds_after m (driver (world st)) c cur ->
    ready m allow rp (world st) ->
    exists st' evs,
      connect_loop n attempts allow rp st
      = (Ok (Some c, Some cur), st',
         evs ++ [EvLog INFO (connected_message (attempts + Z.of_nat m + 1) (self st'))])
      /\ conn (self st') = Some c
      /\ cursor (self st') = Some cur
      /\ attempts_in evs = S m.
Proof.
  induction m as [| m IH]; intros n attempts st Hlt Hdrv Hready;
    (destruct n as [| n]; [lia |]).
  - destruct (Hdrv (conn_str_of (self st))) as (d1 & d2 & Hopen & Hcur).
    cbn [connect_loop].
    rewrite (bind_ok _ _ _ _ _ _ (attempt_succeeds (attempts + 1) st c cur d1 d2 Hopen Hcur)).
    exists (mkState (with_cursor (Some cur) (with_conn (Some c) (self st)))
                    (set_driver d2 (world st))).
    exists [EvLog DEBUG (attempt_message (attempts + 1) (self st));
            EvConnect (conn_str_of (self st)); EvCursor c].
    replace (attempts + Z.of_nat 0 + 1) with (attempts + 1) by lia.
    unfold ret. repeat split.
  - destruct (Hdrv (conn_str_of (self st))) as (d' & Hthis & Hlater).
    destruct (attempt_fails_run (attempts + 1) st d' Hthis)
      as (o1 & post & Hattempt & Hpost & _).
    set (st1 := mkState o1 (set_driver d' (world st))) in *.
    destruct (failed_round n attempts allow rp st st1 _ Hattempt)
      as (st2 & dialogue & Hloop & Hframe & Hno & _).
    { apply ready_first with m. exact Hready. }
    assert (Hready2 : ready m allow rp (world st2)).
    { apply ready_next with st1; [exact Hready | exact Hframe]. }
    destruct Hframe as (Fdrv & _).
    destruct (IH n (attempts + 1) st2) as (st' & evs & Hrest & Hconn & Hcur & Hcount);
      [lia | rewrite Fdrv; exact Hlater | exact Hready2 |].
    rewrite Hloop, Hrest.
    exists st'.
    exists (([EvLog DEBUG (attempt_message (attempts + 1) (self st));
              EvConnect (conn_str_of (self st))] ++ post) ++ dialogue ++ evs).
    split; [| split; [exact Hconn | split; [exact Hcur |]]].
    + replace (attempts + Z.of_nat (S m) + 1) with (attempts + 1 + Z.of_nat m + 1) by lia.
      rewrite <- !app_assoc. reflexivity.
    + rewrite !attempts_in_app, Hpost, Hno, Hcount. reflexivity.
Qed.

(** *** What [connect] returns is what it stored *)

Lemma attempt_connection_total (attempts : Z) (st : State D) :
  exists r o1 d' ev,
    attempt_connection attempts st = (Ok r, mkState o1 (set_driver d' (world st)), ev)
    /\ dsn o1 = dsn (self st)
    /\ username o1 = username (self st)
    /\ password o1 = password (self st)
    /\ (r = None
        \/ exists c cur, r = Some (Some c, Some cur)
                         /\ conn o1 = Some c /\ cursor o1 = Some cur).
Proof.
  destruct (pyodbc_connect (conn_str_of (self st)) (driver (world st)))
    as [[c | e] d1] eqn:Hopen.
  - destruct (Connection_cursor c d1) as [[cur | e] d2] eqn:Hcur.
    + rewrite (attempt_succeeds _ _ _ _ _ _ Hopen Hcur).
      do 4 eexists. split; [reflexivity |]. repeat split. right. eauto.
    + rewrite (attempt_cursor_raises _ _ _ _ _ _ Hopen Hcur).
      do 4 eexists. split; [reflexivity |]. repeat split. left. reflexivity.
  - rewrite (attempt_open_raises _ _ _ _ Hopen).
    do 4 eexists. split; [reflexivity |]. repeat split. left. reflexivity.
Qed.

Lemma returns_stored_bind {X : Type} (c : M (State D) X)
    (k : X -> M (State D) (option Connection * option Cursor)) (st : State D) :
  (forall a st1 ev1, c st = (Ok a, st1, ev1) -> returns_stored (k a st1)) ->
  returns_stored (bind c k st).
Proof.
  intros Hk. unfold bind. destruct (c st) as [[[a | e] st1] ev1]; [| exact I].
  specialize (Hk a st1 ev1 eq_refl).
  destruct (k a st1) as [[[r | e] st2] ev2]; [exact Hk | exact I].
Qed.

Lemma connect_loop_returns_stored (n : nat) (allow rp : bool) :
  forall (attempts : Z) (st : State D),
    returns_stored (connect_loop n attempts allow rp st).
Proof.
  induction n as [| n IH]; intros attempts st.
  { cbn. left. reflexivity. }
  cbn [connect_loop]. apply returns_stored_bind. intros r st1 ev1 Hattempt.
  destruct (attempt_connection_total (attempts + 1) st)
    as (r' & o1 & d' & ev' & Hrun & _ & _ & _ & Hr).
  rewrite Hrun in Hattempt. inversion Hattempt; subst r' st1 ev'. clear Hattempt.
  destruct Hr as [-> | (c & cur & -> & Hconn & Hcur)].
  - apply returns_stored_bind. intros _ st2 _ _.
    apply returns_stored_bind. intros line st3 _ _.
    destruct (String.eqb (PyStr.lower (PyStr.strip line)) "n").
    + cbn. left. reflexivity.
    + apply returns_stored_bind. intros _ st4 _ _.
      apply returns_stored_bind. intros _ st5 _ _.
      apply IH.
  - cbn. right. exists c, cur. auto.
Qed.

(** *** [close] *)

Ltac close_cases :=
  repeat split; intros;
  repeat match goal with
    | Heq : Some _ = Some _ |- _ => inversion Heq; subst; clear Heq
    | Heq : None = Some _ |- _ => discriminate Heq
    | Heq : Some _ = None |- _ => discriminate Heq
    end;
  repeat match goal with
    | Heq : ?x = _, Heq' : ?x = _ |- _ => rewrite Heq in Heq'; inversion Heq'; subst; clear Heq'
    end;
  repeat match goal with
    | Heq : ?x = _ |- context [?x] => rewrite Heq
    end;
  try reflexivity; try congruence.

Lemma close_run (st : State D) :
  exists w' ev,
    close st = (Ok tt, mkState (self st) w', ev)
    /\ (cursor (self st) = None -> conn (self st) = None -> w' = world st /\ ev = [])
    /\ (forall cur, cursor (self st) = Some cur -> hd_error ev = Some (EvCursorClose cur))
    /\ (forall c, cursor (self st) = None -> conn (self st) = Some c ->
                  ev = [EvConnClose c;
                        close_log "Connection" (fst (Connection_close c (driver (world st))))])
    /\ (forall cur e d1,
          cursor (self st) = Some cur ->
          Cursor_close cur (driver (world st)) = (Raise e, d1) ->
          ev = [EvCursorClose cur; close_log "Cursor" (Raise e)])
    /\ (forall cur d1,
          cursor (self st) = Some cur -> conn (self st) = None ->
          Cursor_close cur (driver (world st)) = (Ok tt, d1) ->
          ev = [EvCursorClose cur; close_log "Cursor" (Ok tt)])
    /\ (forall cur c d1,
          cursor (self st) = Some cur -> conn (self st) = Some c ->
          Cursor_close cur (driver (world st)) = (Ok tt, d1) ->
          ev = [EvCursorClose cur; close_log "Cursor" (Ok tt);
                EvConnClose c; close_log "Connection" (fst (Connection_close c d1))]).
Proof.
  destruct st as [[the_dsn the_user the_pass [c |] [cur |]] w];
    unfold close, try_except, bind, get_self, lift, call, logger_info, logger_error, emit, ret;
    cbn.
  - destruct (Cursor_close cur (driver w)) as [[[] | e] d1] eqn:Hcc; cbn.
    + destruct (Connection_close c d1) as [[[] | e] d2] eqn:Hcl; cbn;
        (do 2 eexists; split; [reflexivity |]; cbn; close_cases).
    + do 2 eexists. split; [reflexivity |]. cbn. close_cases.
  - destruct (Connection_close c (driver w)) as [[[] | e] d2] eqn:Hcl; cbn;
      (do 2 eexists; split; [reflexivity |]; cbn; close_cases).
  - destruct (Cursor_close cur (driver w)) as [[[] | e] d1] eqn:Hcc; cbn;
      (do 2 eexists; split; [reflexivity |]; cbn; close_cases).
  - exists w, []. close_cases.
Qed.

(** *** [query_dataframe] *)

Lemma query_dataframe_checks_connection_aux (sql : string) (st : State D) :
  pandas_importable (driver (world st)) = true ->
  forall c, conn (self st) = Some c ->
    query_dataframe sql st
    = (let '(r, d') := pd_read_sql sql c (driver (world st)) in
       (r, mkState (self st) (set_driver d' (world st)), [EvReadSql sql c])).
Proof.
  intros Hpandas c Hsome.
  unfold query_dataframe, bind, import_pandas, get_self, raise, lift, call.
  rewrite Hpandas, Hsome.
  destruct (pd_read_sql sql c (driver (world st))) as [r d']. reflexivity.
Qed.

(** *** A change of DSN that fails *)

Lemma offer_change_dsn_select_fails (st : State D) (line : string) (rest : list string)
    (e : Exn) (w' : World D) (evsel : list Event) :
  answers (world st) change_dsn_prompt = line :: rest ->
  normalised line = "y" ->
  _select_dsn (set_answers change_dsn_prompt rest (world st)) = (Raise e, w', evsel) ->
  offer_change_dsn true st
  = (Ok tt, mkState (self st) w',
     EvInput change_dsn_prompt :: evsel ++ change_dsn_report e).
Proof.
  intros Hline Hyes Hsel. unfold offer_change_dsn.
  rewrite (bind_ok _ _ _ _ _ _ (lift_input_ok st _ _ _ Hline)).
  fold (normalised line). rewrite Hyes.
  change (String.eqb "y" "y") with true. cbv iota.
  unfold try_except, bind, lift, set_self, print, logger_error, emit. cbn -[_select_dsn].
  rewrite Hsel. reflexivity.
Qed.

(** *** [_select_dsn] on a script that ends with a valid index *)

Lemma select_loop_run (l : list (string * string)) (invalid : list string)
    (line : string) (rest : list string) (i : Z) :
  Forall (rejected (List.length l)) invalid ->
  py_int line = Some i ->
  0 <= i < Z.of_nat (List.length l) ->
  select_loop l (invalid ++ line :: rest)
  = (Ok (fst (List.nth (Z.to_nat i) l (EmptyString, EmptyString))), rest,
     List.concat (map rejection invalid)
       ++ [EvInput select_prompt;
           EvLog INFO ("User selected DSN: "
                         +s fst (List.nth (Z.to_nat i) l (EmptyString, EmptyString)))]).
Proof.
  intros Hinvalid Hline Hrange.
  induction Hinvalid as [| bad invalid Hbad _ IH]; cbn [app select_loop].
  - rewrite Hline.
    replace ((0 <=? i) && (i <? Z.of_nat (List.length l))) with true; [reflexivity |].
    symmetry. apply andb_true_iff. split; [apply Z.leb_le | apply Z.ltb_lt]; lia.
  - unfold rejected in Hbad. unfold rejection at 1. cbn [map List.concat].
    destruct (py_int bad) as [z |].
    + replace ((0 <=? z) && (z <? Z.of_nat (List.length l))) with false.
      * rewrite IH. reflexivity.
      * symmetry. apply andb_false_iff.
        destruct (Z.leb_spec 0 z); [right | left; reflexivity].
        apply Z.ltb_ge. lia.
    + rewrite IH. reflexivity.
Qed.

Lemma listing_no_prompt (i : Z) (l : list (string * string)) :
  filter is_prompt (listing i l) = [].
Proof.
  revert i. induction l as [| [name drv] l IH]; intros i; [reflexivity |].
  cbn. apply IH.
Qed.

Lemma rejections_prompts (invalid : list string) :
  List.length (filter is_prompt (List.concat (map rejection invalid))) = List.length invalid.
Proof.
  induction invalid as [| bad invalid IH]; [reflexivity |].
  cbn. f_equal. exact IH.
Qed.

Lemma set_driver_same (w : World D) : set_driver (driver w) w = w.
Proof. destruct w. reflexivity. Qed.

Lemma after_last_attempt_no_attempt (l : list Event) :
  attempts_in (after_last_attempt l) = 0%nat.
Proof.
  induction l as [| ev l IH]; [reflexivity |].
  cbn [after_last_attempt].
  destruct (existsb is_attempt l) eqn:Hl; [exact IH |].
  apply attempts_in_none in Hl.
  destruct (is_attempt ev) eqn:Hev; [exact Hl |].
  unfold attempts_in in *. cbn. rewrite Hev. exact Hl.
Qed.

Lemma query_dataframe_without_pandas (sql : string) (st : State D) :
  pandas_importable (driver (world st)) = false ->
  query_dataframe sql st
  = (Raise (mkExn ModuleNotFoundError "No module named 'pandas'"), st, []).
Proof.
  intros Hpandas. unfold query_dataframe, bind, import_pandas. rewrite Hpandas. reflexivity.
Qed.

(** *** [__init__] *)

(** A manager that has just been constructed holds no connection and no cursor. *)
Lemma init_unconnected (dsn0 username0 password0 : option string) (w w' : World D)
    (o : DatabaseConnector) (ev : list Event) :
  __init__ dsn0 username0 password0 w = (Ok o, w', ev) -> unconnected o.
Proof.
  unfold __init__. intros Hinit.
  apply bind_inv in Hinit as [(the_dsn & w1 & ev1 & ev2 & _ & Hinit & _) | (e & _ & Habs)];
    [| discriminate].
  apply bind_inv in Hinit as [(the_user & w2 & ev3 & ev4 & _ & Hinit & _) | (e & _ & Habs)];
    [| discriminate].
  apply bind_inv in Hinit as [(the_pass & w3 & ev5 & ev6 & _ & Hinit & _) | (e & _ & Habs)];
    [| discriminate].
  unfold ret in Hinit. inversion Hinit. split; reflexivity.
Qed.

(** *** From one attempt to the next *)

(** The state and the events of an attempt that fails. *)
Lemma attempt_fails_exact (attempts : Z) (st : State D) (d' : D) :
  attempt_fails (conn_str_of (self st)) (driver (world st)) d' ->
  exists o1 ev1,
    attempt_connection attempts st = (Ok None, mkState o1 (set_driver d' (world st)), ev1)
    /\ attempts_in ev1 = 1%nat
    /\ filter is_prompt ev1 = []
    /\ dsn o1 = dsn (self st)
    /\ username o1 = username (self st)
    /\ password o1 = password (self st).
Proof.
  intros [e Hopen | c d1 e Hopen Hcur].
  - rewrite (attempt_open_raises _ _ _ _ Hopen). do 2 eexists. repeat split.
  - rewrite (attempt_cursor_raises _ _ _ _ _ _ Hopen Hcur). do 2 eexists. repeat split.
Qed.

Lemma prompt_credentials_exact (rp : bool) (st : State D)
    (user_line secret : string) (user_rest secret_rest : list string) :
  (rp = true -> answers (world st) username_prompt = user_line :: user_rest) ->
  answers (world st) password_prompt = secret :: secret_rest ->
  exists w',
    _prompt_credentials rp st
    = (Ok tt,
       mkState (mkDatabaseConnector (dsn (self st))
                  (if rp then PyStr.strip user_line else username (self st))
                  secret (conn (self st)) (cursor (self st)))
               w',
       (if rp then [EvInput username_prompt] else []) ++ [EvGetpass password_prompt])
    /\ driver w' = driver (world st)
    /\ answers w' password_prompt = secret_rest
    /\ (forall p, String.eqb p username_prompt = false ->
                  String.eqb p password_prompt = false ->
                  answers w' p = answers (world st) p).
Proof.
  intros Huser Hsecret. unfold _prompt_credentials. destruct rp.
  - specialize (Huser eq_refl).
    unfold bind, set_self, lift, input, getpass, read_line. cbn.
    rewrite Huser. cbn.
    replace (String.eqb password_prompt username_prompt) with false by reflexivity.
    rewrite Hsecret.
    eexists. split; [reflexivity |]. cbn. repeat split.
    intros p Hp1 Hp2. rewrite Hp1, Hp2. reflexivity.
  - unfold bind, set_self, lift, input, getpass, read_line, ret. cbn.
    rewrite Hsecret.
    eexists. split; [reflexivity |]. cbn. repeat split.
    intros p Hp1 Hp2. rewrite Hp2. reflexivity.
Qed.

Lemma round_exact (n : nat) (attempts : Z) (allow rp : bool) (st st1 stb stc : State D)
    (ev1 evb evc : list Event) (line : string) (rest : list string) :
  attempt_connection (attempts + 1) st = (Ok None, st1, ev1) ->
  answers (world st1) retry_prompt = line :: rest ->
  normalised line <> "n" ->
  offer_change_dsn allow (mkState (self st1) (set_answers retry_prompt rest (world st1)))
  = (Ok tt, stb, evb) ->
  _prompt_credentials rp stb = (Ok tt, stc, evc) ->
  connect_loop (S n) attempts allow rp st
  = (let '(r, st', evs) := connect_loop n (attempts + 1) allow rp stc in
     (r, st',
      (ev1 ++ [EvPrint (NL +s "Connection failed."); EvInput retry_prompt] ++ evb ++ evc)
        ++ evs)).
Proof.
  intros Hattempt Hline Hyes Hoffer Hcreds.
  cbn [connect_loop].
  rewrite (bind_ok _ _ _ _ _ _ Hattempt).
  rewrite (bind_ok _ _ st1 st1 tt [EvPrint (NL +s "Connection failed.")]) by reflexivity.
  rewrite (bind_ok _ _ _ _ _ _ (lift_input_ok st1 _ _ _ Hline)).
  fold (normalised line). apply String.eqb_neq in Hyes. rewrite Hyes.
  rewrite (bind_ok _ _ _ _ _ _ Hoffer), (bind_ok _ _ _ _ _ _ Hcreds).
  destruct (connect_loop n (attempts + 1) allow rp stc) as [[r st'] evs].
  f_equal. cbn [app]. rewrite <- !app_assoc. cbn [app]. rewrite <- !app_assoc. reflexivity.
Qed.

(** Every iteration of the loop starts by logging the attempt and calling
    [pyodbc.connect] with the connection string of the current state. *)
Lemma connect_loop_first_attempt (n : nat) (attempts : Z) (allow rp : bool) (st : State D) :
  exists tail,
    snd (connect_loop (S n) attempts allow rp st)
    = EvLog DEBUG (attempt_message (attempts + 1) (self st))
        :: EvConnect (conn_str_of (self st)) :: tail.
Proof.
  cbn [connect_loop].
  assert (Hhead : exists r st1 rest,
             attempt_connection (attempts + 1) st
             = (Ok r, st1,
                EvLog DEBUG (attempt_message (attempts + 1) (self st))
                  :: EvConnect (conn_str_of (self st)) :: rest)).
  { destruct (pyodbc_connect (conn_str_of (self st)) (driver (world st)))
      as [[c | e] d1] eqn:Hopen.
    - destruct (Connection_cursor c d1) as [[cur | e] d2] eqn:Hcur.
      + rewrite (attempt_succeeds _ _ _ _ _ _ Hopen Hcur). eauto.
      + rewrite (attempt_cursor_raises _ _ _ _ _ _ Hopen Hcur). eauto.
    - rewrite (attempt_open_raises _ _ _ _ Hopen). eauto. }
  destruct Hhead as (r & st1 & rest & Hrun).
  match goal with
  | |- exists tail, snd (bind ?c ?k ?s) = _ =>
      destruct (bind_events_head c k s _ _ _ Hrun) as (tail & Htail)
  end.
  rewrite Htail. eexists. reflexivity.
Qed.

(** ** The claims *)

(** Exhaustion when it is [pyodbc.connect] that raises.  For every
    [k >= 1]: when the driver fails to open a connection at each of the [k]
    attempts and the user answers every retry prompt with something other
    than "n" (and answers the prompts that follow),
    [connect(max_attempts=k)] calls [pyodbc.connect] exactly [k] times,
    prints and logs the final failure, returns [(None, None)], and leaves
    the connection and the cursor as they were: a manager that was
    unconnected stays so.  (Not so when an attempt fails at [cursor()],
    which leaves the connection it opened in the manager.) *)
Theorem connect_driver_always_fails (k : Z) (allow rp : bool) (st : State D) :
  1 <= k ->
  opens_fail (Z.to_nat k) (driver (world st)) ->
  ready (Z.to_nat k) allow rp (world st) ->
  exists st' evs,
    connect k allow rp st = (Ok (None, None), st', evs ++ giving_up)
    /\ attempts_in (evs ++ giving_up) = Z.to_nat k
    /\ conn (self st') = conn (self st)
    /\ cursor (self st') = cursor (self st)
    /\ (unconnected (self st) -> unconnected (self st')).
Proof.
  intros Hk Hfail Hready. unfold connect. rewrite Z.sub_0_r.
  destruct (failing_run (Z.to_nat k) 0 allow rp st
              (opens_fail_attempts_fail _ _ Hfail) Hready)
    as (st' & evs & Hrun & Hcount & Hlink & _).
  destruct (Hlink Hfail) as [Hconn Hcur].
  exists st', evs. rewrite attempts_in_app, Hcount.
  split; [exact Hrun |].
  split; [cbn; lia |].
  split; [exact Hconn |].
  split; [exact Hcur |].
  intros [Uconn Ucur]. split; congruence.
Qed.

(** C2.  For every [k >= 1] and [j <= k]: when the first [j - 1] attempts
    fail, the [j]-th opens a connection and derives its cursor, and the user
    goes through the [j - 1] retry dialogues, [connect(max_attempts=k)]
    returns that (connection, cursor) pair, has stored both in the manager,
    logs the success with the attempt number [j] as its last event, and has
    called [pyodbc.connect] exactly [j] times: no attempt follows the
    successful one, whatever [k - j] is. *)
Theorem connect_stops_at_first_success (k : Z) (j : nat) (allow rp : bool)
    (st : State D) (c : Connection) (cur : Cursor) :
  (1 <= j)%nat ->
  Z.of_nat j <= k ->
  succeeds_after (j - 1) (driver (world st)) c cur ->
  ready (j - 1) allow rp (world st) ->
  exists st' evs,
    connect k allow rp st
    = (Ok (Some c, Some cur), st',
       evs ++ [EvLog INFO (connected_message (Z.of_nat j) (self st'))])
    /\ conn (self st') = Some c
    /\ cursor (self st') = Some cur
    /\ attempts_in (evs ++ [EvLog INFO (connected_message (Z.of_nat j) (self st'))]) = j.
Proof.
  intros Hj Hjk Hdrv Hready. unfold connect. rewrite Z.sub_0_r.
  destruct (succeeding_run (j - 1) c cur allow rp (Z.to_nat k) 0 st)
    as (st' & evs & Hrun & Hconn & Hcur & Hcount); [lia | exact Hdrv | exact Hready |].
  exists st', evs.
  replace (0 + Z.of_nat (j - 1) + 1) with (Z.of_nat j) in Hrun by lia.
  rewrite attempts_in_app, Hcount. cbn.
  repeat split; auto. lia.
Qed.

(** C9.  For every [max_attempts <= 0], [connect] makes no connection
    attempt and asks nothing: it prints and logs that it gives up, returns
    [(None, None)] and leaves the manager and the world untouched. *)
Theorem connect_no_attempt_allowed (max_attempts : Z) (allow rp : bool) (st : State D) :
  max_attempts <= 0 ->
  connect max_attempts allow rp st = (Ok (None, None), st, giving_up)
  /\ attempts_in giving_up = 0%nat
  /\ filter is_prompt giving_up = [].
Proof.
  intros Hmax. unfold connect.
  replace (Z.to_nat (max_attempts - 0)) with 0%nat by lia.
  repeat split.
Qed.

(** C6, as the code has it.  When pandas can be imported: for every [sql],
    [query_dataframe] on a manager without connection raises the "no active
    connection" error without any call to the driver or to [pd.read_sql],
    and leaves the manager and the world as they were; on a manager with a
    connection it calls [pd.read_sql(sql, conn)] once and its outcome is
    the outcome of that call.  (The import of pandas is the first statement
    of the method: without pandas the check is not reached.) *)
Theorem query_dataframe_checks_connection (sql : string) (st : State D) :
  pandas_importable (driver (world st)) = true ->
  (conn (self st) = None -> query_dataframe sql st = (Raise not_connected, st, []))
  /\ (forall c, conn (self st) = Some c ->
                query_dataframe sql st
                = (let '(r, d') := pd_read_sql sql c (driver (world st)) in
                   (r, mkState (self st) (set_driver d' (world st)), [EvReadSql sql c]))).
Proof.
  intros Hpandas.
  unfold query_dataframe, bind, import_pandas, get_self, raise, lift, call.
  rewrite Hpandas. split.
  - intros Hnone. rewrite Hnone. reflexivity.
  - intros c Hsome. rewrite Hsome.
    destruct (pd_read_sql sql c (driver (world st))) as [r d']. reflexivity.
Qed.

(** C10.  After a [connect] that returned a connection [c] and a [close],
    the manager still holds [c]: for every [sql], [query_dataframe] does
    not end as it does on a manager without connection (the "no active
    connection" error raised before any call), and (pandas being
    importable) it hands the query over to [pd.read_sql] on the handle [c],
    on which [close] has just called [close] (whenever closing the cursor
    did not raise). *)
Theorem query_after_close_is_delegated (k : Z) (allow rp : bool) (st st1 : State D)
    (ev1 : list Event) (c : Connection) (cur : Cursor) (sql : string) :
  connect k allow rp st = (Ok (Some c, Some cur), st1, ev1) ->
  exists st2 ev2,
    close st1 = (Ok tt, st2, ev2)
    /\ conn (self st2) = Some c
    /\ hd_error ev2 = Some (EvCursorClose cur)
    /\ (forall d1, Cursor_close cur (driver (world st1)) = (Ok tt, d1) ->
                   In (EvConnClose c) ev2)
    /\ (forall st3, query_dataframe sql st2 <> (Raise not_connected, st3, []))
    /\ (pandas_importable (driver (world st2)) = true ->
        query_dataframe sql st2
        = (let '(r, d') := pd_read_sql sql c (driver (world st2)) in
           (r, mkState (self st2) (set_driver d' (world st2)), [EvReadSql sql c]))).
Proof.
  intros Hconnect.
  pose proof (connect_loop_returns_stored (Z.to_nat (k - 0)) allow rp 0 st) as Hstored.
  unfold connect in Hconnect. rewrite Hconnect in Hstored. cbn in Hstored.
  destruct Hstored as [Habs | (c' & cur' & Heq & Hconn & Hcur)]; [discriminate |].
  inversion Heq; subst c' cur'. clear Heq.
  destruct (close_run st1) as (w' & ev2 & Hclose & _ & Hfirst & _ & _ & _ & Hboth).
  exists (mkState (self st1) w'), ev2.
  split; [exact Hclose |]. split; [exact Hconn |]. split; [exact (Hfirst cur Hcur) |].
  split.
  { intros d1 Hclosed. rewrite (Hboth cur c d1 Hcur Hconn Hclosed). cbn. auto. }
  split.
  - intros st3.
    destruct (pandas_importable (driver w')) eqn:Hpandas.
    + rewrite (query_dataframe_checks_connection_aux sql (mkState (self st1) w') Hpandas c Hconn).
      cbn. destruct (pd_read_sql sql c (driver w')) as [r d'].
      intros Heq. inversion Heq.
    + unfold query_dataframe, bind, import_pandas. cbn. rewrite Hpandas. discriminate.
  - intros Hpandas.
    apply (query_dataframe_checks_connection_aux sql (mkState (self st1) w') Hpandas c Hconn).
Qed.

(** C7.  In [connect] with [allow_change_dsn=True]: when an attempt has
    failed, the user goes on, answers "y" to the offer to change the DSN,
    and [_select_dsn] then raises any exception [e], the exception does not
    leave [connect]: it is printed and logged, the dialogue goes on to the
    credentials, and the loop continues from a state whose DSN is the one
    selected before.  The next attempt, if one is left, hands
    [pyodbc.connect] the connection string of that DSN, with the password
    just typed and the username just typed (stripped) when
    [reprompt_username] holds, the former username otherwise. *)
Theorem change_dsn_failure_is_contained (n : nat) (attempts : Z) (rp : bool)
    (st : State D) (d' : D) (retry_line change_line user_line secret : string)
    (retry_rest change_rest user_rest secret_rest : list string)
    (e : Exn) (w' : World D) (evsel : list Event) :
  attempt_fails (conn_str_of (self st)) (driver (world st)) d' ->
  answers (world st) retry_prompt = retry_line :: retry_rest ->
  normalised retry_line <> "n" ->
  answers (world st) change_dsn_prompt = change_line :: change_rest ->
  normalised change_line = "y" ->
  _select_dsn (set_answers change_dsn_prompt change_rest
                 (set_answers retry_prompt retry_rest (set_driver d' (world st))))
  = (Raise e, w', evsel) ->
  (rp = true -> answers (world st) username_prompt = user_line :: user_rest) ->
  answers (world st) password_prompt = secret :: secret_rest ->
  exists st2 round before,
    connect_loop (S n) attempts true rp st
    = (let '(r, st', evs) := connect_loop n (attempts + 1) true rp st2 in
       (r, st', round ++ evs))
    /\ dsn (self st2) = dsn (self st)
    /\ (forall ev, In ev (change_dsn_report e) -> In ev round)
    /\ attempts_in round = 1%nat
    /\ round = before ++ change_dsn_report e
                 ++ (if rp then [EvInput username_prompt] else [])
                 ++ [EvGetpass password_prompt]
    /\ ((1 <= n)%nat ->
        exists after,
          snd (connect_loop n (attempts + 1) true rp st2)
          = EvLog DEBUG (attempt_message (attempts + 1 + 1) (self st2))
              :: EvConnect ("DSN=" +s dsn (self st) +s ";UID="
                              +s (if rp then PyStr.strip user_line else username (self st))
                              +s ";PWD=" +s secret)
              :: after).
Proof.
  intros Hfails Hretry Hyes Hchange Hy Hsel Huser Hsecret.
  destruct (attempt_fails_exact (attempts + 1) st d' Hfails)
    as (o1 & ev1 & Hattempt & Hone & _ & Hdsn & Husername & _).
  set (st1 := mkState o1 (set_driver d' (world st))) in *.
  set (sta := mkState (self st1) (set_answers retry_prompt retry_rest (world st1))).
  assert (Hoffer : offer_change_dsn true sta
                   = (Ok tt, mkState (self sta) w',
                      EvInput change_dsn_prompt :: evsel ++ change_dsn_report e)).
  { apply offer_change_dsn_select_fails with change_line change_rest.
    - cbn. eval_eqb. exact Hchange.
    - exact Hy.
    - exact Hsel. }
  destruct (select_dsn_frame _ _ _ _ Hsel) as (_ & Hans & Hnone).
  destruct (prompt_credentials_exact rp (mkState (self sta) w')
              user_line secret user_rest secret_rest)
    as (w2 & Hcreds & _).
  { intros Hrp. cbn [world]. rewrite Hans by reflexivity. cbn. eval_eqb. exact (Huser Hrp). }
  { cbn [world]. rewrite Hans by reflexivity. cbn. eval_eqb. exact Hsecret. }
  pose proof (round_exact n attempts true rp st st1 _ _ ev1 _ _ retry_line retry_rest
                Hattempt Hretry Hyes Hoffer Hcreds) as Hloop.
  eexists. eexists.
  exists (ev1 ++ [EvPrint (NL +s "Connection failed."); EvInput retry_prompt]
            ++ EvInput change_dsn_prompt :: evsel).
  split; [exact Hloop |].
  split; [cbn [self dsn sta st1]; exact Hdsn |].
  split.
  { intros ev Hev. rewrite !in_app_iff. right. right. left.
    right. apply in_or_app. right. exact Hev. }
  split.
  { rewrite !attempts_in_app, Hone.
    change (EvInput change_dsn_prompt :: evsel ++ change_dsn_report e)
      with ([EvInput change_dsn_prompt] ++ evsel ++ change_dsn_report e).
    rewrite !attempts_in_app, Hnone. destruct rp; reflexivity. }
  split.
  { rewrite <- !app_assoc. cbn [app]. rewrite <- !app_assoc. reflexivity. }
  intros Hn. destruct n as [| m]; [lia |].
  destruct (connect_loop_first_attempt m (attempts + 1) true rp
              (mkState (mkDatabaseConnector (dsn (self (mkState (self sta) w')))
                          (if rp then PyStr.strip user_line
                           else username (self (mkState (self sta) w')))
                          secret (conn (self (mkState (self sta) w')))
                          (cursor (self (mkState (self sta) w'))))
                       w2))
    as (tail & Htail).
  exists tail. rewrite Htail. unfold conn_str_of.
  cbn [self dsn username password sta st1]. rewrite Hdsn, Husername. reflexivity.
Qed.

(** C8.  [_select_dsn] raises the "no DSNs found" error, without any
    prompt, when [pyodbc.dataSources()] is empty.  With [N] data sources,
    when the lines typed are any number of lines that [int()] refuses or
    reads as integers outside [0, N), followed by a line that [int()] reads
    as an integer [i] in [0, N), it asks once per line, turns each invalid
    line down with its message, and returns the name at index [i], leaving
    the lines typed after it unread. *)
Theorem select_dsn_spec (w : World D) :
  (pyodbc_dataSources (driver w) = [] ->
   _select_dsn w = (Raise no_sources_found, w, [EvDataSources]))
  /\ (forall (invalid : list string) (line : string) (rest : list string) (i : Z),
        let sources := pyodbc_dataSources (driver w) in
        let selected := fst (List.nth (Z.to_nat i) sources (EmptyString, EmptyString)) in
        answers w select_prompt = invalid ++ line :: rest ->
        Forall (rejected (List.length sources)) invalid ->
        py_int line = Some i ->
        0 <= i < Z.of_nat (List.length sources) ->
        exists evs,
          _select_dsn w = (Ok selected, set_answers select_prompt rest w, evs)
          /\ evs = EvDataSources :: EvPrint "Available DSNs:" :: listing 0 sources
                   ++ List.concat (map rejection invalid)
                   ++ [EvInput select_prompt; EvLog INFO ("User selected DSN: " +s selected)]
          /\ List.length (filter is_prompt evs) = S (List.length invalid)).
Proof.
  split.
  - intros Hnone. unfold _select_dsn, bind, call, raise. cbn. rewrite Hnone.
    rewrite set_driver_same. reflexivity.
  - intros invalid line rest i sources selected Hlines Hinvalid Hline Hrange.
    subst sources selected.
    eexists. split; [| split; [reflexivity |]].
    + unfold _select_dsn, bind, call, raise, print, emit. cbn.
      destruct (pyodbc_dataSources (driver w)) as [| src srcs] eqn:Hsrc;
        [cbn in Hrange; lia |].
      cbn. rewrite Hlines.
      rewrite (select_loop_run (src :: srcs) invalid line rest i Hinvalid Hline Hrange).
      rewrite set_driver_same. reflexivity.
    + cbn. rewrite !filter_app, !length_app, listing_no_prompt, rejections_prompts.
      cbn. lia.
Qed.

(** The dialogue after the last attempt.  For every [k >= 1]: when all
    [k] attempts fail and the user goes through every retry dialogue, the
    last failed attempt is followed by the same dialogue as the others (the
    retry prompt, the offer to change the DSN if allowed, the credentials),
    and only then does [connect] print and log that it gives up and return
    [(None, None)]; no connection attempt follows these prompts. *)
Theorem final_failed_attempt_is_followed_by_dialogue (k : Z) (allow rp : bool)
    (st : State D) :
  1 <= k ->
  attempts_fail (Z.to_nat k) (driver (world st)) ->
  ready (Z.to_nat k) allow rp (world st) ->
  exists st' evs,
    connect k allow rp st = (Ok (None, None), st', evs ++ giving_up)
    /\ attempts_in (evs ++ giving_up) = Z.to_nat k
    /\ dialogue_prompts_in allow rp (after_last_attempt (evs ++ giving_up))
    /\ attempts_in (after_last_attempt (evs ++ giving_up)) = 0%nat.
Proof.
  intros Hk Hfail Hready. unfold connect. rewrite Z.sub_0_r.
  destruct (failing_run (Z.to_nat k) 0 allow rp st Hfail Hready)
    as (st' & evs & Hrun & Hcount & _ & Htail).
  exists st', evs.
  split; [exact Hrun |].
  split; [rewrite attempts_in_app, Hcount; cbn; lia |].
  split; [apply Htail; lia | apply after_last_attempt_no_attempt].
Qed.

(** C5, as the code has it.  [close()] never raises: on every manager
    state it calls [close] on the cursor if there is one and then, unless
    that raised, on the connection if there is one, logs each close, and
    logs instead of propagating the exception of a close that raised.  It
    leaves both references as they were, so a second [close()] in a row
    does not raise either and goes through the same steps again on the
    same handles, with the outcomes the driver gives then; a [close()]
    makes no call and logs nothing exactly on a manager that holds neither
    cursor nor connection. *)
Theorem close_is_best_effort (st : State D) :
  exists st1 ev1 st2 ev2,
    close st = (Ok tt, st1, ev1)
    /\ close st1 = (Ok tt, st2, ev2)
    /\ self st1 = self st
    /\ self st2 = self st
    /\ close_steps (self st) (driver (world st)) ev1
    /\ close_steps (self st) (driver (world st1)) ev2
    /\ (unconnected (self st) -> st1 = st /\ ev1 = [] /\ st2 = st /\ ev2 = [])
    /\ (ev1 = [] \/ ev2 = [] -> unconnected (self st))
    /\ (forall cur, cursor (self st) = Some cur ->
                    hd_error ev1 = Some (EvCursorClose cur)
                    /\ hd_error ev2 = Some (EvCursorClose cur))
    /\ (forall c, cursor (self st) = None -> conn (self st) = Some c ->
                  hd_error ev1 = Some (EvConnClose c)
                  /\ hd_error ev2 = Some (EvConnClose c)).
Proof.
  destruct (close_run st)
    as (w1 & ev1 & Hclose1 & Hnone1 & Hcur1 & Hconn1 & Hraise1 & Hcuronly1 & Hboth1).
  destruct (close_run (mkState (self st) w1))
    as (w2 & ev2 & Hclose2 & Hnone2 & Hcur2 & Hconn2 & Hraise2 & Hcuronly2 & Hboth2).
  cbn [self world] in *.
  exists (mkState (self st) w1), ev1, (mkState (self st) w2), ev2.
  split; [exact Hclose1 |]. split; [exact Hclose2 |].
  split; [reflexivity |]. split; [reflexivity |].
  split; [unfold close_steps; auto |].
  split; [unfold close_steps; cbn [world]; auto |].
  split.
  { intros [Uconn Ucur]. destruct (Hnone1 Ucur Uconn) as [-> ->].
    destruct (Hnone2 Ucur Uconn) as [-> ->]. destruct st. repeat split. }
  split.
  { intros Hquiet. unfold unconnected.
    destruct (cursor (self st)) as [cur |] eqn:Ecur.
    - specialize (Hcur1 cur eq_refl). specialize (Hcur2 cur eq_refl).
      destruct Hquiet as [-> | ->]; discriminate.
    - destruct (conn (self st)) as [c |] eqn:Econn; [| split; reflexivity].
      specialize (Hconn1 c eq_refl eq_refl). specialize (Hconn2 c eq_refl eq_refl).
      destruct Hquiet as [Hq | Hq]; [rewrite Hq in Hconn1 | rewrite Hq in Hconn2];
        discriminate. }
  split; [intros cur Hcur; split; [apply Hcur1 | apply Hcur2]; exact Hcur |].
  intros c Hcur Hconn.
  rewrite (Hconn1 c Hcur Hconn), (Hconn2 c Hcur Hconn). split; reflexivity.
Qed.

End Properties.

(** ** The theorems at work on the scripted driver *)

Module Runs.

Import Bench Cases.

Ltac not_n := intros Heq; vm_compute in Heq; discriminate Heq.

Ltac answers_ready :=
  unfold ready; cbn;
  repeat split; try lia; try (intros _; lia);
  repeat constructor; not_n.

(** [int()] on the scripted interpreter: blanks around the literal are
    skipped, but not the separators FS..US that [str.strip] removes;
    underscores may separate digits; a literal of more than 4300 digits is
    refused for its length, unless no limit is set.  Beyond ASCII: the
    fullwidth digit one (U+FF11); a no-break space and Arabic-Indic digits;
    FS is not skipped there either; superscript two (U+00B2) is no
    decimal digit. *)
Example int_on_typed_lines :
  @py_int T _ " 7 " = Some 7
  /\ @py_int T _ (String (ascii_of_nat 9) "-12" +s NL) = Some (-12)
  /\ @py_int T _ (String (ascii_of_nat 28) "1") = None
  /\ PyStr.strip (String (ascii_of_nat 28) "1") = "1"
  /\ @py_int T _ "1_0" = Some 10
  /\ @py_int T _ "+ 1" = None
  /\ @py_int T _ "1__0" = None
  /\ @py_int T _ EmptyString = None
  /\ @py_int T _ (padded_one 4299) = Some 1
  /\ @py_int T _ (padded_one 4300) = None
  /\ PyStr.int 0 (fun _ => None) (padded_one 4300) = Some 1
  /\ @py_int T _ (of_bytes [239; 188; 145]%N) = Some 1
  /\ @py_int T _ (of_bytes [194; 160; 45; 217; 161; 95; 217; 162; 32]%N) = Some (-12)
  /\ @py_int T _ (of_bytes [28; 239; 188; 145]%N) = None
  /\ @py_int T _ (of_bytes [194; 178]%N) = None.
Proof. vm_compute. repeat split. Qed.

Lemma machine_opens_fail (n : nat) : opens_fail n (machine []).
Proof.
  induction n as [| n IH]; [exact I |].
  intros conn_str. exists login_failed, (machine []). split; [reflexivity | exact IH].
Defined.

Lemma connect_driver_always_fails_example :
  exists st' evs,
    connect 2 true false stubborn = (Ok (None, None), st', evs ++ giving_up)
    /\ attempts_in (evs ++ giving_up) = Z.to_nat 2
    /\ conn (self st') = conn (self stubborn)
    /\ cursor (self st') = cursor (self stubborn)
    /\ (unconnected (self stubborn) -> unconnected (self st')).
Proof.
  apply (connect_driver_always_fails 2 true false stubborn).
  - lia.
  - apply machine_opens_fail.
  - answers_ready.
Defined.

Lemma final_failed_attempt_is_followed_by_dialogue_example :
  exists st' evs,
    connect 2 true false stubborn = (Ok (None, None), st', evs ++ giving_up)
    /\ attempts_in (evs ++ giving_up) = Z.to_nat 2
    /\ dialogue_prompts_in true false (after_last_attempt (evs ++ giving_up))
    /\ attempts_in (after_last_attempt (evs ++ giving_up)) = 0%nat.
Proof.
  apply (final_failed_attempt_is_followed_by_dialogue 2 true false stubborn).
  - lia.
  - apply opens_fail_attempts_fail, machine_opens_fail.
  - answers_ready.
Defined.

(** C1 fails on the code, by the defect of C3: the driver fails at both
    attempts, each time at [cursor()] after [pyodbc.connect] has opened a
    connection.  [connect(max_attempts=2)] makes its two attempts, reports
    the final failure and returns [(None, None)], as claimed; but the
    manager, unconnected before, is left holding the connection opened last
    and no cursor: its state is not Unconnected. *)
Theorem failed_attempts_leave_a_connection :
  attempts_fail 2 (driver (world no_cursor_twice))
  /\ ready 2 true false (world no_cursor_twice)
  /\ unconnected (self no_cursor_twice)
  /\ (let '(r, st', evs) := connect 2 true false no_cursor_twice in
      r = Ok (None, None)
      /\ attempts_in evs = 2%nat
      /\ skipn (List.length evs - 2) evs = giving_up
      /\ conn (self st') = Some (ConnectionHandle 8)
      /\ cursor (self st') = None
      /\ ~ unconnected (self st')).
Proof.
  split.
  { intros conn_str. eexists. split.
    - eapply cursor_raises; reflexivity.
    - intros conn_str'. eexists. split; [eapply cursor_raises; reflexivity | exact I]. }
  split; [answers_ready |].
  split; [split; reflexivity |].
  vm_compute. repeat split.
  intros [Habs _]. discriminate Habs.
Qed.

(** C4 fails on the code: with [max_attempts=1] the only attempt is the
    final one, and after it has failed [connect] still asks whether to
    retry, offers to change the DSN and asks for the password.  The answer
    (Enter, for yes) is followed by no attempt: the password typed is
    stored, and [connect] gives up at once. *)
Theorem final_failed_attempt_reprompts :
  let '(r, st', evs) := connect 1 true false stubborn in
  r = Ok (None, None)
  /\ attempts_in evs = 1%nat
  /\ filter is_prompt (after_last_attempt evs)
     = [EvInput retry_prompt; EvInput change_dsn_prompt; EvGetpass password_prompt]
  /\ filter is_prompt (after_last_attempt evs) <> []
  /\ password (self st') = "pw1"
  /\ skipn (List.length evs - 3) evs = EvGetpass password_prompt :: giving_up.
Proof. vm_compute. repeat split. discriminate. Qed.

Lemma connect_stops_at_first_success_example :
  exists st' evs,
    connect 3 false false second_time_lucky
    = (Ok (Some (ConnectionHandle 5), Some (CursorHandle 5)), st',
       evs ++ [EvLog INFO (connected_message (Z.of_nat 2) (self st'))])
    /\ conn (self st') = Some (ConnectionHandle 5)
    /\ cursor (self st') = Some (CursorHandle 5)
    /\ attempts_in (evs ++ [EvLog INFO (connected_message (Z.of_nat 2) (self st'))]) = 2%nat.
Proof.
  apply (connect_stops_at_first_success 3 2 false false second_time_lucky).
  - lia.
  - lia.
  - intros conn_str. exists (machine [Ok (ConnectionHandle 5)]). split.
    + apply open_raises with login_failed. reflexivity.
    + intros conn_str'. exists (machine []), (machine []). split; reflexivity.
  - answers_ready.
Defined.

Lemma connect_no_attempt_allowed_example :
  connect 0 true false stubborn = (Ok (None, None), stubborn, giving_up)
  /\ attempts_in giving_up = 0%nat
  /\ filter is_prompt giving_up = [].
Proof. apply (connect_no_attempt_allowed 0 true false stubborn). lia. Defined.

(** C3 fails on the code: the driver opens connection 7 but cannot derive
    its cursor.  [connect] has assigned [self.conn] before [cursor()]
    raised; the handler only logs, so the manager, unconnected before, is
    left with a connection and no cursor (and [(None, None)] is returned). *)
Theorem cursor_failure_leaves_connection_without_cursor :
  let '(r, st', _) := connect 1 true false cursorless in
  r = Ok (None, None)
  /\ paired (self cursorless) = true
  /\ conn (self st') = Some (ConnectionHandle 7)
  /\ cursor (self st') = None
  /\ paired (self st') = false.
Proof. vm_compute. repeat split. Qed.

(** C5 as stated fails: [close()] on a connected manager clears neither
    reference, and the second [close()] calls [close] on both again. *)
Lemma close_clears_nothing :
  ~ (let '(_, st1, _) := close connected in
     let '(r2, _, ev2) := close st1 in
     conn (self st1) = None /\ cursor (self st1) = None
     /\ r2 = Ok tt /\ filter is_close_call ev2 = []).
Proof. vm_compute. intros (Habs & _). discriminate Habs. Qed.

Lemma second_close_closes_again :
  let '(_, st1, _) := close connected in
  let '(_, _, ev2) := close st1 in
  filter is_close_call ev2
  = [EvCursorClose (CursorHandle 1); EvConnClose (ConnectionHandle 1)].
Proof. vm_compute. reflexivity. Qed.

Lemma close_is_best_effort_example :
  exists st1 ev1 st2 ev2,
    close connected = (Ok tt, st1, ev1)
    /\ close st1 = (Ok tt, st2, ev2)
    /\ self st1 = self connected
    /\ self st2 = self connected
    /\ ev1 = [EvCursorClose (CursorHandle 1); close_log "Cursor" (Ok tt);
              EvConnClose (ConnectionHandle 1); close_log "Connection" (Ok tt)]
    /\ ev2 = ev1.
Proof.
  destruct (close_is_best_effort connected)
    as (st1 & ev1 & st2 & ev2 & H1 & H2 & H3 & H4 & Hsteps1 & Hsteps2 & _).
  exists st1, ev1, st2, ev2.
  assert (Hdrv : driver (world st1) = driver (world connected)).
  { revert H1. vm_compute. intros Heq. inversion Heq. reflexivity. }
  destruct Hsteps1 as (_ & _ & _ & Hboth1). destruct Hsteps2 as (_ & _ & _ & Hboth2).
  rewrite Hdrv in Hboth2.
  pose proof (Hboth1 (CursorHandle 1) (ConnectionHandle 1) (driver (world connected))
                eq_refl eq_refl eq_refl) as E1.
  pose proof (Hboth2 (CursorHandle 1) (ConnectionHandle 1) (driver (world connected))
                eq_refl eq_refl eq_refl) as E2.
  repeat split; try assumption.
  rewrite E1, E2. reflexivity.
Defined.

(** C6 as stated fails: on a machine without pandas, [query_dataframe] on
    a manager without connection raises [ModuleNotFoundError], not the "no
    active connection" error: the import precedes the check. *)
Lemma query_dataframe_imports_first :
  conn (self bare) = None
  /\ query_dataframe "SELECT 1" bare
     = (Raise (mkExn ModuleNotFoundError "No module named 'pandas'"), bare, [])
  /\ ~ (exists st' ev, query_dataframe "SELECT 1" bare = (Raise not_connected, st', ev)).
Proof.
  split; [reflexivity |]. split; [reflexivity |].
  intros (st' & ev & Habs). vm_compute in Habs. discriminate Habs.
Qed.

Lemma query_dataframe_checks_connection_example :
  query_dataframe "SELECT 1" stubborn = (Raise not_connected, stubborn, [])
  /\ query_dataframe "SELECT 1" connected
     = (let '(r, d') := pd_read_sql "SELECT 1" (ConnectionHandle 1) (driver (world connected)) in
        (r, mkState (self connected) (set_driver d' (world connected)),
         [EvReadSql "SELECT 1" (ConnectionHandle 1)])).
Proof.
  split.
  - apply (query_dataframe_checks_connection "SELECT 1" stubborn); reflexivity.
  - apply (query_dataframe_checks_connection "SELECT 1" connected); reflexivity.
Defined.

Lemma query_after_close_is_delegated_example :
  exists st2 ev2,
    close (snd (fst (connect 3 true false first_time_lucky))) = (Ok tt, st2, ev2)
    /\ conn (self st2) = Some (ConnectionHandle 5)
    /\ hd_error ev2 = Some (EvCursorClose (CursorHandle 5))
    /\ (forall d1,
          Cursor_close (CursorHandle 5)
            (driver (world (snd (fst (connect 3 true false first_time_lucky))))) = (Ok tt, d1) ->
          In (EvConnClose (ConnectionHandle 5)) ev2)
    /\ (forall st3, query_dataframe "SELECT 1" st2 <> (Raise not_connected, st3, []))
    /\ (pandas_importable (driver (world st2)) = true ->
        query_dataframe "SELECT 1" st2
        = (let '(r, d') := pd_read_sql "SELECT 1" (ConnectionHandle 5) (driver (world st2)) in
           (r, mkState (self st2) (set_driver d' (world st2)),
            [EvReadSql "SELECT 1" (ConnectionHandle 5)]))).
Proof.
  apply (query_after_close_is_delegated 3 true false first_time_lucky
           (snd (fst (connect 3 true false first_time_lucky)))
           (snd (connect 3 true false first_time_lucky))
           (ConnectionHandle 5) (CursorHandle 5) "SELECT 1").
  reflexivity.
Defined.

Lemma change_dsn_failure_is_contained_example :
  exists st2 round before,
    connect_loop 2 0 true false nothing_to_select
    = (let '(r, st', evs) := connect_loop 1 (0 + 1) true false st2 in
       (r, st', round ++ evs))
    /\ dsn (self st2) = dsn (self nothing_to_select)
    /\ (forall ev, In ev (change_dsn_report no_sources_found) -> In ev round)
    /\ attempts_in round = 1%nat
    /\ round = before ++ change_dsn_report no_sources_found
                 ++ [] ++ [EvGetpass password_prompt]
    /\ ((1 <= 1)%nat ->
        exists after,
          snd (connect_loop 1 (0 + 1) true false st2)
          = EvLog DEBUG (attempt_message (0 + 1 + 1) (self st2))
              :: EvConnect ("DSN=" +s "Sales" +s ";UID=" +s "ann" +s ";PWD=" +s "pw1")
              :: after).
Proof.
  refine (change_dsn_failure_is_contained 1 0 false nothing_to_select
            (driver (world nothing_to_select)) "y" "y" EmptyString "pw1" [] [] [] []
            no_sources_found _ _ _ _ _ _ _ _ _ _).
  - apply open_raises with login_failed. reflexivity.
  - reflexivity.
  - not_n.
  - reflexivity.
  - reflexivity.
  - reflexivity.
  - discriminate.
  - reflexivity.
Defined.

Lemma select_dsn_spec_example :
  _select_dsn (world nothing_to_select)
  = (Raise no_sources_found, world nothing_to_select, [EvDataSources])
  /\ exists evs,
      _select_dsn one_source = (Ok "Sales", set_answers select_prompt [] one_source, evs)
      /\ evs = [EvDataSources; EvPrint "Available DSNs:"; EvPrint "[0] Sales  (SQL Server)";
                EvInput select_prompt; EvPrint "Please enter a valid number.";
                EvInput select_prompt; EvLog INFO "User selected DSN: Sales"]
      /\ List.length (filter is_prompt evs) = 2%nat.
Proof.
  split.
  - apply (proj1 (select_dsn_spec (world nothing_to_select))). reflexivity.
  - refine (proj2 (select_dsn_spec one_source) ["abc"] "0" [] 0 _ _ _ _).
    + reflexivity.
    + constructor; [exact I | constructor].
    + reflexivity.
    + cbn. lia.
Defined.

(** With a single data source and the line "0" alone, the name comes back
    after one prompt. *)
Example select_dsn_single_source :
  let w := mkWorld (script [(select_prompt, ["0"])]) (driver one_source) in
  let '(r, _, evs) := _select_dsn w in
  r = Ok "Sales" /\ List.length (filter is_prompt evs) = 1%nat.
Proof. vm_compute. split; reflexivity. Qed.

End Runs.

(** ** Further properties of the code *)

(** *** [str] of an integer read back by [int] *)

Lemma lstrip_no_space (s : string) : no_space s = true -> PyStr.lstrip s = s.
Proof.
  destruct s as [| c rest]; [reflexivity |].
  cbn. destruct (PyStr.is_space c); [discriminate | reflexivity].
Qed.

Lemma rev_onto_no_space (s acc : string) :
  no_space (PyStr.rev_onto s acc) = no_space s && no_space acc.
Proof.
  revert acc. induction s as [| c rest IH]; intros acc; [reflexivity |].
  cbn. rewrite IH. cbn. destruct (PyStr.is_space c); cbn.
  - apply andb_false_r.
  - reflexivity.
Qed.

Lemma rev_onto_rev_onto (s acc acc' : string) :
  PyStr.rev_onto (PyStr.rev_onto s acc) acc' = PyStr.rev_onto acc (s +s acc').
Proof.
  revert acc acc'. induction s as [| c rest IH]; intros acc acc'; [reflexivity |].
  cbn. rewrite IH. reflexivity.
Qed.

Lemma append_empty (s : string) : s +s EmptyString = s.
Proof.
  induction s as [| c rest IH]; [reflexivity |].
  change (String c (rest +s EmptyString) = String c rest). f_equal. exact IH.
Qed.

Lemma strip_no_space (s : string) : no_space s = true -> PyStr.strip s = s.
Proof.
  intros Hs. unfold PyStr.strip, PyStr.rstrip, PyStr.rev.
  rewrite (lstrip_no_space s Hs).
  rewrite lstrip_no_space.
  - rewrite rev_onto_rev_onto. cbn. apply append_empty.
  - rewrite rev_onto_no_space, Hs. reflexivity.
Qed.

(** The blanks of [int] are among those of [str.strip]. *)
Lemma is_int_space_is_space (c : ascii) :
  PyStr.is_int_space c = true -> PyStr.is_space c = true.
Proof.
  unfold PyStr.is_int_space, PyStr.is_space. cbv zeta.
  generalize (nat_of_ascii c). intros n Hn.
  apply orb_true_iff in Hn as [Hn | Hn].
  - rewrite Hn. reflexivity.
  - apply Nat.eqb_eq in Hn. subst n. reflexivity.
Qed.

Lemma skip_blanks_no_space (s : string) : no_space s = true -> PyStr.skip_blanks s = s.
Proof.
  destruct s as [| c rest]; [reflexivity |].
  cbn. destruct (PyStr.is_int_space c) eqn:Hc; [| reflexivity].
  rewrite (is_int_space_is_space c Hc). discriminate.
Qed.

Lemma between_blanks_no_space (s : string) :
  no_space s = true -> PyStr.between_blanks s = s.
Proof.
  intros Hs. unfold PyStr.between_blanks, PyStr.rev.
  rewrite (skip_blanks_no_space s Hs).
  rewrite skip_blanks_no_space.
  - rewrite rev_onto_rev_onto. cbn. apply append_empty.
  - rewrite rev_onto_no_space, Hs. reflexivity.
Qed.

Lemma digits_no_space (d : Decimal.uint) :
  no_space (NilEmpty.string_of_uint d) = true.
Proof. induction d; cbn; auto. Qed.

Lemma digits_isascii (d : Decimal.uint) :
  PyStr.isascii (NilEmpty.string_of_uint d) = true.
Proof. induction d; cbn [NilEmpty.string_of_uint PyStr.isascii]; [reflexivity | ..]; exact IHd. Qed.

Lemma digits_count (d : Decimal.uint) :
  PyStr.count_digits (NilEmpty.string_of_uint d) = Decimal.nb_digits d.
Proof.
  induction d; [reflexivity | ..];
    cbn [NilEmpty.string_of_uint PyStr.count_digits Decimal.nb_digits];
    match goal with
    | |- context [PyStr.digit_of ?c] =>
        let v := eval vm_compute in (PyStr.digit_of c) in
        change (PyStr.digit_of c) with v
    end; cbv iota beta; f_equal; exact IHd.
Qed.

Lemma parse_digits_acc (d : Decimal.uint) (acc : positive) :
  PyStr.parse_digits (NilEmpty.string_of_uint d) (Z.pos acc) true
  = Some (Z.pos (Pos.of_uint_acc d acc)).
Proof.
  revert acc. induction d; intros acc; [reflexivity | ..];
    cbn [NilEmpty.string_of_uint PyStr.parse_digits Pos.of_uint_acc];
    match goal with
    | |- context [PyStr.digit_of ?c] =>
        let v := eval vm_compute in (PyStr.digit_of c) in
        change (PyStr.digit_of c) with v
    end; cbv iota beta;
    rewrite <- IHd; f_equal; lia.
Qed.

Lemma parse_digits_uint (d : Decimal.uint) (after_digit : bool) :
  d <> Decimal.Nil \/ after_digit = true ->
  PyStr.parse_digits (NilEmpty.string_of_uint d) 0 after_digit
  = Some (Z.of_N (Pos.of_uint d)).
Proof.
  revert after_digit. induction d; intros after_digit Hd;
    [ destruct Hd as [Hd | ->]; [now exfalso | reflexivity] | ..];
    cbn [NilEmpty.string_of_uint PyStr.parse_digits Pos.of_uint];
    match goal with
    | |- context [PyStr.digit_of ?c] =>
        let v := eval vm_compute in (PyStr.digit_of c) in
        change (PyStr.digit_of c) with v
    end; cbv iota beta;
    [ apply IHd; right; reflexivity | ..];
    match goal with
    | |- PyStr.parse_digits _ ?a true = _ =>
        let v := eval vm_compute in a in change a with v
    end;
    rewrite parse_digits_acc; reflexivity.
Qed.

(** A literal of at most 640 digits is read whatever the limit is. *)
Lemma literal_of_digits (m : nat) (d : Decimal.uint) :
  d <> Decimal.Nil ->
  (Decimal.nb_digits d <= PyStr.MAX_STR_DIGITS_THRESHOLD)%nat ->
  PyStr.literal m (NilEmpty.string_of_uint d) = Some (Z.of_N (Pos.of_uint d)).
Proof.
  intros Hd Hlen. unfold PyStr.literal, PyStr.exceeds_limit. rewrite digits_count.
  replace (PyStr.MAX_STR_DIGITS_THRESHOLD <? Decimal.nb_digits d)%nat with false
    by (symmetry; apply Nat.ltb_ge; exact Hlen).
  cbv iota beta. cbn [andb]. apply parse_digits_uint. left. exact Hd.
Qed.

Lemma int_of_digits (m : nat) (na : string -> option Z) (d : Decimal.uint) :
  d <> Decimal.Nil ->
  (Decimal.nb_digits d <= PyStr.MAX_STR_DIGITS_THRESHOLD)%nat ->
  PyStr.int m na (NilEmpty.string_of_uint d) = Some (Z.of_N (Pos.of_uint d)).
Proof.
  intros Hd Hlen. unfold PyStr.int, PyStr.int_ascii.
  rewrite digits_isascii, (between_blanks_no_space _ (digits_no_space d)).
  rewrite <- (literal_of_digits m d Hd Hlen).
  destruct d; [now exfalso | reflexivity ..].
Qed.

Lemma of_uint_acc_lower_bound (d : Decimal.uint) (acc : positive) :
  Z.pos acc * 10 ^ Z.of_nat (Decimal.nb_digits d) <= Z.pos (Pos.of_uint_acc d acc).
Proof.
  revert acc. induction d; intros acc;
    cbn [Decimal.nb_digits Pos.of_uint_acc]; [cbn; lia | ..];
    rewrite Nat2Z.inj_succ, Z.pow_succ_r by lia;
    (eapply Z.le_trans; [| apply IHd]);
    assert (0 < 10 ^ Z.of_nat (Decimal.nb_digits d)) by (apply Z.pow_pos_nonneg; lia);
    nia.
Qed.

(** [str] of a positive number has no more digits than the number allows. *)
Lemma to_uint_lower_bound (p : positive) :
  10 ^ (Z.of_nat (Decimal.nb_digits (Pos.to_uint p)) - 1) <= Z.pos p.
Proof.
  pose proof (DecimalPos.Unsigned.of_to p) as Hof.
  pose proof (DecimalPos.Unsigned.to_of (Pos.to_uint p)) as Hnorm.
  rewrite Hof in Hnorm. cbn [N.to_uint] in Hnorm.
  pose proof (DecimalPos.Unsigned.to_uint_nonzero p) as Hnz.
  destruct (Pos.to_uint p) as [| l | l | l | l | l | l | l | l | l | l] eqn:Hp;
    [cbn; lia | ..];
    cbn [Decimal.nb_digits]; rewrite Nat2Z.inj_succ;
    replace (Z.succ (Z.of_nat (Decimal.nb_digits l)) - 1)
      with (Z.of_nat (Decimal.nb_digits l)) by lia.
  1:{ exfalso. rewrite DecimalFacts.unorm_D0 in Hnorm.
      destruct l as [| l' | l' | l' | l' | l' | l' | l' | l' | l' | l'];
        [apply Hnz; reflexivity | ..];
        match type of Hnorm with
        | _ = Decimal.unorm ?u =>
            assert (Hu : u <> Decimal.Nil) by discriminate;
            pose proof (DecimalFacts.nb_digits_unorm u Hu) as Hle;
            rewrite <- Hnorm in Hle; cbn [Decimal.nb_digits] in Hle; lia
        end. }
  all: cbn [Pos.of_uint] in Hof; injection Hof as Hof; rewrite <- Hof;
    match goal with
    | |- _ <= Z.pos (Pos.of_uint_acc ?u ?a) =>
        pose proof (of_uint_acc_lower_bound u a)
    end; lia.
Qed.

Lemma to_uint_digits (p : positive) :
  Z.pos p < 10 ^ Z.of_nat PyStr.MAX_STR_DIGITS_THRESHOLD ->
  (Decimal.nb_digits (Pos.to_uint p) <= PyStr.MAX_STR_DIGITS_THRESHOLD)%nat.
Proof.
  intros Hsmall. pose proof (to_uint_lower_bound p) as Hlow.
  assert (Hpow : 10 ^ (Z.of_nat (Decimal.nb_digits (Pos.to_uint p)) - 1)
                 < 10 ^ Z.of_nat PyStr.MAX_STR_DIGITS_THRESHOLD) by lia.
  apply Z.pow_lt_mono_r_iff in Hpow; lia.
Qed.

Lemma to_uint_not_nil (p : positive) : Pos.to_uint p <> Decimal.Nil.
Proof.
  intros Hnil. pose proof (DecimalPos.Unsigned.of_to p) as Hp.
  rewrite Hnil in Hp. discriminate Hp.
Qed.

Lemma string_of_uint_not_nil (d : Decimal.uint) :
  d <> Decimal.Nil -> NilZero.string_of_uint d = NilEmpty.string_of_uint d.
Proof. destruct d; [intros Hd; now exfalso | reflexivity ..]. Qed.

(** [int(str(n)) == n] for every integer of at most 640 digits, whatever
    the limit on the number of digits is. *)
Lemma int_of_Z (m : nat) (na : string -> option Z) (n : Z) :
  Z.abs n < 10 ^ Z.of_nat PyStr.MAX_STR_DIGITS_THRESHOLD ->
  PyStr.int m na (PyStr.of_Z n) = Some n.
Proof.
  intros Hsmall.
  unfold PyStr.of_Z. destruct n as [| p | p]; [reflexivity | |];
    cbn [Z.to_int NilZero.string_of_int];
    pose proof (to_uint_not_nil p) as Hnil;
    pose proof (to_uint_digits p Hsmall) as Hlen;
    rewrite (string_of_uint_not_nil _ Hnil).
  - rewrite (int_of_digits m na _ Hnil Hlen), DecimalPos.Unsigned.of_to. reflexivity.
  - unfold PyStr.int, PyStr.int_ascii. cbn [PyStr.isascii]. rewrite digits_isascii.
    change (PyStr.is_ascii_char "-") with true. cbn [andb].
    rewrite between_blanks_no_space by (cbn; apply digits_no_space).
    cbv iota beta.
    rewrite (literal_of_digits m _ Hnil Hlen), DecimalPos.Unsigned.of_to. reflexivity.
Qed.

(** *** What a run of [connect] is made of *)

Arguments attempts_in : simpl never.

Lemma attempts_in_cons (ev : Event) (evs : list Event) :
  attempts_in (ev :: evs) = ((if is_attempt ev then 1 else 0) + attempts_in evs)%nat.
Proof. unfold attempts_in. cbn. destruct (is_attempt ev); reflexivity. Qed.

Lemma bounded_run_bind {S A B : Type} (a b : nat) (c : M S A) (k : A -> M S B) (s : S) :
  bounded_run a (c s) ->
  (forall x s1 ev1, c s = (Ok x, s1, ev1) -> bounded_run b (k x s1)) ->
  bounded_run (a + b) (bind c k s).
Proof.
  intros (Hraise & Hcount & Hkind) Hk. unfold bind.
  destruct (c s) as [[[x | e] s1] ev1]; cbn [snd fst] in *.
  - specialize (Hk x s1 ev1 eq_refl).
    destruct (k x s1) as [[r s2] ev2]. destruct Hk as (Hraise2 & Hcount2 & Hkind2).
    unfold bounded_run. cbn [snd fst] in *. repeat split.
    + exact Hraise2.
    + rewrite attempts_in_app. lia.
    + rewrite forallb_app, Hkind, Hkind2. reflexivity.
  - unfold bounded_run. cbn [snd fst]. repeat split; [exact Hraise | lia | exact Hkind].
Qed.

Lemma bind_attempts {S A B : Type} (c : M S A) (k : A -> M S B) (s s1 : S) (x : A)
    (ev1 : list Event) :
  c s = (Ok x, s1, ev1) ->
  attempts_in (snd (bind c k s)) = (attempts_in ev1 + attempts_in (snd (k x s1)))%nat.
Proof.
  intros Hc. unfold bind. rewrite Hc. destruct (k x s1) as [[r s2] ev2].
  cbn [snd]. apply attempts_in_app.
Qed.

Lemma bounded_run_weaken {S A : Type} (a b : nat) (res : Result A * S * list Event) :
  (a <= b)%nat -> bounded_run a res -> bounded_run b res.
Proof. intros Hab (Hraise & Hcount & Hkind). repeat split; [exact Hraise | lia | exact Hkind]. Qed.

Ltac quiet_run :=
  unfold bounded_run; cbn; repeat split; try reflexivity; unfold attempts_in; cbn; lia.

Section MoreProperties.

Context {D : Type} `{Driver D}.

Lemma listing_connect_events (i : Z) (l : list (string * string)) :
  forallb is_connect_event (listing i l) = true.
Proof.
  revert i. induction l as [| [name drv] l IH]; intros i; [reflexivity |].
  cbn. apply IH.
Qed.

Lemma select_loop_connect_events (l : list (string * string)) (lines : list string) :
  forallb is_connect_event (snd (select_loop l lines)) = true.
Proof.
  induction lines as [| line rest IH]; [reflexivity |].
  cbn [select_loop].
  destruct (py_int line) as [selection |].
  - destruct ((0 <=? selection) && (selection <? Z.of_nat (List.length l))).
    + reflexivity.
    + destruct (select_loop l rest) as [[r rest'] ev]. exact IH.
  - destruct (select_loop l rest) as [[r rest'] ev]. exact IH.
Qed.

Lemma select_dsn_connect_events (w : World D) :
  forallb is_connect_event (snd (_select_dsn w)) = true.
Proof.
  unfold _select_dsn, bind, call, raise, print, emit. cbn.
  destruct (pyodbc_dataSources (driver w)) as [| src srcs] eqn:Hsrc; [reflexivity |].
  cbn.
  pose proof (select_loop_connect_events (src :: srcs) (answers w select_prompt)) as Hloop.
  destruct (select_loop (src :: srcs) (answers w select_prompt)) as [[r rest] ev].
  cbn in Hloop |- *.
  change (forallb is_connect_event (listing 0 (src :: srcs) ++ ev) = true).
  rewrite forallb_app, listing_connect_events, Hloop. reflexivity.
Qed.

Lemma lift_input_bounded (p : string) (st : State D) :
  bounded_run 0 (lift (input p) st).
Proof.
  unfold lift, input, read_line.
  destruct (answers (world st) p) as [| line rest]; cbn;
    unfold bounded_run; cbn; repeat split; auto.
Qed.

Lemma lift_getpass_bounded (p : string) (st : State D) :
  bounded_run 0 (lift (getpass p) st).
Proof.
  unfold lift, getpass, read_line.
  destruct (answers (world st) p) as [| line rest]; cbn;
    unfold bounded_run; cbn; repeat split; auto.
Qed.

Lemma attempt_connection_bounded (attempts : Z) (st : State D) :
  bounded_run 1 (attempt_connection attempts st)
  /\ attempts_in (snd (attempt_connection attempts st)) = 1%nat
  /\ exists r st1, fst (attempt_connection attempts st) = (Ok r, st1).
Proof.
  destruct (pyodbc_connect (conn_str_of (self st)) (driver (world st)))
    as [[c | e] d1] eqn:Hopen.
  - destruct (Connection_cursor c d1) as [[cur | e] d2] eqn:Hcur.
    + rewrite (attempt_succeeds _ _ _ _ _ _ Hopen Hcur). cbn.
      repeat split; try reflexivity. eauto.
    + rewrite (attempt_cursor_raises _ _ _ _ _ _ Hopen Hcur). cbn.
      repeat split; try reflexivity. eauto.
  - rewrite (attempt_open_raises _ _ _ _ Hopen). cbn.
    repeat split; try reflexivity. eauto.
Qed.

Lemma offer_change_dsn_bounded (allow : bool) (st : State D) :
  bounded_run 0 (offer_change_dsn allow st).
Proof.
  unfold offer_change_dsn. destruct allow; [| quiet_run].
  apply (bounded_run_bind 0 0); [apply lift_input_bounded |].
  intros line st1 ev1 _.
  destruct (String.eqb (PyStr.lower (PyStr.strip line)) "y"); [| quiet_run].
  unfold try_except, bind, lift, set_self, print, logger_error, emit.
  pose proof (select_dsn_connect_events (world st1)) as Hkind.
  destruct (_select_dsn (world st1)) as [[r w'] ev] eqn:Hsel.
  destruct (select_dsn_frame _ _ _ _ Hsel) as (_ & _ & Hno).
  cbn in Hkind.
  destruct r as [selected | e]; unfold bounded_run; cbn; repeat split;
    rewrite ?attempts_in_app, ?forallb_app, ?Hno, ?Hkind;
    try reflexivity; unfold attempts_in; cbn; lia.
Qed.

Lemma prompt_credentials_bounded (rp : bool) (st : State D) :
  bounded_run 0 (_prompt_credentials rp st).
Proof.
  unfold _prompt_credentials.
  apply (bounded_run_bind 0 0).
  - destruct rp; [| quiet_run].
    apply (bounded_run_bind 0 0); [apply lift_input_bounded |].
    intros line st1 ev1 _. quiet_run.
  - intros _ st1 ev1 _.
    apply (bounded_run_bind 0 0); [apply lift_getpass_bounded |].
    intros secret st2 ev2 _. quiet_run.
Qed.

Lemma connect_failed_bounded (st : State D) : bounded_run 0 (connect_failed st).
Proof. quiet_run. Qed.

Lemma connect_loop_bounded (n : nat) (allow rp : bool) :
  forall (attempts : Z) (st : State D),
    bounded_run n (connect_loop n attempts allow rp st).
Proof.
  induction n as [| n IH]; intros attempts st; [apply connect_failed_bounded |].
  cbn [connect_loop].
  apply (bounded_run_bind 1 n); [apply attempt_connection_bounded |].
  intros [returned |] st1 ev1 _; [quiet_run |].
  apply (bounded_run_bind 0 n); [quiet_run |].
  intros _ st2 _ _.
  apply (bounded_run_bind 0 n); [apply lift_input_bounded |].
  intros line st3 _ _.
  destruct (String.eqb (PyStr.lower (PyStr.strip line)) "n").
  { apply bounded_run_weaken with 0%nat; [lia | apply connect_failed_bounded]. }
  apply (bounded_run_bind 0 n); [apply offer_change_dsn_bounded |].
  intros _ st4 _ _.
  apply (bounded_run_bind 0 n); [apply prompt_credentials_bounded |].
  intros _ st5 _ _. apply IH.
Qed.

Lemma connect_events_filters (evs : list Event) :
  forallb is_connect_event evs = true ->
  filter is_close_call evs = [] /\ filter is_query evs = [].
Proof.
  induction evs as [| ev evs IH]; [split; reflexivity |].
  cbn. intros Hall. apply andb_true_iff in Hall as [Hev Hevs].
  destruct (IH Hevs) as [IH1 IH2].
  destruct ev; cbn in *; try discriminate; auto.
Qed.

Lemma connect_never_closes_aux (k : Z) (allow rp : bool) (st : State D) :
  filter is_close_call (snd (connect k allow rp st)) = [].
Proof.
  apply connect_events_filters.
  apply (connect_loop_bounded (Z.to_nat (k - 0)) allow rp 0 st).
Qed.

Lemma connect_never_queries_aux (k : Z) (allow rp : bool) (st : State D) :
  filter is_query (snd (connect k allow rp st)) = [].
Proof.
  apply connect_events_filters.
  apply (connect_loop_bounded (Z.to_nat (k - 0)) allow rp 0 st).
Qed.

(** *** [connect], whatever the driver and the user do *)

Lemma raised_at_own_prompt_app (e : Exn) (st : State D) (ev0 evs : list Event) :
  raised_at_own_prompt e st evs -> raised_at_own_prompt e st (ev0 ++ evs).
Proof.
  intros [(before & p & Hp & -> & Hnone & He) | (before & -> & Hnone & He)].
  - left. exists (ev0 ++ before), p. rewrite app_assoc. auto.
  - right. exists (ev0 ++ before). rewrite app_assoc. auto.
Qed.

Lemma stops_at_own_prompt_bind {X Y : Type} (c : M (State D) X)
    (k : X -> M (State D) Y) (st : State D) :
  stops_at_own_prompt (c st) ->
  (forall x st1 ev1, c st = (Ok x, st1, ev1) -> stops_at_own_prompt (k x st1)) ->
  stops_at_own_prompt (bind c k st).
Proof.
  intros Hc Hk. unfold bind.
  destruct (c st) as [[[x | e] st1] ev1]; [| exact Hc].
  specialize (Hk x st1 ev1 eq_refl).
  destruct (k x st1) as [[[y | e] st2] ev2]; [exact I |].
  apply raised_at_own_prompt_app. exact Hk.
Qed.

Lemma lift_input_stops (p : string) (st : State D) :
  In p connect_inputs -> stops_at_own_prompt (lift (input p) st).
Proof.
  intros Hp. unfold lift, input, read_line.
  destruct (answers (world st) p) as [| line rest] eqn:Hlines; [| exact I].
  left. exists [], p. cbn. auto.
Qed.

Lemma lift_getpass_stops (st : State D) :
  stops_at_own_prompt (lift (getpass password_prompt) st).
Proof.
  unfold lift, getpass, read_line.
  destruct (answers (world st) password_prompt) as [| line rest] eqn:Hlines; [| exact I].
  right. exists []. cbn. auto.
Qed.

(** Whatever [_select_dsn] raises, the change of DSN ends normally once
    the offer has been answered. *)
Lemma offer_change_dsn_stops (allow : bool) (st : State D) :
  stops_at_own_prompt (offer_change_dsn allow st).
Proof.
  unfold offer_change_dsn. destruct allow; [| exact I].
  apply stops_at_own_prompt_bind; [apply lift_input_stops; cbn; auto |].
  intros line st1 ev1 _.
  destruct (String.eqb (PyStr.lower (PyStr.strip line)) "y"); [| exact I].
  unfold try_except, bind, lift, set_self, print, logger_error, emit.
  destruct (_select_dsn (world st1)) as [[[selected | e] w'] ev]; exact I.
Qed.

Lemma prompt_credentials_stops (rp : bool) (st : State D) :
  stops_at_own_prompt (_prompt_credentials rp st).
Proof.
  unfold _prompt_credentials. apply stops_at_own_prompt_bind.
  - destruct rp; [| exact I].
    apply stops_at_own_prompt_bind; [apply lift_input_stops; cbn; auto |].
    intros line st1 ev1 _. exact I.
  - intros _ st1 ev1 _.
    apply stops_at_own_prompt_bind; [apply lift_getpass_stops |].
    intros secret st2 ev2 _. exact I.
Qed.

Lemma connect_loop_stops (n : nat) (allow rp : bool) :
  forall (attempts : Z) (st : State D),
    stops_at_own_prompt (connect_loop n attempts allow rp st).
Proof.
  induction n as [| n IH]; intros attempts st; [exact I |].
  cbn [connect_loop]. apply stops_at_own_prompt_bind.
  { destruct (attempt_connection_total (attempts + 1) st) as (r & o1 & d' & ev & -> & _).
    exact I. }
  intros [returned |] st1 ev1 _; [exact I |].
  apply stops_at_own_prompt_bind; [exact I |].
  intros _ st2 _ _.
  apply stops_at_own_prompt_bind; [apply lift_input_stops; cbn; auto |].
  intros line st3 _ _.
  destruct (String.eqb (PyStr.lower (PyStr.strip line)) "n"); [exact I |].
  apply stops_at_own_prompt_bind; [apply offer_change_dsn_stops |].
  intros _ st4 _ _.
  apply stops_at_own_prompt_bind; [apply prompt_credentials_stops |].
  intros _ st5 _ _. apply IH.
Qed.

(** X1.  Whatever the driver and the user do, no exception raised by
    [pyodbc.connect], by [cursor()] or by [_select_dsn] leaves [connect]:
    when [connect] ends by an exception, that exception was raised by one
    of its own prompts reading at the end of its input, as the last event
    of the run: the [EOFError] of [input] at the retry, change-DSN or
    username prompt, or the [EOFError] of [getpass] at the password
    prompt. *)
Theorem connect_lets_only_eof_escape (k : Z) (allow rp : bool) (st st' : State D)
    (e : Exn) (ev : list Event) :
  connect k allow rp st = (Raise e, st', ev) ->
  raised_at_own_prompt e st' ev /\ exn_class e = EOFError.
Proof.
  intros Hrun.
  pose proof (connect_loop_stops (Z.to_nat (k - 0)) allow rp 0 st) as Hstops.
  unfold connect in Hrun. rewrite Hrun in Hstops. cbn in Hstops.
  split; [exact Hstops |].
  destruct Hstops as [(_ & _ & _ & _ & _ & ->) | (_ & _ & _ & ->)]; reflexivity.
Qed.

(** X2.  Whatever the driver and the user do, [connect(max_attempts=k)]
    calls [pyodbc.connect] at most [k] times, and at least once when
    [k >= 1]. *)
Theorem connect_attempts_bounded (k : Z) (allow rp : bool) (st : State D) :
  (attempts_in (snd (connect k allow rp st)) <= Z.to_nat k)%nat
  /\ (1 <= k -> (1 <= attempts_in (snd (connect k allow rp st)))%nat).
Proof.
  unfold connect. rewrite Z.sub_0_r. split.
  - apply (connect_loop_bounded (Z.to_nat k) allow rp 0 st).
  - intros Hk. destruct (Z.to_nat k) as [| n] eqn:Hn; [lia |].
    cbn [connect_loop].
    destruct (attempt_connection_bounded (0 + 1) st) as (_ & Hone & r & st1 & Hfst).
    destruct (attempt_connection (0 + 1) st) as [[r' st1'] ev1] eqn:Hattempt.
    cbn [fst snd] in Hfst, Hone. inversion Hfst; subst r' st1'.
    rewrite (bind_attempts _ _ _ _ _ _ Hattempt). lia.
Qed.

(** X3.  [connect] never calls [close] on a cursor or a connection and
    never runs a query: in particular a connection it has opened, and whose
    cursor it could not derive, is left open. *)
Theorem connect_never_closes_nor_queries (k : Z) (allow rp : bool) (st : State D) :
  filter is_close_call (snd (connect k allow rp st)) = []
  /\ filter is_query (snd (connect k allow rp st)) = [].
Proof.
  apply connect_events_filters.
  apply (connect_loop_bounded (Z.to_nat (k - 0)) allow rp 0 st).
Qed.

(** X4.  When [connect] returns, it returns either [(None, None)] or a
    connection together with its cursor, and then both are the ones stored
    in the manager: it never returns one without the other. *)
Theorem connect_returns_stored_pair (k : Z) (allow rp : bool) (st st' : State D)
    (r : option Connection * option Cursor) (ev : list Event) :
  connect k allow rp st = (Ok r, st', ev) ->
  r = (None, None)
  \/ exists c cur, r = (Some c, Some cur)
                   /\ conn (self st') = Some c /\ cursor (self st') = Some cur.
Proof.
  intros Hrun.
  pose proof (connect_loop_returns_stored (Z.to_nat (k - 0)) allow rp 0 st) as Hstored.
  unfold connect in Hrun. rewrite Hrun in Hstored. exact Hstored.
Qed.

(** X5.  When the first attempt fails and the user answers "n" (in any
    letter case, with any surrounding blanks) to the retry prompt,
    [connect] gives up at once, whatever [max_attempts >= 1] is: one
    attempt, one prompt, the final failure reported, [(None, None)]
    returned, DSN and credentials as they were. *)
Theorem connect_stops_when_declined (k : Z) (allow rp : bool) (st : State D) (d' : D)
    (line : string) (rest : list string) :
  1 <= k ->
  attempt_fails (conn_str_of (self st)) (driver (world st)) d' ->
  answers (world st) retry_prompt = line :: rest ->
  normalised line = "n" ->
  exists st' evs,
    connect k allow rp st = (Ok (None, None), st', evs ++ giving_up)
    /\ attempts_in evs = 1%nat
    /\ filter is_prompt evs = [EvInput retry_prompt]
    /\ dsn (self st') = dsn (self st)
    /\ username (self st') = username (self st)
    /\ password (self st') = password (self st)
    /\ answers (world st') retry_prompt = rest.
Proof.
  intros Hk Hfails Hline Hno. unfold connect. rewrite Z.sub_0_r.
  destruct (Z.to_nat k) as [| n] eqn:Hn; [lia |].
  destruct (attempt_fails_exact (0 + 1) st d' Hfails)
    as (o1 & ev1 & Hattempt & Hcount & Hprompts & Hdsn & Huser & Hpass).
  cbn [connect_loop].
  rewrite (bind_ok _ _ _ _ _ _ Hattempt).
  set (st1 := mkState o1 (set_driver d' (world st))).
  rewrite (bind_ok _ _ st1 st1 tt [EvPrint (NL +s "Connection failed.")]) by reflexivity.
  rewrite (bind_ok _ _ _ _ _ _ (lift_input_ok st1 retry_prompt line rest Hline)).
  fold (normalised line). rewrite Hno.
  change (String.eqb "n" "n") with true. cbv iota.
  exists (mkState o1 (set_answers retry_prompt rest (world st1))).
  exists (ev1 ++ [EvPrint (NL +s "Connection failed."); EvInput retry_prompt]).
  split; [cbn; rewrite <- !app_assoc; reflexivity |].
  split; [rewrite attempts_in_app, Hcount; reflexivity |].
  split; [rewrite filter_app, Hprompts; reflexivity |].
  repeat split; assumption.
Qed.

(** X6.  When an attempt has failed and no input is left at the retry
    prompt, the [EOFError] of [input] leaves [connect]: nothing catches it,
    and the final failure is neither printed nor logged. *)
Theorem connect_eof_at_retry_prompt (k : Z) (allow rp : bool) (st : State D) (d' : D) :
  1 <= k ->
  attempt_fails (conn_str_of (self st)) (driver (world st)) d' ->
  answers (world st) retry_prompt = [] ->
  exists st' evs,
    connect k allow rp st = (Raise EOF_when_reading, st', evs ++ [EvInput retry_prompt])
    /\ attempts_in evs = 1%nat
    /\ filter is_prompt evs = []
    /\ (forall ev, In ev giving_up -> ~ In ev (evs ++ [EvInput retry_prompt])).
Proof.
  intros Hk Hfails Hline. unfold connect. rewrite Z.sub_0_r.
  destruct (Z.to_nat k) as [| n] eqn:Hn; [lia |].
  assert (Hattempt : exists o1 ev1,
             attempt_connection (0 + 1) st
             = (Ok None, mkState o1 (set_driver d' (world st)), ev1)
             /\ attempts_in ev1 = 1%nat
             /\ filter is_prompt ev1 = []
             /\ (forall ev, In ev giving_up -> ~ In ev ev1)).
  { assert (Hmsg : forall e, EvLog ERROR (attempt_error_message (0 + 1) e)
                             <> EvLog ERROR "Exhausted connection attempts without success.").
    { intros e Heq. injection Heq as Heq. unfold attempt_error_message in Heq.
      apply (f_equal (String.get 0)) in Heq.
      destruct (exn_class e); vm_compute in Heq; discriminate Heq. }
    destruct Hfails as [e Hopen | c d1 e Hopen Hcur].
    - rewrite (attempt_open_raises _ _ _ _ Hopen). do 2 eexists.
      split; [reflexivity |]. split; [reflexivity |]. split; [reflexivity |].
      intros ev [<- | [<- | []]] Hin; cbn [In] in Hin;
        repeat (destruct Hin as [Hin | Hin]; [try discriminate Hin |]); try contradiction.
      exact (Hmsg e Hin).
    - rewrite (attempt_cursor_raises _ _ _ _ _ _ Hopen Hcur). do 2 eexists.
      split; [reflexivity |]. split; [reflexivity |]. split; [reflexivity |].
      intros ev [<- | [<- | []]] Hin; cbn [In] in Hin;
        repeat (destruct Hin as [Hin | Hin]; [try discriminate Hin |]); try contradiction.
      exact (Hmsg e Hin). }
  destruct Hattempt as (o1 & ev1 & Hattempt & Hcount & Hprompts & Hquiet).
  cbn [connect_loop].
  rewrite (bind_ok _ _ _ _ _ _ Hattempt).
  set (st1 := mkState o1 (set_driver d' (world st))).
  rewrite (bind_ok _ _ st1 st1 tt [EvPrint (NL +s "Connection failed.")]) by reflexivity.
  assert (Heof : lift (input retry_prompt) st1
                 = (Raise EOF_when_reading, st1, [EvInput retry_prompt])).
  { unfold lift, input, read_line. cbn. rewrite Hline. reflexivity. }
  rewrite (bind_raise _ _ _ _ _ _ Heof).
  exists st1, (ev1 ++ [EvPrint (NL +s "Connection failed.")]).
  split; [cbn; rewrite <- !app_assoc; reflexivity |].
  split; [rewrite attempts_in_app, Hcount; reflexivity |].
  split; [rewrite filter_app, Hprompts; reflexivity |].
  intros ev Hev Hin. rewrite !in_app_iff in Hin.
  destruct Hin as [[Hin | Hin] | Hin]; [exact (Hquiet ev Hev Hin) | |];
    destruct Hev as [<- | [<- | []]]; cbn [In] in Hin;
    repeat (destruct Hin as [Hin | Hin]; [try discriminate Hin |]); try contradiction.
Qed.

(** *** [_prompt_credentials] *)

(** X7.  [_prompt_credentials] stores the password exactly as typed
    (blanks included); the username is asked only when [prompt_username]
    holds and is stored stripped of surrounding blanks; DSN, connection and
    cursor are not touched. *)
Theorem prompt_credentials_values (rp : bool) (st : State D)
    (user_line secret : string) (user_rest secret_rest : list string) :
  (rp = true -> answers (world st) username_prompt = user_line :: user_rest) ->
  answers (world st) password_prompt = secret :: secret_rest ->
  exists w',
    _prompt_credentials rp st
    = (Ok tt,
       mkState (mkDatabaseConnector (dsn (self st))
                  (if rp then PyStr.strip user_line else username (self st))
                  secret (conn (self st)) (cursor (self st)))
               w',
       (if rp then [EvInput username_prompt] else []) ++ [EvGetpass password_prompt])
    /\ driver w' = driver (world st)
    /\ answers w' password_prompt = secret_rest
    /\ (forall p, String.eqb p username_prompt = false ->
                  String.eqb p password_prompt = false ->
                  answers w' p = answers (world st) p).
Proof.
  intros Huser Hsecret. unfold _prompt_credentials. destruct rp.
  - specialize (Huser eq_refl).
    unfold bind, set_self, lift, input, getpass, read_line. cbn.
    rewrite Huser. cbn.
    replace (String.eqb password_prompt username_prompt) with false by reflexivity.
    rewrite Hsecret.
    eexists. split; [reflexivity |]. cbn. repeat split.
    intros p Hp1 Hp2. rewrite Hp1, Hp2. reflexivity.
  - unfold bind, set_self, lift, input, getpass, read_line, ret. cbn.
    rewrite Hsecret.
    eexists. split; [reflexivity |]. cbn. repeat split.
    intros p Hp1 Hp2. rewrite Hp2. reflexivity.
Qed.

(** X8.  [_prompt_credentials(prompt_username=True)] can leave the
    credentials half replaced: when the username is typed and no input is
    left for the password, the [EOFError] of [getpass] leaves the method
    with the new username (stripped) already stored beside the old
    password; DSN, connection and cursor are as before. *)
Theorem prompt_credentials_half_done (st : State D) (user_line : string)
    (user_rest : list string) :
  answers (world st) username_prompt = user_line :: user_rest ->
  answers (world st) password_prompt = [] ->
  exists st',
    _prompt_credentials true st
    = (Raise EOF_in_getpass, st', [EvInput username_prompt; EvGetpass password_prompt])
    /\ username (self st') = PyStr.strip user_line
    /\ password (self st') = password (self st)
    /\ dsn (self st') = dsn (self st)
    /\ conn (self st') = conn (self st)
    /\ cursor (self st') = cursor (self st)
    /\ answers (world st') username_prompt = user_rest
    /\ driver (world st') = driver (world st).
Proof.
  intros Huser Hsecret. unfold _prompt_credentials.
  unfold bind, set_self, lift, input, getpass, read_line. cbn.
  rewrite Huser. cbn.
  replace (String.eqb password_prompt username_prompt) with false by reflexivity.
  rewrite Hsecret.
  eexists. split; [reflexivity |]. cbn. repeat split.
Qed.

(** *** From one attempt to the next *)

Ltac eval_prompts :=
  repeat match goal with
    | |- context [String.eqb ?a ?b] =>
        let v := eval vm_compute in (String.eqb a b) in
        change (String.eqb a b) with v
    end.

Lemma next_attempt (n : nat) (attempts : Z) (allow rp : bool) (st st1 stb stc : State D)
    (ev1 evb evc : list Event) (line : string) (rest : list string) :
  attempt_connection (attempts + 1) st = (Ok None, st1, ev1) ->
  attempts_in ev1 = 1%nat ->
  answers (world st1) retry_prompt = line :: rest ->
  normalised line <> "n" ->
  offer_change_dsn allow (mkState (self st1) (set_answers retry_prompt rest (world st1)))
  = (Ok tt, stb, evb) ->
  _prompt_credentials rp stb = (Ok tt, stc, evc) ->
  exists before after,
    snd (connect_loop (S (S n)) attempts allow rp st)
    = before ++ EvConnect (conn_str_of (self stc)) :: after
    /\ attempts_in before = 1%nat.
Proof.
  intros Hattempt Hone Hline Hyes Hoffer Hcreds.
  rewrite (round_exact (S n) attempts allow rp st st1 stb stc ev1 evb evc line rest
             Hattempt Hline Hyes Hoffer Hcreds).
  destruct (connect_loop_first_attempt n (attempts + 1) allow rp stc) as (tail & Htail).
  destruct (connect_loop (S n) (attempts + 1) allow rp stc) as [[r st'] evs].
  cbn [snd] in Htail |- *. subst evs.
  exists ((ev1 ++ [EvPrint (NL +s "Connection failed."); EvInput retry_prompt] ++ evb ++ evc)
            ++ [EvLog DEBUG (attempt_message (attempts + 1 + 1) (self stc))]), tail.
  split; [rewrite <- !app_assoc; reflexivity |].
  pose proof (offer_change_dsn_bounded allow
                (mkState (self st1) (set_answers retry_prompt rest (world st1))))
    as (_ & Hb & _).
  pose proof (prompt_credentials_bounded rp stb) as (_ & Hc & _).
  rewrite Hoffer in Hb. rewrite Hcreds in Hc. cbn [snd] in Hb, Hc.
  rewrite !attempts_in_app, Hone.
  change (attempts_in [EvPrint (NL +s "Connection failed."); EvInput retry_prompt]) with 0%nat.
  change (attempts_in [EvLog DEBUG (attempt_message (attempts + 1 + 1) (self stc))])
    with 0%nat.
  lia.
Qed.

(** X9.  With [allow_change_dsn=False] and [max_attempts >= 2]: after a
    failed first attempt and a retry answer other than "n", the second call
    of [pyodbc.connect] gets the connection string built from the DSN as it
    was, the password just typed, and the username just typed (stripped)
    when [reprompt_username] holds, the former username otherwise. *)
Theorem retry_uses_typed_credentials (k : Z) (rp : bool) (st : State D) (d' : D)
    (line user_line secret : string) (rest user_rest secret_rest : list string) :
  2 <= k ->
  attempt_fails (conn_str_of (self st)) (driver (world st)) d' ->
  answers (world st) retry_prompt = line :: rest ->
  normalised line <> "n" ->
  (rp = true -> answers (world st) username_prompt = user_line :: user_rest) ->
  answers (world st) password_prompt = secret :: secret_rest ->
  exists before after,
    snd (connect k false rp st)
    = before
        ++ EvConnect ("DSN=" +s dsn (self st) +s ";UID="
                        +s (if rp then PyStr.strip user_line else username (self st))
                        +s ";PWD=" +s secret)
        :: after
    /\ attempts_in before = 1%nat.
Proof.
  intros Hk Hfails Hline Hyes Huser Hsecret. unfold connect. rewrite Z.sub_0_r.
  destruct (Z.to_nat k) as [| [| n]] eqn:Hn; [lia | lia |].
  destruct (attempt_fails_exact (0 + 1) st d' Hfails)
    as (o1 & ev1 & Hattempt & Hone & _ & Hdsn & Husername & _).
  set (st1 := mkState o1 (set_driver d' (world st))) in *.
  set (sta := mkState (self st1) (set_answers retry_prompt rest (world st1))).
  destruct (prompt_credentials_exact rp sta user_line secret user_rest secret_rest)
    as (w' & Hcreds & _).
  { intros Hrp. cbn. eval_prompts. exact (Huser Hrp). }
  { cbn. eval_prompts. exact Hsecret. }
  destruct (next_attempt n 0 false rp st st1 sta _ ev1 [] _ line rest
              Hattempt Hone Hline Hyes eq_refl Hcreds)
    as (before & after & Hevents & Hbefore).
  exists before, after. split; [| exact Hbefore].
  rewrite Hevents. cbn [self sta st1]. unfold conn_str_of. cbn [dsn username password].
  rewrite Hdsn, Husername. reflexivity.
Qed.

Lemma offer_change_dsn_select_ok (st : State D) (line : string) (rest : list string)
    (selected : string) (w' : World D) (evsel : list Event) :
  answers (world st) change_dsn_prompt = line :: rest ->
  normalised line = "y" ->
  _select_dsn (set_answers change_dsn_prompt rest (world st)) = (Ok selected, w', evsel) ->
  offer_change_dsn true st
  = (Ok tt, mkState (with_dsn selected (self st)) w',
     EvInput change_dsn_prompt :: evsel ++ []).
Proof.
  intros Hline Hyes Hsel. unfold offer_change_dsn.
  rewrite (bind_ok _ _ _ _ _ _ (lift_input_ok st _ _ _ Hline)).
  fold (normalised line). rewrite Hyes.
  change (String.eqb "y" "y") with true. cbv iota.
  unfold try_except, bind, lift, set_self, print, logger_error, emit. cbn -[_select_dsn].
  rewrite Hsel. reflexivity.
Qed.

(** X10.  With [allow_change_dsn=True] and [max_attempts >= 2]: after a
    failed first attempt, when the user goes on, answers "y" to the offer
    to change the DSN and [_select_dsn] returns [selected], the second call
    of [pyodbc.connect] gets the connection string of [selected] with the
    password just typed, and the username just typed (stripped) when
    [reprompt_username] holds, the former username otherwise. *)
Theorem retry_uses_selected_dsn (k : Z) (rp : bool) (st : State D) (d' : D)
    (line change_line user_line secret selected : string)
    (rest change_rest user_rest secret_rest : list string)
    (w' : World D) (evsel : list Event) :
  2 <= k ->
  attempt_fails (conn_str_of (self st)) (driver (world st)) d' ->
  answers (world st) retry_prompt = line :: rest ->
  normalised line <> "n" ->
  answers (world st) change_dsn_prompt = change_line :: change_rest ->
  normalised change_line = "y" ->
  _select_dsn (set_answers change_dsn_prompt change_rest
                 (set_answers retry_prompt rest (set_driver d' (world st))))
  = (Ok selected, w', evsel) ->
  (rp = true -> answers (world st) username_prompt = user_line :: user_rest) ->
  answers (world st) password_prompt = secret :: secret_rest ->
  exists before after,
    snd (connect k true rp st)
    = before
        ++ EvConnect ("DSN=" +s selected +s ";UID="
                        +s (if rp then PyStr.strip user_line else username (self st))
                        +s ";PWD=" +s secret)
        :: after
    /\ attempts_in before = 1%nat.
Proof.
  intros Hk Hfails Hline Hyes Hchange Hy Hsel Huser Hsecret. unfold connect.
  rewrite Z.sub_0_r.
  destruct (Z.to_nat k) as [| [| n]] eqn:Hn; [lia | lia |].
  destruct (attempt_fails_exact (0 + 1) st d' Hfails)
    as (o1 & ev1 & Hattempt & Hone & _ & Hdsn & Husername & _).
  set (st1 := mkState o1 (set_driver d' (world st))) in *.
  set (sta := mkState (self st1) (set_answers retry_prompt rest (world st1))).
  assert (Hoffer : offer_change_dsn true sta
                   = (Ok tt, mkState (with_dsn selected (self sta)) w',
                      EvInput change_dsn_prompt :: evsel ++ [])).
  { apply offer_change_dsn_select_ok with change_line change_rest.
    - cbn. eval_prompts. exact Hchange.
    - exact Hy.
    - exact Hsel. }
  destruct (select_dsn_frame _ _ _ _ Hsel) as (_ & Hans & _).
  destruct (prompt_credentials_exact rp (mkState (with_dsn selected (self sta)) w')
              user_line secret user_rest secret_rest)
    as (w2 & Hcreds & _).
  { intros Hrp. cbn [world]. rewrite Hans by reflexivity. cbn. eval_prompts.
    exact (Huser Hrp). }
  { cbn [world]. rewrite Hans by reflexivity. cbn. eval_prompts. exact Hsecret. }
  destruct (next_attempt n 0 true rp st st1 _ _ ev1 _ _ line rest
              Hattempt Hone Hline Hyes Hoffer Hcreds)
    as (before & after & Hevents & Hbefore).
  exists before, after. split; [| exact Hbefore].
  rewrite Hevents. unfold conn_str_of. cbn [self dsn username password with_dsn sta st1].
  rewrite Husername. reflexivity.
Qed.

(** *** [_select_dsn] *)

Lemma select_loop_ok (l : list (string * string)) (lines rest : list string)
    (s : string) (ev : list Event) :
  select_loop l lines = (Ok s, rest, ev) ->
  In s (map fst l)
  /\ exists consumed,
      lines = consumed ++ rest
      /\ List.length (filter is_prompt ev) = List.length consumed.
Proof.
  revert rest s ev. induction lines as [| line lines IH]; intros rest s ev; [discriminate |].
  cbn [select_loop].
  destruct (py_int line) as [selection |].
  - destruct ((0 <=? selection) && (selection <? Z.of_nat (List.length l))) eqn:Hrange.
    + intros Heq. inversion Heq; subst. split.
      * apply andb_true_iff in Hrange as [Hlo Hhi].
        apply Z.leb_le in Hlo. apply Z.ltb_lt in Hhi.
        apply in_map. apply nth_In. lia.
      * exists [line]. split; reflexivity.
    + destruct (select_loop l lines) as [[r rest'] ev'] eqn:Hloop.
      intros Heq. inversion Heq; subst.
      destruct (IH _ _ _ eq_refl) as (Hin & consumed & -> & Hlen).
      split; [exact Hin |]. exists (line :: consumed). cbn. split; [reflexivity | lia].
  - destruct (select_loop l lines) as [[r rest'] ev'] eqn:Hloop.
    intros Heq. inversion Heq; subst.
    destruct (IH _ _ _ eq_refl) as (Hin & consumed & -> & Hlen).
    split; [exact Hin |]. exists (line :: consumed). cbn. split; [reflexivity | lia].
Qed.

(** X11.  Whatever is typed, a name returned by [_select_dsn] is the name
    of one of the data sources enumerated by the driver; the lines read are
    the first ones of the script, one per prompt, and the driver state is
    as before. *)
Theorem select_dsn_returns_listed_name (w w' : World D) (s : string) (ev : list Event) :
  _select_dsn w = (Ok s, w', ev) ->
  In s (map fst (pyodbc_dataSources (driver w)))
  /\ driver w' = driver w
  /\ exists consumed,
      answers w select_prompt = consumed ++ answers w' select_prompt
      /\ List.length (filter is_prompt ev) = List.length consumed.
Proof.
  unfold _select_dsn, bind, call, raise, print, emit. cbn.
  destruct (pyodbc_dataSources (driver w)) as [| src srcs] eqn:Hsrc; [discriminate |].
  cbn. destruct (select_loop (src :: srcs) (answers w select_prompt))
    as [[r rest] ev'] eqn:Hloop.
  intros Heq. inversion Heq; subst.
  destruct (select_loop_ok _ _ _ _ _ Hloop) as (Hin & consumed & Hlines & Hlen).
  split; [exact Hin |]. split; [reflexivity |].
  exists consumed. cbn. split; [exact Hlines |].
  change (List.length (filter is_prompt (listing 0 (src :: srcs) ++ ev'))
          = List.length consumed).
  rewrite filter_app, listing_no_prompt. exact Hlen.
Qed.

Lemma select_loop_exhausted (l : list (string * string)) (lines : list string) :
  Forall (rejected (List.length l)) lines ->
  select_loop l lines
  = (Raise EOF_when_reading, [],
     List.concat (map rejection lines) ++ [EvInput select_prompt]).
Proof.
  intros Hlines. induction Hlines as [| bad lines Hbad _ IH]; [reflexivity |].
  cbn [select_loop map List.concat]. unfold rejected in Hbad. unfold rejection at 1.
  destruct (py_int bad) as [z |].
  - replace ((0 <=? z) && (z <? Z.of_nat (List.length l))) with false.
    + rewrite IH. reflexivity.
    + symmetry. apply andb_false_iff.
      destruct (Z.leb_spec 0 z); [right | left; reflexivity].
      apply Z.ltb_ge. lia.
  - rewrite IH. reflexivity.
Qed.

(** X12.  With data sources registered, when every line typed is turned
    down (none is typed at all, for one), [_select_dsn] ends by the
    [EOFError] of the prompt that finds no input, after one prompt more
    than there were lines; it does not return a default. *)
Theorem select_dsn_out_of_input (w : World D) :
  pyodbc_dataSources (driver w) <> [] ->
  Forall (rejected (List.length (pyodbc_dataSources (driver w)))) (answers w select_prompt) ->
  exists evs,
    _select_dsn w = (Raise EOF_when_reading, set_answers select_prompt [] w, evs)
    /\ List.length (filter is_prompt evs) = S (List.length (answers w select_prompt)).
Proof.
  intros Hsources Hlines.
  unfold _select_dsn, bind, call, raise, print, emit. cbn.
  destruct (pyodbc_dataSources (driver w)) as [| src srcs] eqn:Hsrc; [now exfalso |].
  cbn. rewrite (select_loop_exhausted (src :: srcs) _ Hlines).
  rewrite set_driver_same. eexists. split; [reflexivity |].
  change (List.length
            (filter is_prompt
               (listing 0 (src :: srcs)
                  ++ List.concat (map rejection (answers w select_prompt))
                  ++ [EvInput select_prompt]))
          = S (List.length (answers w select_prompt))).
  rewrite !filter_app, !length_app, listing_no_prompt, rejections_prompts. cbn. lia.
Qed.

Lemma listing_nth (l : list (string * string)) :
  forall (k : Z) (j : nat) (entry : string * string),
    nth_error l j = Some entry ->
    In (listing_line (k + Z.of_nat j) entry) (listing k l).
Proof.
  induction l as [| [name drv] l IH]; intros k j entry Hnth; [destruct j; discriminate |].
  destruct j as [| j]; cbn [listing].
  - inversion Hnth; subst. left. unfold listing_line. cbn [fst snd].
    replace (k + Z.of_nat 0) with k by lia. reflexivity.
  - right. replace (k + Z.of_nat (S j)) with (k + 1 + Z.of_nat j) by lia.
    apply IH. exact Hnth.
Qed.

Lemma select_dsn_accepts (w : World D) (invalid : list string) (line : string)
    (rest : list string) (i : Z) :
  answers w select_prompt = invalid ++ line :: rest ->
  Forall (rejected (List.length (pyodbc_dataSources (driver w)))) invalid ->
  py_int line = Some i ->
  0 <= i < Z.of_nat (List.length (pyodbc_dataSources (driver w))) ->
  _select_dsn w
  = (Ok (fst (List.nth (Z.to_nat i) (pyodbc_dataSources (driver w))
                (EmptyString, EmptyString))),
     set_answers select_prompt rest w,
     EvDataSources :: EvPrint "Available DSNs:"
       :: listing 0 (pyodbc_dataSources (driver w))
       ++ List.concat (map rejection invalid)
       ++ [EvInput select_prompt;
           EvLog INFO ("User selected DSN: "
                         +s fst (List.nth (Z.to_nat i) (pyodbc_dataSources (driver w))
                                   (EmptyString, EmptyString)))]).
Proof.
  intros Hlines Hinvalid Hline Hrange.
  unfold _select_dsn, bind, call, raise, print, emit. cbn.
  destruct (pyodbc_dataSources (driver w)) as [| src srcs] eqn:Hsrc;
    [cbn in Hrange; lia |].
  cbn. rewrite Hlines.
  rewrite (select_loop_run (src :: srcs) invalid line rest i Hinvalid Hline Hrange).
  rewrite set_driver_same. reflexivity.
Qed.

(** X13.  The index that [_select_dsn] displays in front of a data source
    selects it: with [N] data sources and [0 <= i < N], when the user types
    [i] the way the listing prints it, the entry listed as [[i] name
    (driver)] is the one whose name is returned. *)
Theorem displayed_index_selects (w : World D) (i : Z) (rest : list string) :
  0 <= i < Z.of_nat (List.length (pyodbc_dataSources (driver w))) ->
  answers w select_prompt = PyStr.of_Z i :: rest ->
  exists entry evs,
    nth_error (pyodbc_dataSources (driver w)) (Z.to_nat i) = Some entry
    /\ _select_dsn w = (Ok (fst entry), set_answers select_prompt rest w, evs)
    /\ In (listing_line i entry) evs.
Proof.
  intros Hrange Hline.
  destruct (nth_error (pyodbc_dataSources (driver w)) (Z.to_nat i)) as [entry |] eqn:Hnth.
  2:{ apply nth_error_None in Hnth. lia. }
  exists entry. eexists. split; [reflexivity |].
  assert (Hint : py_int (PyStr.of_Z i) = Some i).
  { apply int_of_Z. pose proof (pyodbc_dataSources_size (driver w)) as Hsize.
    assert (Hmax : PY_SSIZE_T_MAX < 10 ^ Z.of_nat PyStr.MAX_STR_DIGITS_THRESHOLD)
      by (vm_compute; reflexivity).
    revert Hmax. generalize (10 ^ Z.of_nat PyStr.MAX_STR_DIGITS_THRESHOLD).
    generalize dependent PY_SSIZE_T_MAX. intros. lia. }
  rewrite (select_dsn_accepts w [] (PyStr.of_Z i) rest i Hline (Forall_nil _)
             Hint Hrange).
  rewrite (nth_error_nth _ _ _ Hnth).
  split; [reflexivity |].
  right. right. apply in_or_app. left.
  pose proof (listing_nth (pyodbc_dataSources (driver w)) 0 (Z.to_nat i) entry Hnth) as Hin.
  replace (0 + Z.of_nat (Z.to_nat i)) with i in Hin by lia. exact Hin.
Qed.

(** *** [__init__] *)

Lemma truthy_truthy (s : option string) : PyStr.truthy (PyStr.truthy s) = PyStr.truthy s.
Proof. destruct s as [[| c rest] |]; reflexivity. Qed.

(** X14.  [__init__] given a non-empty DSN, username and password asks
    nothing and calls nothing: it stores the three as they are (the
    username is not stripped) with no connection and no cursor.  An empty
    string counts as a missing argument. *)
Theorem init_with_arguments (the_dsn the_username the_password : string) (w : World D) :
  the_dsn <> EmptyString -> the_username <> EmptyString -> the_password <> EmptyString ->
  __init__ (Some the_dsn) (Some the_username) (Some the_password) w
  = (Ok (new_connector the_dsn the_username the_password), w, [])
  /\ (forall a b c,
        __init__ a b c w = __init__ (PyStr.truthy a) (PyStr.truthy b) (PyStr.truthy c) w).
Proof.
  intros Hdsn Huser Hpass. split.
  - destruct the_dsn; [now exfalso |]. destruct the_username; [now exfalso |].
    destruct the_password; [now exfalso |]. reflexivity.
  - intros a b c. unfold __init__. rewrite !truthy_truthy. reflexivity.
Qed.

(** X15.  [__init__] without arguments asks for the DSN, then the
    username, then the password: with a valid selection [i] after any
    invalid lines, it stores the name at index [i], the username typed
    stripped of surrounding blanks and the password exactly as typed, with
    no connection and no cursor. *)
Theorem init_asks_what_is_missing (w : World D) (invalid : list string)
    (line user_line secret : string) (rest user_rest secret_rest : list string) (i : Z) :
  answers w select_prompt = invalid ++ line :: rest ->
  Forall (rejected (List.length (pyodbc_dataSources (driver w)))) invalid ->
  py_int line = Some i ->
  0 <= i < Z.of_nat (List.length (pyodbc_dataSources (driver w))) ->
  answers w username_prompt = user_line :: user_rest ->
  answers w password_prompt = secret :: secret_rest ->
  exists w' evsel,
    __init__ None None None w
    = (Ok (new_connector
             (fst (List.nth (Z.to_nat i) (pyodbc_dataSources (driver w))
                     (EmptyString, EmptyString)))
             (PyStr.strip user_line) secret),
       w', evsel ++ [EvInput username_prompt; EvGetpass password_prompt])
    /\ filter is_prompt evsel = repeat (EvInput select_prompt) (S (List.length invalid))
    /\ answers w' select_prompt = rest
    /\ answers w' username_prompt = user_rest
    /\ answers w' password_prompt = secret_rest
    /\ driver w' = driver w.
Proof.
  intros Hlines Hinvalid Hline Hrange Huser Hsecret.
  unfold __init__. cbn [PyStr.truthy].
  rewrite (bind_ok _ _ _ _ _ _ (select_dsn_accepts w invalid line rest i
                                  Hlines Hinvalid Hline Hrange)).
  unfold bind, input, getpass, read_line, ret. cbn. eval_prompts.
  rewrite Huser. cbn. eval_prompts. rewrite Hsecret.
  eexists.
  exists (EvDataSources :: EvPrint "Available DSNs:"
            :: listing 0 (pyodbc_dataSources (driver w))
            ++ List.concat (map rejection invalid)
            ++ [EvInput select_prompt;
                EvLog INFO ("User selected DSN: "
                              +s fst (List.nth (Z.to_nat i) (pyodbc_dataSources (driver w))
                                        (EmptyString, EmptyString)))]).
  split; [reflexivity |].
  cbn. eval_prompts. repeat split.
  rewrite !filter_app, listing_no_prompt. cbn.
  clear. induction invalid as [| bad invalid IH]; [reflexivity |].
  cbn. f_equal. exact IH.
Qed.

Lemma select_dsn_no_sources (w : World D) :
  pyodbc_dataSources (driver w) = [] ->
  _select_dsn w = (Raise no_sources_found, w, [EvDataSources]).
Proof.
  intros Hnone. unfold _select_dsn, bind, call, raise. cbn. rewrite Hnone.
  rewrite set_driver_same. reflexivity.
Qed.

(** X16.  [__init__] without a (non-empty) DSN on a machine with no data
    source raises the "no DSNs found" error before anything is asked:
    whatever the username and password arguments are, no prompt is issued
    and no manager is built. *)
Theorem init_without_data_source (dsn0 username0 password0 : option string) (w : World D) :
  PyStr.truthy dsn0 = None ->
  pyodbc_dataSources (driver w) = [] ->
  __init__ dsn0 username0 password0 w = (Raise no_sources_found, w, [EvDataSources]).
Proof.
  intros Hdsn Hnone. unfold __init__. rewrite Hdsn.
  apply bind_raise. apply select_dsn_no_sources. exact Hnone.
Qed.

(** X17.  The two constructors differ by the username only: on the same
    world, [DatabaseConnector()] of [connector2.py] asks the same questions
    in the same order as the one of [connector.py], fails when it fails,
    and builds the same manager except that it strips the blanks around the
    username typed. *)
Theorem init_strips_what_legacy_init_keeps (w : World D) :
  __init__ None None None w
  = (let '(r, w', ev) := Legacy.__init__ w in
     (match r with
      | Ok o => Ok (with_username (PyStr.strip (username o)) o)
      | Raise e => Raise e
      end, w', ev)).
Proof.
  unfold __init__, Legacy.__init__. cbn [PyStr.truthy].
  destruct (_select_dsn w) as [[[the_dsn | e] w1] ev1] eqn:Hsel.
  2:{ rewrite !(bind_raise _ _ _ _ _ _ Hsel). reflexivity. }
  rewrite !(bind_ok _ _ _ _ _ _ Hsel).
  unfold bind, input, getpass, read_line, ret.
  destruct (answers w1 username_prompt) as [| user_line user_rest]; [reflexivity |].
  cbn. eval_prompts.
  destruct (answers w1 password_prompt) as [| secret secret_rest]; reflexivity.
Qed.

(** *** The connector of [connector.py] *)

Ltac run_legacy :=
  unfold Legacy.connect, try_except, bind, get_self, set_self, ret,
    logger_info, logger_error, emit, lift, call; cbn.

Lemma legacy_open_raises (st : State D) (e : Exn) (d' : D) :
  pyodbc_connect (conn_str_of (self st)) (driver (world st)) = (Raise e, d') ->
  exists msg,
    Legacy.connect st
    = (Ok (None, None), mkState (self st) (set_driver d' (world st)),
       [EvConnect (conn_str_of (self st)); EvLog ERROR msg]).
Proof.
  intros Hopen. run_legacy. rewrite Hopen.
  destruct (exn_class e); eexists; reflexivity.
Qed.

Lemma legacy_cursor_raises (st : State D) (c : Connection) (e : Exn) (d1 d2 : D) :
  pyodbc_connect (conn_str_of (self st)) (driver (world st)) = (Ok c, d1) ->
  Connection_cursor c d1 = (Raise e, d2) ->
  exists msg,
    Legacy.connect st
    = (Ok (None, None), mkState (with_conn (Some c) (self st)) (set_driver d2 (world st)),
       [EvConnect (conn_str_of (self st)); EvCursor c; EvLog ERROR msg]).
Proof.
  intros Hopen Hcur. run_legacy. rewrite Hopen. cbn. rewrite Hcur.
  destruct (exn_class e); eexists; reflexivity.
Qed.

Lemma legacy_succeeds (st : State D) (c : Connection) (cur : Cursor) (d1 d2 : D) :
  pyodbc_connect (conn_str_of (self st)) (driver (world st)) = (Ok c, d1) ->
  Connection_cursor c d1 = (Ok cur, d2) ->
  Legacy.connect st
  = (Ok (Some c, Some cur),
     mkState (with_cursor (Some cur) (with_conn (Some c) (self st)))
             (set_driver d2 (world st)),
     [EvConnect (conn_str_of (self st)); EvCursor c;
      EvLog INFO (Legacy.connected_message (self st))]).
Proof.
  intros Hopen Hcur. run_legacy. rewrite Hopen. cbn. rewrite Hcur. reflexivity.
Qed.

(** X18.  [connect] of [connector.py] always returns, never asks anything
    and calls [pyodbc.connect] exactly once; it returns either
    [(None, None)] or the connection and cursor it has stored, and leaves
    DSN, username and password as they were. *)
Theorem legacy_connect_single_attempt (st : State D) :
  exists r st' ev,
    Legacy.connect st = (Ok r, st', ev)
    /\ attempts_in ev = 1%nat
    /\ filter is_prompt ev = []
    /\ filter is_close_call ev = []
    /\ dsn (self st') = dsn (self st)
    /\ username (self st') = username (self st)
    /\ password (self st') = password (self st)
    /\ (r = (None, None)
        \/ exists c cur, r = (Some c, Some cur)
                         /\ conn (self st') = Some c /\ cursor (self st') = Some cur).
Proof.
  destruct (pyodbc_connect (conn_str_of (self st)) (driver (world st)))
    as [[c | e] d1] eqn:Hopen.
  - destruct (Connection_cursor c d1) as [[cur | e] d2] eqn:Hcur.
    + rewrite (legacy_succeeds _ _ _ _ _ Hopen Hcur).
      do 3 eexists. split; [reflexivity |]. repeat split. right. eauto.
    + destruct (legacy_cursor_raises _ _ _ _ _ Hopen Hcur) as (msg & ->).
      do 3 eexists. split; [reflexivity |]. repeat split. left. reflexivity.
  - destruct (legacy_open_raises _ _ _ Hopen) as (msg & ->).
    do 3 eexists. split; [reflexivity |]. repeat split. left. reflexivity.
Qed.

(** X19.  [connect] of [connector.py], when the driver opens a connection
    [c] but cannot derive its cursor, returns [(None, None)] and yet leaves
    [c] stored in the manager, with the cursor as it was, and does not
    close [c]. *)
Theorem legacy_connect_keeps_cursorless_connection (st : State D) (c : Connection)
    (e : Exn) (d1 d2 : D) :
  pyodbc_connect (conn_str_of (self st)) (driver (world st)) = (Ok c, d1) ->
  Connection_cursor c d1 = (Raise e, d2) ->
  exists st' ev,
    Legacy.connect st = (Ok (None, None), st', ev)
    /\ conn (self st') = Some c
    /\ cursor (self st') = cursor (self st)
    /\ filter is_close_call ev = [].
Proof.
  intros Hopen Hcur.
  destruct (legacy_cursor_raises _ _ _ _ _ Hopen Hcur) as (msg & ->).
  do 2 eexists. repeat split.
Qed.

(** X20.  When the attempt succeeds, the two connectors agree: for every
    [max_attempts >= 1], [connect] of [connector2.py] returns the same pair
    as [connect] of [connector.py], leaves the same manager and driver
    state, and asks nothing either. *)
Theorem connect_agrees_with_legacy_on_success (k : Z) (allow rp : bool) (st : State D)
    (c : Connection) (cur : Cursor) (d1 d2 : D) :
  1 <= k ->
  pyodbc_connect (conn_str_of (self st)) (driver (world st)) = (Ok c, d1) ->
  Connection_cursor c d1 = (Ok cur, d2) ->
  fst (connect k allow rp st) = fst (Legacy.connect st)
  /\ fst (fst (connect k allow rp st)) = Ok (Some c, Some cur)
  /\ filter is_prompt (snd (connect k allow rp st)) = []
  /\ attempts_in (snd (connect k allow rp st)) = 1%nat.
Proof.
  intros Hk Hopen Hcur. unfold connect. rewrite Z.sub_0_r.
  destruct (Z.to_nat k) as [| n] eqn:Hn; [lia |].
  cbn [connect_loop].
  rewrite (bind_ok _ _ _ _ _ _ (attempt_succeeds (0 + 1) st c cur d1 d2 Hopen Hcur)).
  rewrite (legacy_succeeds _ _ _ _ _ Hopen Hcur).
  repeat split.
Qed.

(** X21.  On a machine where pandas cannot be imported, [query_dataframe]
    raises [ModuleNotFoundError] whether or not the manager is connected:
    the import comes before the connection check, nothing is called and
    the manager is unchanged. *)
Theorem query_dataframe_needs_pandas (sql : string) (st : State D) :
  pandas_importable (driver (world st)) = false ->
  query_dataframe sql st
  = (Raise (mkExn ModuleNotFoundError "No module named 'pandas'"), st, []).
Proof.
  intros Hpandas. unfold query_dataframe, bind, import_pandas. rewrite Hpandas. reflexivity.
Qed.

(** *** The script [main2.py] *)

Lemma events_bind {S A B : Type} (Q : Event -> bool) (c : M S A) (k : A -> M S B) (s : S) :
  forallb Q (snd (c s)) = true ->
  (forall x s1 ev1, c s = (Ok x, s1, ev1) -> forallb Q (snd (k x s1)) = true) ->
  forallb Q (snd (bind c k s)) = true.
Proof.
  intros Hc Hk. unfold bind.
  destruct (c s) as [[[x | e] s1] ev1]; cbn [snd] in *; [| exact Hc].
  specialize (Hk x s1 ev1 eq_refl).
  destruct (k x s1) as [[r s2] ev2]. cbn [snd] in *.
  rewrite forallb_app, Hc, Hk. reflexivity.
Qed.

Lemma read_line_connect_events (ev : Event) (eof : Exn) (p : string) (w : World D) :
  is_connect_event ev = true ->
  forallb is_connect_event (snd (read_line ev eof p w)) = true.
Proof.
  intros Hev. unfold read_line. destruct (answers w p); cbn; rewrite Hev; reflexivity.
Qed.

Lemma init_connect_events (dsn0 username0 password0 : option string) (w : World D) :
  forallb is_connect_event (snd (__init__ dsn0 username0 password0 w)) = true.
Proof.
  unfold __init__.
  apply events_bind.
  { destruct (PyStr.truthy dsn0); [reflexivity | apply select_dsn_connect_events]. }
  intros the_dsn w1 _ _. apply events_bind.
  { destruct (PyStr.truthy username0); [reflexivity |].
    apply events_bind; [apply read_line_connect_events; reflexivity |].
    intros line w2 _ _. reflexivity. }
  intros the_username w2 _ _. apply events_bind.
  { destruct (PyStr.truthy password0); [reflexivity |].
    apply read_line_connect_events. reflexivity. }
  intros the_password w3 _ _. reflexivity.
Qed.

Lemma query_dataframe_no_close (sql : string) (st : State D) :
  filter is_close_call (snd (query_dataframe sql st)) = [].
Proof.
  unfold query_dataframe, bind, import_pandas, get_self, raise, lift, call.
  destruct (pandas_importable (driver (world st))); [| reflexivity].
  cbn. destruct (conn (self st)) as [c |]; [| reflexivity].
  destruct (pd_read_sql sql c (driver (world st))) as [r d']. reflexivity.
Qed.

Lemma close_no_query (st : State D) : filter is_query (snd (close st)) = [].
Proof.
  destruct st as [[the_dsn the_user the_pass [c |] [cur |]] w];
    unfold close, try_except, bind, get_self, lift, call, logger_info, logger_error, emit, ret;
    cbn.
  - destruct (Cursor_close cur (driver w)) as [[[] | e] d1]; cbn; [| reflexivity].
    destruct (Connection_close c d1) as [[[] | e] d2]; reflexivity.
  - destruct (Connection_close c (driver w)) as [[[] | e] d2]; reflexivity.
  - destruct (Cursor_close cur (driver w)) as [[[] | e] d1]; reflexivity.
  - reflexivity.
Qed.

Variable show_head : DataFrame -> string.

(** X22.  In [main2.py], when the manager is built and connected but
    [query_dataframe] raises (the query fails, or pandas is missing), the
    script ends with that exception and [db.close()] is never reached: no
    [close] call is made on the cursor or the connection just opened. *)
Theorem main2_skips_close_when_query_raises (w w1 : World D) (db : DatabaseConnector)
    (st2 st3 : State D) (ev1 ev2 ev3 : list Event) (c : Connection) (cur : Cursor)
    (e : Exn) :
  __init__ None None None w = (Ok db, w1, ev1) ->
  connect 5 true false (mkState db w1) = (Ok (Some c, Some cur), st2, ev2) ->
  query_dataframe main2_sql st2 = (Raise e, st3, ev3) ->
  main2 show_head w = (Raise e, world st3, ev1 ++ ev2 ++ ev3)
  /\ filter is_close_call (ev1 ++ ev2 ++ ev3) = []
  /\ conn (self st3) = Some c.
Proof.
  intros Hinit Hconnect Hquery.
  unfold main2. rewrite Hinit. unfold main2_body.
  rewrite (bind_ok _ _ _ _ _ _ Hconnect). cbn [fst].
  assert (Hinner : bind (query_dataframe main2_sql) (fun df => print (show_head df)) st2
                   = (Raise e, st3, ev3))
    by (apply bind_raise; exact Hquery).
  rewrite (bind_raise _ _ _ _ _ _ Hinner).
  split; [reflexivity |]. split.
  - rewrite !filter_app.
    pose proof (init_connect_events None None None w) as Hk1. rewrite Hinit in Hk1.
    pose proof (connect_never_closes_aux 5 true false (mkState db w1)) as Hk2.
    rewrite Hconnect in Hk2.
    pose proof (query_dataframe_no_close main2_sql st2) as Hk3. rewrite Hquery in Hk3.
    cbn [snd] in Hk1, Hk2, Hk3.
    rewrite (proj1 (connect_events_filters _ Hk1)), Hk2, Hk3. reflexivity.
  - pose proof (connect_loop_returns_stored (Z.to_nat (5 - 0)) true false 0 (mkState db w1))
      as Hstored.
    unfold connect in Hconnect. rewrite Hconnect in Hstored. cbn in Hstored.
    destruct Hstored as [Habs | (c' & cur' & Heq & Hconn & _)]; [discriminate |].
    inversion Heq; subst c' cur'.
    revert Hquery.
    unfold query_dataframe, bind, import_pandas, get_self, raise, lift, call.
    destruct (pandas_importable (driver (world st2))).
    + cbn. rewrite Hconn.
      destruct (pd_read_sql main2_sql c (driver (world st2))) as [r d'].
      intros Heq'. inversion Heq'; subst. exact Hconn.
    + intros Heq'. inversion Heq'; subst. exact Hconn.
Qed.

(** X23.  In [main2.py], when the manager is built but [connect] returns
    no connection, the script runs no query: it goes straight to
    [db.close()] and ends normally. *)
Theorem main2_without_connection (w w1 : World D) (db : DatabaseConnector)
    (st2 : State D) (ev1 ev2 : list Event) (returned_cursor : option Cursor) :
  __init__ None None None w = (Ok db, w1, ev1) ->
  connect 5 true false (mkState db w1) = (Ok (None, returned_cursor), st2, ev2) ->
  main2 show_head w
  = (let '(r, st3, ev3) := close st2 in (r, world st3, ev1 ++ ev2 ++ ev3))
  /\ fst (fst (main2 show_head w)) = Ok tt
  /\ filter is_query (snd (main2 show_head w)) = [].
Proof.
  intros Hinit Hconnect.
  assert (Hrun : main2 show_head w
                 = (let '(r, st3, ev3) := close st2 in (r, world st3, ev1 ++ ev2 ++ ev3))).
  { unfold main2. rewrite Hinit. unfold main2_body.
    rewrite (bind_ok _ _ _ _ _ _ Hconnect). cbn [fst].
    rewrite (bind_ok _ _ st2 st2 tt []) by reflexivity.
    destruct (close st2) as [[r st3] ev3]. reflexivity. }
  split; [exact Hrun |]. rewrite Hrun.
  destruct (close_run st2) as (w3 & ev3 & Hclose & _).
  pose proof (close_no_query st2) as Hq. rewrite Hclose in Hq |- *. cbn [snd] in Hq.
  cbn [fst snd]. split; [reflexivity |].
  rewrite !filter_app, Hq.
  pose proof (init_connect_events None None None w) as Hk1. rewrite Hinit in Hk1.
  pose proof (connect_never_queries_aux 5 true false (mkState db w1)) as Hk2.
  rewrite Hconnect in Hk2. cbn [snd] in Hk1, Hk2.
  rewrite (proj2 (connect_events_filters _ Hk1)), Hk2. reflexivity.
Qed.

(** *** [connect] with [allow_change_dsn=False] *)

Lemma keeps_dsn_bind {X Y : Type} (d : string) (c : M (State D) X)
    (k : X -> M (State D) Y) (st : State D) :
  keeps_dsn d (c st) ->
  (forall x st1 ev1, c st = (Ok x, st1, ev1) -> dsn (self st1) = d -> keeps_dsn d (k x st1)) ->
  keeps_dsn d (bind c k st).
Proof.
  intros [Hdsn Hev] Hk. unfold bind.
  destruct (c st) as [[[x | e] st1] ev1]; cbn [fst snd] in *; [| split; assumption].
  specialize (Hk x st1 ev1 eq_refl Hdsn).
  destruct (k x st1) as [[r st2] ev2]. destruct Hk as [Hdsn2 Hev2].
  unfold keeps_dsn. cbn [fst snd] in *. split; [exact Hdsn2 |].
  rewrite forallb_app, Hev, Hev2. reflexivity.
Qed.

Lemma attempt_connection_keeps_dsn (attempts : Z) (st : State D) :
  keeps_dsn (dsn (self st)) (attempt_connection attempts st).
Proof.
  destruct (pyodbc_connect (conn_str_of (self st)) (driver (world st)))
    as [[c | e] d1] eqn:Hopen.
  - destruct (Connection_cursor c d1) as [[cur | e] d2] eqn:Hcur.
    + rewrite (attempt_succeeds _ _ _ _ _ _ Hopen Hcur). split; reflexivity.
    + rewrite (attempt_cursor_raises _ _ _ _ _ _ Hopen Hcur). split; reflexivity.
  - rewrite (attempt_open_raises _ _ _ _ Hopen). split; reflexivity.
Qed.

Lemma lift_read_line_keeps_dsn (ev : Event) (eof : Exn) (p : string) (st : State D) :
  is_selection_event ev = false ->
  keeps_dsn (dsn (self st)) (lift (read_line ev eof p) st).
Proof.
  intros Hev. unfold lift, read_line.
  destruct (answers (world st) p); (split; [reflexivity | cbn; rewrite Hev; reflexivity]).
Qed.

Lemma prompt_credentials_keeps_dsn (rp : bool) (st : State D) :
  keeps_dsn (dsn (self st)) (_prompt_credentials rp st).
Proof.
  unfold _prompt_credentials. apply keeps_dsn_bind.
  - destruct rp; [| split; reflexivity].
    apply keeps_dsn_bind; [apply lift_read_line_keeps_dsn; reflexivity |].
    intros line st1 _ _ Hdsn. split; [exact Hdsn | reflexivity].
  - intros _ st1 _ _ Hdsn.
    apply keeps_dsn_bind.
    + rewrite <- Hdsn. apply lift_read_line_keeps_dsn. reflexivity.
    + intros secret st2 _ _ Hdsn2. split; [exact Hdsn2 | reflexivity].
Qed.

Lemma connect_loop_keeps_dsn (n : nat) (rp : bool) :
  forall (attempts : Z) (st : State D),
    keeps_dsn (dsn (self st)) (connect_loop n attempts false rp st).
Proof.
  induction n as [| n IH]; intros attempts st; [split; reflexivity |].
  cbn [connect_loop]. apply keeps_dsn_bind; [apply attempt_connection_keeps_dsn |].
  intros [returned |] st1 _ _ Hdsn; [split; [exact Hdsn | reflexivity] |].
  apply keeps_dsn_bind; [split; [exact Hdsn | reflexivity] |].
  intros _ st2 _ _ Hdsn2. apply keeps_dsn_bind.
  { rewrite <- Hdsn2. apply lift_read_line_keeps_dsn. reflexivity. }
  intros line st3 _ _ Hdsn3.
  destruct (String.eqb (PyStr.lower (PyStr.strip line)) "n");
    [split; [exact Hdsn3 | reflexivity] |].
  apply keeps_dsn_bind; [split; [exact Hdsn3 | reflexivity] |].
  intros _ st4 _ _ Hdsn4. apply keeps_dsn_bind.
  { rewrite <- Hdsn4. apply prompt_credentials_keeps_dsn. }
  intros _ st5 _ _ Hdsn5. rewrite <- Hdsn5. apply IH.
Qed.

(** X24.  With [allow_change_dsn=False], whatever the driver and the user
    do, [connect] never offers to change the DSN, never enumerates the data
    sources, never shows the selection prompt, and ends (normally or not)
    with the DSN the manager had. *)
Theorem connect_without_dsn_change (k : Z) (rp : bool) (st : State D) :
  dsn (self (snd (fst (connect k false rp st)))) = dsn (self st)
  /\ filter is_selection_event (snd (connect k false rp st)) = [].
Proof.
  destruct (connect_loop_keeps_dsn (Z.to_nat (k - 0)) rp 0 st) as [Hdsn Hev].
  split; [exact Hdsn |].
  unfold connect. revert Hev.
  generalize (snd (connect_loop (Z.to_nat (k - 0)) 0 false rp st)).
  intros evs. induction evs as [| ev evs IH]; [reflexivity |].
  cbn. destruct (is_selection_event ev); cbn; [discriminate | exact IH].
Qed.

End MoreProperties.

(** ** The further properties at work on the scripted driver *)

Module MoreRuns.

Import Bench Cases MoreCases.

Lemma connect_lets_only_eof_escape_example :
  (raised_at_own_prompt EOF_when_reading
     (snd (fst (connect 2 true false silent))) (snd (connect 2 true false silent))
   /\ exn_class EOF_when_reading = EOFError)
  /\ (raised_at_own_prompt EOF_in_getpass
        (snd (fst (connect 2 false false no_password)))
        (snd (connect 2 false false no_password))
      /\ exn_class EOF_in_getpass = EOFError).
Proof.
  split.
  - apply (connect_lets_only_eof_escape 2 true false silent). reflexivity.
  - apply (connect_lets_only_eof_escape 2 false false no_password). reflexivity.
Defined.

Lemma connect_attempts_bounded_example :
  (attempts_in (snd (connect 2 true false stubborn)) <= Z.to_nat 2)%nat
  /\ (1 <= attempts_in (snd (connect 2 true false stubborn)))%nat.
Proof.
  destruct (connect_attempts_bounded 2 true false stubborn) as [Hmax Hmin].
  split; [exact Hmax | apply Hmin; lia].
Defined.

Lemma connect_returns_stored_pair_example :
  (Some (ConnectionHandle 5), Some (CursorHandle 5)) = (None, None)
  \/ exists c cur,
      (Some (ConnectionHandle 5), Some (CursorHandle 5)) = (Some c, Some cur)
      /\ conn (self (snd (fst (connect 3 true false first_time_lucky)))) = Some c
      /\ cursor (self (snd (fst (connect 3 true false first_time_lucky)))) = Some cur.
Proof.
  apply (connect_returns_stored_pair 3 true false first_time_lucky
           (snd (fst (connect 3 true false first_time_lucky)))
           (Some (ConnectionHandle 5), Some (CursorHandle 5))
           (snd (connect 3 true false first_time_lucky))).
  reflexivity.
Defined.

Lemma connect_stops_when_declined_example :
  exists st' evs,
    connect 4 true true declining = (Ok (None, None), st', evs ++ giving_up)
    /\ attempts_in evs = 1%nat
    /\ filter is_prompt evs = [EvInput retry_prompt]
    /\ dsn (self st') = dsn (self declining)
    /\ username (self st') = username (self declining)
    /\ password (self st') = password (self declining)
    /\ answers (world st') retry_prompt = [].
Proof.
  apply (connect_stops_when_declined 4 true true declining (machine []) " N " []).
  - lia.
  - apply open_raises with login_failed. reflexivity.
  - reflexivity.
  - reflexivity.
Defined.

Lemma connect_eof_at_retry_prompt_example :
  exists st' evs,
    connect 2 true false silent = (Raise EOF_when_reading, st', evs ++ [EvInput retry_prompt])
    /\ attempts_in evs = 1%nat
    /\ filter is_prompt evs = []
    /\ (forall ev, In ev giving_up -> ~ In ev (evs ++ [EvInput retry_prompt])).
Proof.
  apply (connect_eof_at_retry_prompt 2 true false silent (machine [])).
  - lia.
  - apply open_raises with login_failed. reflexivity.
  - reflexivity.
Defined.

Lemma prompt_credentials_values_example :
  exists w',
    _prompt_credentials true retyping
    = (Ok tt,
       mkState (mkDatabaseConnector "Sales" "bob" " s3cret " None None) w',
       [EvInput username_prompt; EvGetpass password_prompt])
    /\ driver w' = driver (world retyping)
    /\ answers w' password_prompt = []
    /\ (forall p, String.eqb p username_prompt = false ->
                  String.eqb p password_prompt = false ->
                  answers w' p = answers (world retyping) p).
Proof.
  refine (prompt_credentials_values true retyping " bob " " s3cret " [] [] _ _).
  - intros _. reflexivity.
  - reflexivity.
Defined.

Lemma prompt_credentials_half_done_example :
  exists st',
    _prompt_credentials true half_typed
    = (Raise EOF_in_getpass, st', [EvInput username_prompt; EvGetpass password_prompt])
    /\ username (self st') = "bob"
    /\ password (self st') = "pw0"
    /\ dsn (self st') = "Sales"
    /\ conn (self st') = None
    /\ cursor (self st') = None
    /\ answers (world st') username_prompt = []
    /\ driver (world st') = driver (world half_typed).
Proof.
  refine (prompt_credentials_half_done half_typed " bob " [] _ _); reflexivity.
Defined.

Lemma retry_uses_typed_credentials_example :
  exists before after,
    snd (connect 2 false true retyping)
    = before ++ EvConnect "DSN=Sales;UID=bob;PWD= s3cret " :: after
    /\ attempts_in before = 1%nat.
Proof.
  refine (retry_uses_typed_credentials 2 true retyping (machine [])
            "y" " bob " " s3cret " [] [] [] _ _ _ _ _ _).
  - lia.
  - apply open_raises with login_failed. reflexivity.
  - reflexivity.
  - intros Heq. vm_compute in Heq. discriminate Heq.
  - intros _. reflexivity.
  - reflexivity.
Defined.

Lemma retry_uses_selected_dsn_example :
  exists before after,
    snd (connect 2 true true reselecting_as_bob)
    = before ++ EvConnect "DSN=HR;UID=bob;PWD=pw1" :: after
    /\ attempts_in before = 1%nat.
Proof.
  refine (retry_uses_selected_dsn 2 true reselecting_as_bob (machine [])
            "y" "Y" " bob " "pw1" "HR" [] [] [] []
            (snd (fst (_select_dsn
               (set_answers change_dsn_prompt []
                  (set_answers retry_prompt []
                     (set_driver (machine []) (world reselecting_as_bob)))))))
            (snd (_select_dsn
               (set_answers change_dsn_prompt []
                  (set_answers retry_prompt []
                     (set_driver (machine []) (world reselecting_as_bob))))))
            _ _ _ _ _ _ _ _ _).
  - lia.
  - apply open_raises with login_failed. reflexivity.
  - reflexivity.
  - intros Heq. vm_compute in Heq. discriminate Heq.
  - reflexivity.
  - reflexivity.
  - reflexivity.
  - intros _. reflexivity.
  - reflexivity.
Defined.

Lemma select_dsn_returns_listed_name_example :
  In "Sales" (map fst (pyodbc_dataSources (driver one_source)))
  /\ driver (snd (fst (_select_dsn one_source))) = driver one_source
  /\ exists consumed,
      answers one_source select_prompt
      = consumed ++ answers (snd (fst (_select_dsn one_source))) select_prompt
      /\ List.length (filter is_prompt (snd (_select_dsn one_source)))
         = List.length consumed.
Proof.
  apply (select_dsn_returns_listed_name one_source
           (snd (fst (_select_dsn one_source))) "Sales" (snd (_select_dsn one_source))).
  reflexivity.
Defined.

Lemma select_dsn_out_of_input_example :
  exists evs,
    _select_dsn never_valid
    = (Raise EOF_when_reading, set_answers select_prompt [] never_valid, evs)
    /\ List.length (filter is_prompt evs) = 3%nat.
Proof.
  refine (select_dsn_out_of_input never_valid _ _).
  - discriminate.
  - constructor; [exact I |]. constructor; [| constructor].
    change (~ (0 <= 7 < Z.of_nat 2)). lia.
Defined.

Lemma displayed_index_selects_example :
  exists entry evs,
    nth_error (pyodbc_dataSources (driver picks_second)) (Z.to_nat 1) = Some entry
    /\ _select_dsn picks_second
       = (Ok (fst entry), set_answers select_prompt [] picks_second, evs)
    /\ In (listing_line 1 entry) evs.
Proof.
  refine (displayed_index_selects picks_second 1 [] _ _).
  - cbn. lia.
  - reflexivity.
Defined.

Lemma init_with_arguments_example :
  __init__ (Some "Sales") (Some " ann ") (Some "pw") unattended
  = (Ok (new_connector "Sales" " ann " "pw"), unattended, [])
  /\ (forall a b c,
        __init__ a b c unattended
        = __init__ (PyStr.truthy a) (PyStr.truthy b) (PyStr.truthy c) unattended).
Proof.
  apply (init_with_arguments "Sales" " ann " "pw" unattended); discriminate.
Defined.

Lemma init_asks_what_is_missing_example :
  exists w' evsel,
    __init__ None None None unattended
    = (Ok (new_connector "HR" "ann" " pw "), w',
       evsel ++ [EvInput username_prompt; EvGetpass password_prompt])
    /\ filter is_prompt evsel = repeat (EvInput select_prompt) 2
    /\ answers w' select_prompt = []
    /\ answers w' username_prompt = []
    /\ answers w' password_prompt = []
    /\ driver w' = driver unattended.
Proof.
  refine (init_asks_what_is_missing unattended ["x"] "1" " ann " " pw " [] [] [] 1
            _ _ _ _ _ _).
  - reflexivity.
  - constructor; [exact I | constructor].
  - reflexivity.
  - cbn. lia.
  - reflexivity.
  - reflexivity.
Defined.

Lemma init_without_data_source_example :
  __init__ (Some EmptyString) (Some "ann") None (world nothing_to_select)
  = (Raise no_sources_found, world nothing_to_select, [EvDataSources]).
Proof.
  apply (init_without_data_source (Some EmptyString) (Some "ann") None
           (world nothing_to_select)); reflexivity.
Defined.

Lemma legacy_connect_keeps_cursorless_connection_example :
  exists st' ev,
    Legacy.connect cursorless = (Ok (None, None), st', ev)
    /\ conn (self st') = Some (ConnectionHandle 7)
    /\ cursor (self st') = cursor (self cursorless)
    /\ filter is_close_call ev = [].
Proof.
  eapply (legacy_connect_keeps_cursorless_connection cursorless (ConnectionHandle 7));
    reflexivity.
Defined.

Lemma connect_agrees_with_legacy_on_success_example :
  fst (connect 3 true true first_time_lucky) = fst (Legacy.connect first_time_lucky)
  /\ fst (fst (connect 3 true true first_time_lucky))
     = Ok (Some (ConnectionHandle 5), Some (CursorHandle 5))
  /\ filter is_prompt (snd (connect 3 true true first_time_lucky)) = []
  /\ attempts_in (snd (connect 3 true true first_time_lucky)) = 1%nat.
Proof.
  eapply (connect_agrees_with_legacy_on_success 3 true true first_time_lucky
            (ConnectionHandle 5) (CursorHandle 5)).
  - lia.
  - reflexivity.
  - reflexivity.
Defined.

Lemma query_dataframe_needs_pandas_example :
  query_dataframe "SELECT 1" no_pandas
  = (Raise (mkExn ModuleNotFoundError "No module named 'pandas'"), no_pandas, []).
Proof. apply (query_dataframe_needs_pandas "SELECT 1" no_pandas). reflexivity. Defined.

Lemma main2_skips_close_when_query_raises_example :
  exists w' ev,
    main2 show_rows query_fails = (Raise bad_query, w', ev)
    /\ filter is_close_call ev = []
    /\ In (EvReadSql main2_sql (ConnectionHandle 5)) ev.
Proof.
  pose (built := __init__ None None None query_fails).
  pose (linked := connect 5 true false (mkState (new_connector "Sales" "ann" "pw")
                                           (snd (fst built)))).
  pose (asked := query_dataframe main2_sql (snd (fst linked))).
  assert (Hinit : __init__ None None None query_fails
                  = (Ok (new_connector "Sales" "ann" "pw"), snd (fst built), snd built))
    by reflexivity.
  assert (Hconnect : connect 5 true false
                       (mkState (new_connector "Sales" "ann" "pw") (snd (fst built)))
                     = (Ok (Some (ConnectionHandle 5), Some (CursorHandle 5)),
                        snd (fst linked), snd linked))
    by reflexivity.
  assert (Hquery : query_dataframe main2_sql (snd (fst linked))
                   = (Raise bad_query, snd (fst asked), snd asked))
    by reflexivity.
  destruct (main2_skips_close_when_query_raises show_rows query_fails
              (snd (fst built)) (new_connector "Sales" "ann" "pw")
              (snd (fst linked)) (snd (fst asked))
              (snd built) (snd linked) (snd asked)
              (ConnectionHandle 5) (CursorHandle 5) bad_query
              Hinit Hconnect Hquery)
    as (Hrun & Hclose & _).
  do 2 eexists. split; [exact Hrun |]. split; [exact Hclose |].
  vm_compute. auto 20.
Defined.

Lemma main2_without_connection_example :
  fst (fst (main2 show_rows login_refused)) = Ok tt
  /\ filter is_query (snd (main2 show_rows login_refused)) = [].
Proof.
  pose (built := __init__ None None None login_refused).
  pose (linked := connect 5 true false (mkState (new_connector "Sales" "ann" "pw")
                                           (snd (fst built)))).
  assert (Hinit : __init__ None None None login_refused
                  = (Ok (new_connector "Sales" "ann" "pw"), snd (fst built), snd built))
    by reflexivity.
  assert (Hconnect : connect 5 true false
                       (mkState (new_connector "Sales" "ann" "pw") (snd (fst built)))
                     = (Ok (None, None), snd (fst linked), snd linked))
    by reflexivity.
  exact (proj2 (main2_without_connection show_rows login_refused
                  (snd (fst built)) (new_connector "Sales" "ann" "pw")
                  (snd (fst linked)) (snd built) (snd linked) None
                  Hinit Hconnect)).
Defined.

End MoreRuns.
